(** * The Docker registry client of kubesphere (package [registry])

    A shallow embedding of [pkg/registry]: registry construction
    ([CreateRegistryClient], [GetAuthConfig], [setDefaultRegistry],
    [newFromTransport], [New]), URL building ([url], [GetDigestUrl],
    [GetBlobUrl]), response decoding ([GetRespBody]), the manifest and
    blob fetchers ([Digest], [Blob]) and the token negotiation ([Token]).

    Go strings and byte slices are byte sequences; both are [string] here
    (a list of 8-bit [ascii]).  A Go result pair [(v, err)] is the pair
    [(v, o)] with [o : option error], [None] being the nil error.  The
    libraries that the package calls ([net/url], [compress/gzip],
    [encoding/json]) and the network are interfaces, so that every result
    holds for whatever they answer; a reference implementation of each is
    given to run the functions on concrete inputs.  Calls to the logger
    only write to the log and are left out.

    The callers and the neighbours of the package that the sources hold
    follow it: the image inspection of package [registries], the mail
    server of package [devops] with its handler, the options of the
    server (package [options]) and the Jenkins client (package
    [jenkins]). *)

From Stdlib Require Import ZArith String Ascii List DecimalString Lia.
From stdpp Require Import base strings gmap.

Open Scope string_scope.

(** ** The parts of the Go library the package uses *)

Module Go.

(** Values of the interface type [error].  [errorString] is what
    [errors.New] and [fmt.Errorf] build; the other constructors are the
    failures raised inside the libraries. *)
Inductive error : Type :=
| errorString (msg : string)
| urlError (op : string) (url : string)
| netError (msg : string)
| gzipError (msg : string)
| jsonSyntaxError (msg : string)
| jsonTypeError (field : string).

(** A call either returns or panics (a nil dereference at run time). *)
Inductive outcome (A : Type) : Type :=
| Returns (a : A)
| Panics (msg : string).
Arguments Returns {A} a.
Arguments Panics {A} msg.

(** *** [strings] *)

Fixpoint strings_HasSuffix (s suffix : string) : bool :=
  if String.eqb s suffix then true
  else match s with
       | EmptyString => false
       | String _ s' => strings_HasSuffix s' suffix
       end.

(** [if HasSuffix(s, suffix) { return s[:len(s)-len(suffix)] }; return s] *)
Definition strings_TrimSuffix (s suffix : string) : string :=
  if strings_HasSuffix s suffix
  then substring 0 (String.length s - String.length suffix) s
  else s.

(** *** [fmt]: the verbs [%s] and [%d] *)

Inductive fmt_arg : Type :=
| ArgS (s : string)
| ArgD (n : Z).

Definition strconv_Itoa (n : Z) : string := NilZero.string_of_int (Z.to_int n).

Definition fmt_verb (v : ascii) (a : fmt_arg) : string :=
  match a with
  | ArgS s => if Ascii.eqb v "s" then s
              else "%!" +:+ String v ("(string=" +:+ s +:+ ")")
  | ArgD n => if Ascii.eqb v "d" then strconv_Itoa n
              else "%!" +:+ String v ("(int=" +:+ strconv_Itoa n +:+ ")")
  end.

Fixpoint fmt_Sprintf (format : string) (args : list fmt_arg) : string :=
  match format with
  | EmptyString => EmptyString
  | String c rest =>
      if Ascii.eqb c "%" then
        match rest with
        | EmptyString => "%!(NOVERB)"
        | String v rest' =>
            if Ascii.eqb v "%" then String "%" (fmt_Sprintf rest' args)
            else match args with
                 | a :: args' => fmt_verb v a +:+ fmt_Sprintf rest' args'
                 | [] => "%!" +:+ String v ("(MISSING)" +:+ fmt_Sprintf rest' [])
                 end
        end
      else String c (fmt_Sprintf rest args)
  end.

Definition fmt_Errorf (format : string) (args : list fmt_arg) : error :=
  errorString (fmt_Sprintf format args).

(** *** [net/http] *)

(** [http.Header] is a [map[string][]string] under canonical keys. *)
Definition is_lower (c : ascii) : bool :=
  (97 <=? nat_of_ascii c)%nat && (nat_of_ascii c <=? 122)%nat.
Definition is_upper (c : ascii) : bool :=
  (65 <=? nat_of_ascii c)%nat && (nat_of_ascii c <=? 90)%nat.
Definition to_upper (c : ascii) : ascii :=
  if is_lower c then ascii_of_nat (nat_of_ascii c - 32) else c.
Definition to_lower (c : ascii) : ascii :=
  if is_upper c then ascii_of_nat (nat_of_ascii c + 32) else c.

(** [textproto.CanonicalMIMEHeaderKey] on keys made of letters, digits
    and [-]: the first letter and every letter after a [-] in upper
    case, the others in lower case. *)
Fixpoint canonical_from (upper : bool) (s : string) : string :=
  match s with
  | EmptyString => EmptyString
  | String c s' =>
      String (if upper then to_upper c else to_lower c)
             (canonical_from (Ascii.eqb c "-") s')
  end.
Definition CanonicalMIMEHeaderKey (s : string) : string := canonical_from true s.

Definition Header_Get (h : gmap string (list string)) (key : string) : string :=
  match h !! CanonicalMIMEHeaderKey key with
  | Some (v :: _) => v
  | _ => ""
  end.

Definition Header_Add (h : gmap string (list string)) (key value : string)
  : gmap string (list string) :=
  let k := CanonicalMIMEHeaderKey key in
  <[k := (default [] (h !! k) ++ [value])%list]> h.

Definition Header_Set (h : gmap string (list string)) (key value : string)
  : gmap string (list string) :=
  <[CanonicalMIMEHeaderKey key := [value]]> h.

(** The body of a response as [ioutil.ReadAll] sees it: the bytes the
    stream delivers and the error that ends it, if any. *)
Record Body : Type := mkBody { body_bytes : string; body_err : option error }.

Definition ioutil_ReadAll (b : Body) : string * option error :=
  (body_bytes b, body_err b).

Record Request : Type := mkRequest {
  Method : string;
  URL : string;
  ReqHeader : gmap string (list string)
}.

Record Response : Type := mkResponse {
  StatusCode : Z;
  Header : gmap string (list string);
  RespBody : Body
}.

Definition StatusOK : Z := 200.
Definition StatusUnauthorized : Z := 401.
Definition StatusNotFound : Z := 404.

(** [http.Client]: only its timeout is set by the package. *)
Record Client : Type := mkClient { Timeout : Z }.

Definition time_Second : Z := 1000000000.

(** [schema2.MediaTypeManifest] *)
Definition MediaTypeManifest : string :=
  "application/vnd.docker.distribution.manifest.v2+json".

End Go.

Import Go.

(** ** Data model *)

(** Modelled from the spec: the declaration of [Image] is not among the
    sources.  The spec gives it as [{Domain, Path, Tag, Digest}]; the
    sources build it with [Image{Domain: .., Path: .., Tag: ..}] and use
    [image.Digest] as a [digest.Digest], which is a string type. *)
Module Image.
Record t : Type := mk {
  Domain : string;
  Path : string;
  Tag : string;
  Digest : string
}.
End Image.

(** [types.AuthConfig] of the Docker API, with the fields the package
    reads and writes. *)
Module AuthConfig.
Record t : Type := mk {
  Username : string;
  Password : string;
  ServerAddress : string
}.
End AuthConfig.

Module Opt.
Record t : Type := mk {
  Domain : string;
  Timeout : Z;
  Headers : gmap string string;
  UseSSL : bool
}.
End Opt.

Module Registry.
Record t : Type := mk {
  URL : string;
  Domain : string;
  Username : string;
  Password : string;
  Client : Go.Client;
  Opt : Opt.t
}.
End Registry.

Module authToken.
Record t : Type := mk {
  Token : string;
  AccessToken : string
}.
Definition zero : t := mk "" "".
End authToken.

Module authService.
Record t : Type := mk {
  Realm : string;
  Service : string;
  Scope : list string
}.
End authService.

Module Config.
Record t : Type := mk {
  MediaType : string;
  Size : Z;
  Digest : string
}.
Definition zero : t := mk "" 0 "".
End Config.

Module Layers.
Record t : Type := mk {
  MediaType : string;
  Size : Z;
  Digest : string
}.
End Layers.

Module ImageDigest.
Record t : Type := mk {
  SchemaVersion : Z;
  MediaType : string;
  Config : Config.t;
  Layers : list Layers.t
}.
Definition zero : t := mk 0 "" Config.zero [].
End ImageDigest.

(** ** The environment *)

(** The library calls whose result is decided outside the package:
    [url.Parse] as reached through [http.NewRequest] ([None]: the URL
    parses), [gzip.NewReader] (the header check, then the stream of the
    decompressed bytes) and [json.Unmarshal] at the two struct types the
    package decodes into (the value left in the target, and the error). *)
Class Libs : Type := {
  url_Parse : string -> option error;
  gzip_NewReader : Body -> Body + error;
  json_Unmarshal_ImageDigest :
    string -> ImageDigest.t -> ImageDigest.t * option error;
  json_Unmarshal_authToken :
    string -> authToken.t -> authToken.t * option error
}.

(** The network behind [Do] of [http.Client]: a state and what one request
    does to it. *)
Class Network : Type := {
  World : Type;
  Do : Go.Client -> World -> Request -> (Response + error) * World
}.

(** What a run can observe of the network: its state and the requests
    handed to the client so far, oldest first. *)
Record NetState `{Network} : Type := mkNet {
  world : World;
  sent : list Request
}.

Definition Net `{Network} (A : Type) : Type := NetState -> outcome A * NetState.

Definition ret `{Network} {A : Type} (a : A) : Net A :=
  fun st => (Returns a, st).

Definition bind `{Network} {A B : Type} (m : Net A) (k : A -> Net B) : Net B :=
  fun st =>
    match m st with
    | (Returns a, st') => k a st'
    | (Panics msg, st') => (Panics msg, st')
    end.

Definition lift `{Network} {A : Type} (o : outcome A) : Net A :=
  fun st => (o, st).

Notation "x <- m ;; k" := (bind m (fun x => k))
  (at level 100, m at next level, right associativity).

Definition Client_Do `{Network} (c : Go.Client) (req : Request)
  : Net (Response + error) :=
  fun st =>
    let '(res, w) := Do c (world st) req in
    (Returns res, mkNet _ w (sent st ++ [req])%list).

(** [http.NewRequest(method, url, nil)] with a valid method: it fails when
    the URL does not parse. *)
Definition http_NewRequest `{Libs} (method url : string) : Request + error :=
  match url_Parse url with
  | Some e => inr e
  | None => inl (mkRequest method url ∅)
  end.

(** ** Registry construction *)

Definition DefaultDockerRegistry : string := "https://registry-1.docker.io".

Definition DefaultTimeout : Z := 30 * time_Second.

(** [reProtocol = regexp.MustCompile("^https?://")] *)
Definition reProtocol_MatchString (s : string) : bool :=
  String.prefix "http://" s || String.prefix "https://" s.

(** [reProtocol.ReplaceAllString(s, repl)]: the pattern is anchored, so
    at most the match at the start is replaced. *)
Definition reProtocol_ReplaceAllString (s repl : string) : string :=
  if String.prefix "https://" s
  then repl +:+ substring 8 (String.length s - 8) s
  else if String.prefix "http://" s
       then repl +:+ substring 7 (String.length s - 7) s
       else s.

Definition setDefaultRegistry (serverAddress : string) : string :=
  if String.eqb serverAddress "docker.io" || String.eqb serverAddress ""
  then DefaultDockerRegistry
  else serverAddress.

Definition GetAuthConfig (username password registry : string)
  : AuthConfig.t * option error :=
  let registry := setDefaultRegistry registry in
  if negb (String.eqb username "") && negb (String.eqb password "")
     && negb (String.eqb registry "")
  then (AuthConfig.mk username password registry, None)
  else (AuthConfig.mk "" "" registry, None).

Definition newFromTransport (auth : AuthConfig.t) (opt : Opt.t)
  : option Registry.t * option error :=
  let opt :=
    if (String.length (Opt.Domain opt) <? 1)%nat
       || String.eqb (Opt.Domain opt) "docker.io"
    then Opt.mk (AuthConfig.ServerAddress auth) (Opt.Timeout opt)
                (Opt.Headers opt) (Opt.UseSSL opt)
    else opt in
  let url := strings_TrimSuffix (Opt.Domain opt) "/" in
  let authURL := strings_TrimSuffix (AuthConfig.ServerAddress auth) "/" in
  let url :=
    if negb (reProtocol_MatchString url)
    then (if Opt.UseSSL opt then "https://" +:+ url else "http://" +:+ url)
    else url in
  let authURL :=
    if negb (reProtocol_MatchString authURL)
    then (if Opt.UseSSL opt then "https://" +:+ authURL
          else "http://" +:+ authURL)
    else authURL in
  let registry :=
    Registry.mk url (reProtocol_ReplaceAllString url "")
                (AuthConfig.Username auth) (AuthConfig.Password auth)
                (mkClient DefaultTimeout) opt in
  (Some registry, None).

(** [New] passes [http.DefaultTransport], which [newFromTransport] does
    not use. *)
Definition New (auth : AuthConfig.t) (opt : Opt.t)
  : option Registry.t * option error :=
  newFromTransport auth opt.

Definition CreateRegistryClient (authURL username password domain : string)
  : option Registry.t * option error :=
  let authDomain := if String.eqb authURL "" then domain else authURL in
  let '(auth, err) := GetAuthConfig username password authDomain in
  match err with
  | Some e => (None, Some e)
  | None => New auth (Opt.mk domain 0 ∅ false)
  end.

(** ** URLs *)

Definition url (r : Registry.t) (pathTemplate : string) (args : list fmt_arg)
  : string :=
  let pathSuffix := fmt_Sprintf pathTemplate args in
  fmt_Sprintf "%s%s" [ArgS (Registry.URL r); ArgS pathSuffix].

Definition GetDigestUrl (r : Registry.t) (image : Image.t) : string :=
  url r "/v2/%s/manifests/%s" [ArgS (Image.Path image); ArgS (Image.Tag image)].

Definition GetBlobUrl (r : Registry.t) (image : Image.t) : string :=
  url r "/v2/%s/blobs/%s" [ArgS (Image.Path image); ArgS (Image.Digest image)].

(** ** Decoding a response body *)

(** [reader] is [None] when [gzip.NewReader] failed: its error is dropped
    and the nil [*gzip.Reader] it returned is stored in the interface
    variable; [ioutil.ReadAll] then calls [Read] through that nil pointer. *)
Definition GetRespBody `{Libs} (resp : Response) : outcome (string * option error) :=
  let reader : option Body :=
    if String.eqb (Header_Get (Header resp) "Content-Encoding") "gzip"
    then match gzip_NewReader (RespBody resp) with
         | inl z => Some z
         | inr _ => None
         end
    else Some (RespBody resp) in
  match reader with
  | None => Panics "invalid memory address or nil pointer dereference"
  | Some rd =>
      let '(resBody, err) := ioutil_ReadAll rd in
      match err with
      | Some e => Returns ("", Some e)
      | None => Returns (resBody, err)
      end
  end.

(** ** Manifest and blob fetchers *)

Definition Digest `{Libs} `{Network} (r : Registry.t) (image : Image.t)
  (token : string) : Net (string * option error) :=
  if (1 <? String.length (Image.Digest image))%nat
  then ret (Image.Digest image, None)
  else
    let url := GetDigestUrl r image in
    match http_NewRequest "GET" url with
    | inr err => ret ("", Some err)
    | inl req =>
        let req := mkRequest (Method req) (Go.URL req)
                     (Header_Add (ReqHeader req) "Accept" MediaTypeManifest) in
        let req :=
          if negb (String.eqb token "")
          then mkRequest (Method req) (Go.URL req)
                 (Header_Set (ReqHeader req) "Authorization"
                    (fmt_Sprintf "Bearer %s" [ArgS token]))
          else req in
        res <- Client_Do (Registry.Client r) req ;;
        match res with
        | inr err => ret ("", Some err)
        | inl resp =>
            if negb (StatusCode resp =? StatusOK)%Z
               && negb (StatusCode resp =? StatusNotFound)%Z
            then ret ("", Some (fmt_Errorf "got status code: %d"
                                  [ArgD (StatusCode resp)]))
            else
              b <- lift (GetRespBody resp) ;;
              let respBody := fst b in
              let imageDigest :=
                fst (json_Unmarshal_ImageDigest respBody ImageDigest.zero) in
              ret (Config.Digest (ImageDigest.Config imageDigest), None)
        end
    end.

Definition Blob `{Libs} `{Network} (r : Registry.t) (image : Image.t)
  (token : string) : Net (string * option error) :=
  let url := GetBlobUrl r image in
  match http_NewRequest "GET" url with
  | inr err => ret ("", Some err)
  | inl req =>
      let req := mkRequest (Method req) (Go.URL req)
                   (Header_Add (ReqHeader req) "Accept" MediaTypeManifest) in
      let req :=
        if negb (String.eqb token "")
        then mkRequest (Method req) (Go.URL req)
               (Header_Set (ReqHeader req) "Authorization"
                  (fmt_Sprintf "Bearer %s" [ArgS token]))
        else req in
      res <- Client_Do (Registry.Client r) req ;;
      match res with
      | inr err => ret ("", Some err)
      | inl resp =>
          if negb (StatusCode resp =? StatusOK)%Z
             && negb (StatusCode resp =? StatusNotFound)%Z
          then ret ("", Some (fmt_Errorf "got status code: %d"
                                [ArgD (StatusCode resp)]))
          else
            b <- lift (GetRespBody resp) ;;
            ret (fst b, None)
      end
  end.

(** The request that [Digest] and [Blob] build for [url]: a GET with the
    manifest media type accepted and, for a token that is not empty, the
    token as bearer credentials. *)
Definition fetch_request (url token : string) : Request :=
  let h := Header_Add ∅ "Accept" MediaTypeManifest in
  mkRequest "GET" url
    (if negb (String.eqb token "")
     then Header_Set h "Authorization" ("Bearer " +:+ token)
     else h).

(** A request carries [token] as the code means it to: no [Authorization]
    header for the empty token, and exactly ["Bearer " + token]
    otherwise. *)
Definition carries_token (token : string) (req : Request) : Prop :=
  (token = "" -> ReqHeader req !! "Authorization" = None)
  /\ (token <> "" ->
      ReqHeader req !! "Authorization" = Some ["Bearer " +:+ token]).

(** The status codes that [Digest] and [Blob] accept. *)
Definition accepted (status : Z) : Prop :=
  status = StatusOK \/ status = StatusNotFound.

(** ** Token negotiation *)

(** [ErrBasicAuth = errors.New("basic auth required")] *)
Definition ErrBasicAuth : error := errorString "basic auth required".

(** The class [\s] of Go's regexps: tab, line feed, form feed, carriage
    return and space. *)
Definition is_space (c : ascii) : bool :=
  match nat_of_ascii c with
  | 9 | 10 | 12 | 13 | 32 => true
  | _ => false
  end%nat.

Fixpoint skip_spaces (s : string) : string :=
  match s with
  | EmptyString => EmptyString
  | String c s' => if is_space c then skip_spaces s' else s
  end.

Fixpoint strip_prefix (pre s : string) : option string :=
  match pre with
  | EmptyString => Some s
  | String a pre' =>
      match s with
      | EmptyString => None
      | String b s' => if Ascii.eqb a b then strip_prefix pre' s' else None
      end
  end.

Fixpoint has_newline (s : string) : bool :=
  match s with
  | EmptyString => false
  | String c s' => (nat_of_ascii c =? 10)%nat || has_newline s'
  end.

Fixpoint all_spaces (s : string) : bool :=
  match s with
  | EmptyString => true
  | String c s' => is_space c && all_spaces s'
  end.

(** The texts that the pattern of [match_scheme] describes for the
    keyword [kw], with the group [g] that a greedy run of blanks leaves:
    blanks, the keyword, at least one blank, and a group without line
    feed that does not start with a blank. *)
Definition scheme_text (kw s g : string) : Prop :=
  exists w1 w2,
    s = w1 +:+ kw +:+ w2 +:+ g
    /\ all_spaces w1 = true
    /\ w2 <> "" /\ all_spaces w2 = true
    /\ has_newline g = false
    /\ skip_spaces g = g.

(** The match on [s] of the pattern "start of text, any blanks, the
    keyword KW, one or more blanks, a group of any characters, end of
    text", and its group.  The dot of the group covers every character
    but the line feed.  The run of blanks is greedy and the group must
    reach the end of the text, so the group starts after the last blank
    of the run. *)
Definition match_scheme (kw s : string) : option string :=
  match strip_prefix kw (skip_spaces s) with
  | Some (String c t) =>
      if is_space c
      then let rest := skip_spaces t in
           if has_newline rest then None else Some rest
      else None
  | _ => None
  end.

(** [bearerRegex]: the pattern above with the keyword [Bearer]; its
    group is the first submatch. *)
Definition bearerRegex_FindStringSubmatch (s : string) : option string :=
  match_scheme "Bearer" s.

(** [basicRegex]: the pattern above with the keyword [Basic], without a
    group. *)
Definition basicRegex_MatchString (s : string) : bool :=
  match match_scheme "Basic" s with
  | Some _ => true
  | None => false
  end.

(** [base64.StdEncoding.EncodeToString], for [SetBasicAuth]. *)
Definition b64_digit (n : nat) : ascii :=
  match String.get n
    "ABCDEFGHIJKLMNOPQRSTUVWXYZabcdefghijklmnopqrstuvwxyz0123456789+/" with
  | Some c => c
  | None => "="%char
  end.

Fixpoint base64_EncodeToString (s : string) : string :=
  match s with
  | EmptyString => EmptyString
  | String a EmptyString =>
      let x := nat_of_ascii a in
      String (b64_digit (x / 4))
        (String (b64_digit (x mod 4 * 16)) "==")
  | String a (String b EmptyString) =>
      let x := nat_of_ascii a in
      let y := nat_of_ascii b in
      String (b64_digit (x / 4))
        (String (b64_digit (x mod 4 * 16 + y / 16))
           (String (b64_digit (y mod 16 * 4)) "="))
  | String a (String b (String c rest)) =>
      let x := nat_of_ascii a in
      let y := nat_of_ascii b in
      let z := nat_of_ascii c in
      String (b64_digit (x / 4))
        (String (b64_digit (x mod 4 * 16 + y / 16))
           (String (b64_digit (y mod 16 * 4 + z / 64))
              (String (b64_digit (z mod 64)) (base64_EncodeToString rest))))
  end.

(** [req.SetBasicAuth(username, password)] *)
Definition SetBasicAuth (req : Request) (username password : string) : Request :=
  mkRequest (Method req) (Go.URL req)
    (Header_Set (ReqHeader req) "Authorization"
       ("Basic " +:+ base64_EncodeToString (username +:+ ":" +:+ password))).

(** Modelled from the spec: the parser of the bearer challenge is not
    among the sources.  The spec: "parse realm, service, and scope
    key=value pairs out of the header value (quoted-string aware)".  The
    pairs are separated by commas; a value is either a quoted string, in
    which a comma does not separate, or runs up to the next comma. *)
Definition is_quote (c : ascii) : bool := (nat_of_ascii c =? 34)%nat.

Inductive scan_mode : Type :=
| InKey
| ValStart
| InBare
| InQuoted
| AfterQuoted.

Fixpoint scan_pairs (m : scan_mode) (k v : string) (s : string)
  : list (string * string) :=
  match s with
  | EmptyString =>
      match m with
      | InKey | AfterQuoted => []
      | ValStart | InBare | InQuoted => [(k, v)]
      end
  | String c s' =>
      match m with
      | InKey =>
          if Ascii.eqb c "=" then scan_pairs ValStart k "" s'
          else if Ascii.eqb c "," || is_space c then scan_pairs InKey "" "" s'
          else scan_pairs InKey (k +:+ String c "") "" s'
      | ValStart =>
          if is_quote c then scan_pairs InQuoted k "" s'
          else if Ascii.eqb c "," then (k, "") :: scan_pairs InKey "" "" s'
          else scan_pairs InBare k (String c "") s'
      | InBare =>
          if Ascii.eqb c "," then (k, v) :: scan_pairs InKey "" "" s'
          else scan_pairs InBare k (v +:+ String c "") s'
      | InQuoted =>
          if is_quote c then (k, v) :: scan_pairs AfterQuoted "" "" s'
          else scan_pairs InQuoted k (v +:+ String c "") s'
      | AfterQuoted =>
          if Ascii.eqb c "," then scan_pairs InKey "" "" s'
          else scan_pairs AfterQuoted "" "" s'
      end
  end.

Definition add_pair (a : authService.t) (kv : string * string) : authService.t :=
  let '(k, v) := kv in
  if String.eqb k "realm"
  then authService.mk v (authService.Service a) (authService.Scope a)
  else if String.eqb k "service"
  then authService.mk (authService.Realm a) v (authService.Scope a)
  else if String.eqb k "scope"
  then authService.mk (authService.Realm a) (authService.Service a)
         (authService.Scope a ++ [v])%list
  else a.

Definition parseAuthService (params : string) : authService.t :=
  fold_left add_pair (scan_pairs InKey "" "" params) (authService.mk "" "" []).

(** Modelled from the spec: "GET {realm}?service={service}&scope={scope}",
    one [scope] parameter for each scope of the challenge. *)
Definition token_url (a : authService.t) : string :=
  authService.Realm a +:+ "?service=" +:+ authService.Service a
  +:+ fold_right (fun s acc => "&scope=" +:+ s +:+ acc) "" (authService.Scope a).

(** Modelled from the spec: the request to the token endpoint, "GET the
    realm URL with query parameters service and scope, plus HTTP Basic
    credentials if configured". *)
Definition token_request `{Libs} (r : Registry.t) (a : authService.t)
  : Request + error :=
  match http_NewRequest "GET" (token_url a) with
  | inr err => inr err
  | inl authReq =>
      inl (if negb (String.eqb (Registry.Username r) "")
           then SetBasicAuth authReq (Registry.Username r) (Registry.Password r)
           else authReq)
  end.

(** Modelled from the spec: the method [Token] of [Registry] is called by
    the sources but not among them.  The spec gives its algorithm:
    an unauthenticated GET of the target URL; a [200 OK] means no token is
    needed and the empty token is returned; on a [401 Unauthorized] whose
    [WWW-Authenticate] header matches the bearer pattern, realm, service
    and scope are parsed from it, the realm URL is fetched with these as
    query parameters (and with Basic credentials if the registry has
    them), and the JSON body gives the token, [token] being preferred to
    [access_token]; on a [401] whose header matches the basic pattern
    instead, the distinguished [ErrBasicAuth] is returned; any other
    status is an error that carries the status code.  Transport and JSON
    decoding failures are handed to the caller. *)
Definition Token `{Libs} `{Network} (r : Registry.t) (url : string)
  : Net (string * option error) :=
  match http_NewRequest "GET" url with
  | inr err => ret ("", Some err)
  | inl req =>
      res <- Client_Do (Registry.Client r) req ;;
      match res with
      | inr err => ret ("", Some err)
      | inl resp =>
          if (StatusCode resp =? StatusOK)%Z then ret ("", None)
          else if (StatusCode resp =? StatusUnauthorized)%Z then
            let challenge := Header_Get (Header resp) "WWW-Authenticate" in
            match bearerRegex_FindStringSubmatch challenge with
            | Some params =>
                match token_request r (parseAuthService params) with
                | inr err => ret ("", Some err)
                | inl authReq =>
                    res' <- Client_Do (Registry.Client r) authReq ;;
                    match res' with
                    | inr err => ret ("", Some err)
                    | inl resp' =>
                        let '(data, rerr) := ioutil_ReadAll (RespBody resp') in
                        match rerr with
                        | Some err => ret ("", Some err)
                        | None =>
                            let '(t, derr) :=
                              json_Unmarshal_authToken data authToken.zero in
                            match derr with
                            | Some err => ret ("", Some err)
                            | None =>
                                if negb (String.eqb (authToken.Token t) "")
                                then ret (authToken.Token t, None)
                                else ret (authToken.AccessToken t, None)
                            end
                        end
                    end
                end
            | None =>
                if basicRegex_MatchString challenge
                then ret ("", Some ErrBasicAuth)
                else ret ("", Some (fmt_Errorf "got status code: %d"
                                      [ArgD (StatusCode resp)]))
            end
          else ret ("", Some (fmt_Errorf "got status code: %d"
                                [ArgD (StatusCode resp)]))
      end
  end.

(** ** The image inspection of the platform (package [registries])

    [RegistryImageBlob] is the caller of the registry client: it reads
    the credentials from a Kubernetes secret, creates the client,
    negotiates a token and fetches the manifest digest and the blob. *)

Definition statusFailed : string := "failed".
Definition statusSuccess : string := "succeeded".

Module DockerConfigEntry.
Record t : Type := mk {
  Username : string;
  Password : string;
  Email : string;
  ServerAddress : string
}.
End DockerConfigEntry.

(** [DockerConfigJson] with its [Auths], a [DockerConfigMap]. *)
Module DockerConfigJson.
Record t : Type := mk {
  Auths : gmap string DockerConfigEntry.t
}.
Definition zero : t := mk ∅.
End DockerConfigJson.

(** [corev1.Secret], with the fields that are read. *)
Module Secret.
Record t : Type := mk {
  Namespace : string;
  Name : string;
  Type_ : string;
  Data : gmap string string
}.
End Secret.

(** [corev1.SecretTypeDockerConfigJson] and [corev1.DockerConfigJsonKey] *)
Definition SecretTypeDockerConfigJson : string := "kubernetes.io/dockerconfigjson".
Definition DockerConfigJsonKey : string := ".dockerconfigjson".

(** What the reading of a secret takes from outside: [json.Unmarshal] at
    [DockerConfigJson], and the place at which a [range] over a map
    starts, which Go leaves open. *)
Class SecretLib : Type := {
  json_Unmarshal_DockerConfigJson :
    string -> DockerConfigJson.t -> DockerConfigJson.t * option error;
  range_start : gmap string DockerConfigEntry.t -> nat
}.

(** The first pair that a [range] over the map yields. *)
Definition range_first `{SecretLib} (m : gmap string DockerConfigEntry.t)
  : option (string * DockerConfigEntry.t) :=
  let pairs := map_to_list m in
  pairs !! (range_start m mod length pairs)%nat.

Definition getDockerEntryFromDockerSecret `{SecretLib} (instance : Secret.t)
  : option DockerConfigEntry.t * option error :=
  if String.eqb (Secret.Type_ instance) ""
  then (Some (DockerConfigEntry.mk "" "" "" ""), None)
  else if negb (String.eqb (Secret.Type_ instance) SecretTypeDockerConfigJson)
  then (None,
        Some (fmt_Errorf "secret %s in ns %s type should be %s"
                [ArgS (Secret.Namespace instance); ArgS (Secret.Name instance);
                 ArgS SecretTypeDockerConfigJson]))
  else
    match Secret.Data instance !! DockerConfigJsonKey with
    | None =>
        (None, Some (fmt_Errorf "could not get data %s" [ArgS DockerConfigJsonKey]))
    | Some dockerConfigBytes =>
        let '(dockerConfig, err) :=
          json_Unmarshal_DockerConfigJson dockerConfigBytes DockerConfigJson.zero in
        match err with
        | Some e => (None, Some e)
        | None =>
            if (size (DockerConfigJson.Auths dockerConfig) =? 0)%nat
            then (None, Some (fmt_Errorf "docker config auth len should not be 0" []))
            else
              match range_first (DockerConfigJson.Auths dockerConfig) with
              | Some (registryAddress, dockerConfigEntry) =>
                  (Some (DockerConfigEntry.mk
                           (DockerConfigEntry.Username dockerConfigEntry)
                           (DockerConfigEntry.Password dockerConfigEntry)
                           (DockerConfigEntry.Email dockerConfigEntry)
                           registryAddress), None)
              | None => (None, None)
              end
        end
    end.

(** What [RegistryImageBlob] takes from outside.  [ParseImage] and the
    method [Token] belong to the package [registry] but are not among the
    sources, so every result below holds for whatever they do.
    [ImageBlob] is the struct that the blob is decoded into; its fields
    are written by [json.Unmarshal] only. *)
Class Inspection `{N : Network} : Type := {
  ParseImage : string -> Image.t * option error;
  Registry_Token : Registry.t -> string -> Net (string * option error);
  ImageBlob : Type;
  ImageBlob_zero : ImageBlob;
  json_Unmarshal_ImageBlob : string -> ImageBlob -> ImageBlob * option error
}.

Module ImageNameAndSecret.
Record t : Type := mk {
  ImageName : string;
  Secret : Secret.t
}.
End ImageNameAndSecret.

Module ImageBlobInfo.
Record t {N : Network} {I : Inspection} : Type := mk {
  Status : string;
  Image : option ImageBlob
}.
Arguments mk {N I} Status Image.
Arguments Status {N I} _.
Arguments Image {N I} _.
End ImageBlobInfo.

Definition nil_dereference : string :=
  "invalid memory address or nil pointer dereference".

(** The errors of [getDockerEntryFromDockerSecret], of [ParseImage] and
    of [Token] are overwritten without being looked at.  [entry] is
    dereferenced for the arguments of [CreateRegistryClient], and [r] for
    [GetDigestUrl]. *)
Definition RegistryImageBlob `{L : Libs} `{S : SecretLib} `{N : Network}
  `{I : !Inspection} (imageNameAndSecret : ImageNameAndSecret.t)
  : Net (option ImageBlobInfo.t * option error) :=
  let '(entry, _) :=
    getDockerEntryFromDockerSecret
      (ImageNameAndSecret.Secret imageNameAndSecret) in
  let '(image, _) :=
    ParseImage (ImageNameAndSecret.ImageName imageNameAndSecret) in
  match entry with
  | None => lift (Panics nil_dereference)
  | Some entry =>
      let '(r, err) :=
        CreateRegistryClient "" (DockerConfigEntry.Username entry)
          (DockerConfigEntry.Password entry) (Image.Domain image) in
      match err with
      | Some _ => ret (Some (ImageBlobInfo.mk statusFailed None), None)
      | None =>
          match r with
          | None => lift (Panics nil_dereference)
          | Some r =>
              let digestUrl := GetDigestUrl r image in
              t <- Registry_Token r digestUrl ;;
              let token := fst t in
              d <- Digest r image token ;;
              match snd d with
              | Some _ => ret (Some (ImageBlobInfo.mk statusFailed None), None)
              | None =>
                  let image :=
                    Image.mk (Image.Domain image) (Image.Path image)
                      (Image.Tag image) (fst d) in
                  b <- Blob r image token ;;
                  match snd b with
                  | Some _ =>
                      ret (Some (ImageBlobInfo.mk statusFailed None), None)
                  | None =>
                      let '(imageBlob, err) :=
                        json_Unmarshal_ImageBlob (fst b) ImageBlob_zero in
                      match err with
                      | Some _ =>
                          ret (Some (ImageBlobInfo.mk statusFailed None), None)
                      | None =>
                          ret (Some (ImageBlobInfo.mk statusSuccess
                                       (Some imageBlob)), None)
                      end
                  end
              end
          end
      end
  end.

(** The run of [RegistryImageBlob] on [x] from [st] reaches the manifest:
    the secret gave an entry, the name gave [image], the client built
    for them is [r], and the negotiation of the token ended in [st1]
    with the string [token], with or without an error. *)
Definition reaches_manifest `{S : SecretLib} `{N : Network} `{I : !Inspection}
  (x : ImageNameAndSecret.t) (st : NetState) (r : Registry.t)
  (image : Image.t) (token : string) (st1 : NetState) : Prop :=
  exists entry terr,
    fst (getDockerEntryFromDockerSecret (ImageNameAndSecret.Secret x))
    = Some entry
    /\ fst (ParseImage (ImageNameAndSecret.ImageName x)) = image
    /\ CreateRegistryClient "" (DockerConfigEntry.Username entry)
         (DockerConfigEntry.Password entry) (Image.Domain image)
       = (Some r, None)
    /\ Registry_Token r (GetDigestUrl r image) st
       = (Returns (token, terr), st1).

(** ** A reference environment

    Executable instances of [Libs] and [Network], on which the functions
    above can be run on concrete inputs. *)

Module Json.

(** JSON texts as [encoding/json] scans them. *)
Unset Elimination Schemes.
Inductive value : Type :=
| Null
| Bool (b : bool)
| Number (literal : string)
| Str (s : string)
| Array (elements : list value)
| Object (members : list (string * value)).
Set Elimination Schemes.

Definition is_ws (c : ascii) : bool :=
  match nat_of_ascii c with
  | 9 | 10 | 13 | 32 => true
  | _ => false
  end%nat.

Fixpoint skip_ws (s : string) : string :=
  match s with
  | EmptyString => EmptyString
  | String c s' => if is_ws c then skip_ws s' else s
  end.

Definition is_digit (c : ascii) : bool :=
  (48 <=? nat_of_ascii c)%nat && (nat_of_ascii c <=? 57)%nat.

Fixpoint span_digits (s : string) : string * string :=
  match s with
  | EmptyString => (EmptyString, EmptyString)
  | String c s' =>
      if is_digit c
      then let '(d, r) := span_digits s' in (String c d, r)
      else (EmptyString, s)
  end.

Definition hex_val (c : ascii) : option nat :=
  let n := nat_of_ascii c in
  if is_digit c then Some (n - 48)%nat
  else if (97 <=? n)%nat && (n <=? 102)%nat then Some (n - 87)%nat
  else if (65 <=? n)%nat && (n <=? 70)%nat then Some (n - 55)%nat
  else None.

(** The UTF-8 encoding of a code point of the basic plane; a surrogate
    half is replaced by U+FFFD. *)
Definition utf8 (cp : N) : string :=
  let cp := if (55296 <=? cp)%N && (cp <=? 57343)%N then 65533%N else cp in
  if (cp <? 128)%N then String (ascii_of_N cp) ""
  else if (cp <? 2048)%N
  then String (ascii_of_N (192 + cp / 64))
         (String (ascii_of_N (128 + cp mod 64)) "")
  else String (ascii_of_N (224 + cp / 4096))
         (String (ascii_of_N (128 + cp / 64 mod 64))
            (String (ascii_of_N (128 + cp mod 64)) "")).

(** The characters of a string literal after its opening quote, up to the
    closing quote. *)
Fixpoint scan_string (s : string) : option (string * string) :=
  match s with
  | EmptyString => None
  | String c s' =>
      if (nat_of_ascii c =? 34)%nat then Some (EmptyString, s')
      else if (nat_of_ascii c <? 32)%nat then None
      else if (nat_of_ascii c =? 92)%nat then
        match s' with
        | EmptyString => None
        | String e s'' =>
            let lit (x : nat) :=
              match scan_string s'' with
              | Some (t, r) => Some (String (ascii_of_nat x) t, r)
              | None => None
              end in
            match nat_of_ascii e with
            | 34 => lit 34%nat
            | 92 => lit 92%nat
            | 47 => lit 47%nat
            | 98 => lit 8%nat
            | 102 => lit 12%nat
            | 110 => lit 10%nat
            | 114 => lit 13%nat
            | 116 => lit 9%nat
            | 117 =>
                match s'' with
                | String h1 (String h2 (String h3 (String h4 s4))) =>
                    match hex_val h1, hex_val h2, hex_val h3, hex_val h4 with
                    | Some a, Some b, Some c', Some d =>
                        match scan_string s4 with
                        | Some (t, r) =>
                            Some (utf8 (N.of_nat a * 4096 + N.of_nat b * 256
                                        + N.of_nat c' * 16 + N.of_nat d)%N
                                  +:+ t, r)
                        | None => None
                        end
                    | _, _, _, _ => None
                    end
                | _ => None
                end
            | _ => None
            end%nat
        end
      else match scan_string s' with
           | Some (t, r) => Some (String c t, r)
           | None => None
           end
  end.

(** A number literal: an optional minus, an integer part without a
    leading zero, an optional fraction, an optional exponent. *)
Definition scan_number (s : string) : option (string * string) :=
  let '(sign, s1) :=
    match s with
    | String "-" r => ("-", r)
    | _ => ("", s)
    end in
  let '(int, s2) := span_digits s1 in
  let int_ok :=
    match int with
    | EmptyString => false
    | String "0" (String _ _) => false
    | _ => true
    end in
  if negb int_ok then None else
  let frac :=
    match s2 with
    | String "." r =>
        let '(d, r') := span_digits r in
        match d with
        | EmptyString => None
        | _ => Some ("." +:+ d, r')
        end
    | _ => Some ("", s2)
    end in
  match frac with
  | None => None
  | Some (f, s3) =>
      let exp :=
        match s3 with
        | String e r =>
            if Ascii.eqb e "e" || Ascii.eqb e "E" then
              let '(sg, r1) :=
                match r with
                | String "+" r1 => ("+", r1)
                | String "-" r1 => ("-", r1)
                | _ => ("", r)
                end in
              let '(d, r2) := span_digits r1 in
              match d with
              | EmptyString => None
              | _ => Some (String e (sg +:+ d), r2)
              end
            else Some ("", s3)
        | EmptyString => Some ("", s3)
        end in
      match exp with
      | None => None
      | Some (x, s4) => Some (sign +:+ int +:+ f +:+ x, s4)
      end
  end.

Fixpoint parse_value (fuel : nat) (s : string) : option (value * string) :=
  match fuel with
  | O => None
  | S fuel =>
      match skip_ws s with
      | EmptyString => None
      | String c rest =>
          if Ascii.eqb c "{" then
            match skip_ws rest with
            | String "}" r => Some (Object [], r)
            | _ => match parse_members fuel rest with
                   | Some (ms, r) => Some (Object ms, r)
                   | None => None
                   end
            end
          else if Ascii.eqb c "[" then
            match skip_ws rest with
            | String "]" r => Some (Array [], r)
            | _ => match parse_elements fuel rest with
                   | Some (vs, r) => Some (Array vs, r)
                   | None => None
                   end
            end
          else if (nat_of_ascii c =? 34)%nat then
            match scan_string rest with
            | Some (t, r) => Some (Str t, r)
            | None => None
            end
          else if Ascii.eqb c "-" || is_digit c then
            match scan_number (String c rest) with
            | Some (n, r) => Some (Number n, r)
            | None => None
            end
          else
            match strip_prefix "true" (String c rest) with
            | Some r => Some (Bool true, r)
            | None =>
                match strip_prefix "false" (String c rest) with
                | Some r => Some (Bool false, r)
                | None =>
                    match strip_prefix "null" (String c rest) with
                    | Some r => Some (Null, r)
                    | None => None
                    end
                end
            end
      end
  end
with parse_elements (fuel : nat) (s : string) : option (list value * string) :=
  match fuel with
  | O => None
  | S fuel =>
      match parse_value fuel s with
      | None => None
      | Some (v, r) =>
          match skip_ws r with
          | String "," r' =>
              match parse_elements fuel r' with
              | Some (vs, r'') => Some (v :: vs, r'')
              | None => None
              end
          | String "]" r' => Some ([v], r')
          | _ => None
          end
      end
  end
with parse_members (fuel : nat) (s : string)
  : option (list (string * value) * string) :=
  match fuel with
  | O => None
  | S fuel =>
      match skip_ws s with
      | String q r0 =>
          if (nat_of_ascii q =? 34)%nat then
            match scan_string r0 with
            | None => None
            | Some (k, r1) =>
                match skip_ws r1 with
                | String ":" r2 =>
                    match parse_value fuel r2 with
                    | None => None
                    | Some (v, r3) =>
                        match skip_ws r3 with
                        | String "," r4 =>
                            match parse_members fuel r4 with
                            | Some (ms, r5) => Some ((k, v) :: ms, r5)
                            | None => None
                            end
                        | String "}" r4 => Some ([(k, v)], r4)
                        | _ => None
                        end
                    end
                | _ => None
                end
            end
          else None
      | EmptyString => None
      end
  end.

(** A whole text: one value, blanks around it and nothing else. *)
Definition parse (s : string) : option value :=
  match parse_value (2 * String.length s + 2) s with
  | Some (v, r) =>
      match skip_ws r with
      | EmptyString => Some v
      | _ => None
      end
  | None => None
  end.

End Json.

Module Reference.

(** *** [json.Unmarshal] into the structs of the package

    A text that does not scan is a syntax error and leaves the target as
    it was.  Otherwise the members of an object are stored one by one into
    the fields whose tag equals the key up to the case of its letters; an
    unknown key is skipped, [null] stores nothing, and a value of the
    wrong kind leaves its field and is remembered: the first such error
    is returned after the whole text has been stored. *)

Fixpoint fold_case (s : string) : string :=
  match s with
  | EmptyString => EmptyString
  | String c s' => String (to_lower c) (fold_case s')
  end.

Definition key_is (k tag : string) : bool :=
  String.eqb (fold_case k) (fold_case tag).

Definition first_error (e1 e2 : option error) : option error :=
  match e1 with
  | Some _ => e1
  | None => e2
  end.

Definition store_string (field : string) (v : Json.value) (old : string)
  : string * option error :=
  match v with
  | Json.Str s => (s, None)
  | Json.Null => (old, None)
  | _ => (old, Some (jsonTypeError field))
  end.

(** An [int] field takes a literal that is a decimal integer of 64
    bits. *)
Definition int_of_literal (lit : string) : option Z :=
  let '(neg, digits) :=
    match lit with
    | String "-" r => (true, r)
    | _ => (false, lit)
    end in
  let '(d, rest) := Json.span_digits digits in
  match rest with
  | EmptyString =>
      match NilEmpty.uint_of_string d with
      | Some u =>
          let n := Z.of_N (N.of_uint u) in
          let n := if neg then (- n)%Z else n in
          if ((- 2 ^ 63 <=? n) && (n <? 2 ^ 63))%Z then Some n else None
      | None => None
      end
  | _ => None
  end.

Definition store_int (field : string) (v : Json.value) (old : Z)
  : Z * option error :=
  match v with
  | Json.Number lit =>
      match int_of_literal lit with
      | Some n => (n, None)
      | None => (old, Some (jsonTypeError field))
      end
  | Json.Null => (old, None)
  | _ => (old, Some (jsonTypeError field))
  end.

Definition store_Config_member (acc : Config.t * option error)
  (kv : string * Json.value) : Config.t * option error :=
  let '(c, e) := acc in
  let '(k, v) := kv in
  if key_is k "mediaType" then
    let '(x, e') := store_string "Config.mediaType" v (Config.MediaType c) in
    (Config.mk x (Config.Size c) (Config.Digest c), first_error e e')
  else if key_is k "size" then
    let '(x, e') := store_int "Config.size" v (Config.Size c) in
    (Config.mk (Config.MediaType c) x (Config.Digest c), first_error e e')
  else if key_is k "digest" then
    let '(x, e') := store_string "Config.digest" v (Config.Digest c) in
    (Config.mk (Config.MediaType c) (Config.Size c) x, first_error e e')
  else acc.

Definition store_Config (v : Json.value) (old : Config.t)
  : Config.t * option error :=
  match v with
  | Json.Object ms => fold_left store_Config_member ms (old, None)
  | Json.Null => (old, None)
  | _ => (old, Some (jsonTypeError "ImageDigest.config"))
  end.

Definition store_Layers_member (acc : Layers.t * option error)
  (kv : string * Json.value) : Layers.t * option error :=
  let '(c, e) := acc in
  let '(k, v) := kv in
  if key_is k "mediaType" then
    let '(x, e') := store_string "Layers.mediaType" v (Layers.MediaType c) in
    (Layers.mk x (Layers.Size c) (Layers.Digest c), first_error e e')
  else if key_is k "size" then
    let '(x, e') := store_int "Layers.size" v (Layers.Size c) in
    (Layers.mk (Layers.MediaType c) x (Layers.Digest c), first_error e e')
  else if key_is k "digest" then
    let '(x, e') := store_string "Layers.digest" v (Layers.Digest c) in
    (Layers.mk (Layers.MediaType c) (Layers.Size c) x, first_error e e')
  else acc.

Definition store_Layers (v : Json.value) : Layers.t * option error :=
  match v with
  | Json.Object ms => fold_left store_Layers_member ms (Layers.mk "" 0 "", None)
  | Json.Null => (Layers.mk "" 0 "", None)
  | _ => (Layers.mk "" 0 "", Some (jsonTypeError "ImageDigest.layers"))
  end.

(** A slice field: an array replaces the slice, element by element. *)
Definition store_Layers_slice (v : Json.value) (old : list Layers.t)
  : list Layers.t * option error :=
  match v with
  | Json.Array vs =>
      fold_left
        (fun acc x =>
           let '(ls, e) := acc in
           let '(l, e') := store_Layers x in
           ((ls ++ [l])%list, first_error e e'))
        vs ([], None)
  | Json.Null => ([], None)
  | _ => (old, Some (jsonTypeError "ImageDigest.layers"))
  end.

Definition store_ImageDigest_member (acc : ImageDigest.t * option error)
  (kv : string * Json.value) : ImageDigest.t * option error :=
  let '(d, e) := acc in
  let '(k, v) := kv in
  if key_is k "schemaVersion" then
    let '(x, e') :=
      store_int "ImageDigest.schemaVersion" v (ImageDigest.SchemaVersion d) in
    (ImageDigest.mk x (ImageDigest.MediaType d) (ImageDigest.Config d)
       (ImageDigest.Layers d), first_error e e')
  else if key_is k "mediaType" then
    let '(x, e') :=
      store_string "ImageDigest.mediaType" v (ImageDigest.MediaType d) in
    (ImageDigest.mk (ImageDigest.SchemaVersion d) x (ImageDigest.Config d)
       (ImageDigest.Layers d), first_error e e')
  else if key_is k "config" then
    let '(x, e') := store_Config v (ImageDigest.Config d) in
    (ImageDigest.mk (ImageDigest.SchemaVersion d) (ImageDigest.MediaType d) x
       (ImageDigest.Layers d), first_error e e')
  else if key_is k "layers" then
    let '(x, e') := store_Layers_slice v (ImageDigest.Layers d) in
    (ImageDigest.mk (ImageDigest.SchemaVersion d) (ImageDigest.MediaType d)
       (ImageDigest.Config d) x, first_error e e')
  else acc.

Definition Unmarshal_ImageDigest (data : string) (target : ImageDigest.t)
  : ImageDigest.t * option error :=
  match Json.parse data with
  | None => (target, Some (jsonSyntaxError "invalid JSON text"))
  | Some (Json.Object ms) => fold_left store_ImageDigest_member ms (target, None)
  | Some Json.Null => (target, None)
  | Some _ => (target, Some (jsonTypeError "ImageDigest"))
  end.

Definition store_authToken_member (acc : authToken.t * option error)
  (kv : string * Json.value) : authToken.t * option error :=
  let '(t, e) := acc in
  let '(k, v) := kv in
  if key_is k "token" then
    let '(x, e') := store_string "authToken.token" v (authToken.Token t) in
    (authToken.mk x (authToken.AccessToken t), first_error e e')
  else if key_is k "access_token" then
    let '(x, e') :=
      store_string "authToken.access_token" v (authToken.AccessToken t) in
    (authToken.mk (authToken.Token t) x, first_error e e')
  else acc.

Definition Unmarshal_authToken (data : string) (target : authToken.t)
  : authToken.t * option error :=
  match Json.parse data with
  | None => (target, Some (jsonSyntaxError "invalid JSON text"))
  | Some (Json.Object ms) => fold_left store_authToken_member ms (target, None)
  | Some Json.Null => (target, None)
  | Some _ => (target, Some (jsonTypeError "authToken"))
  end.

(** *** [url.Parse]: the check for control characters *)

Fixpoint has_ctl (s : string) : bool :=
  match s with
  | EmptyString => false
  | String c s' =>
      (nat_of_ascii c <? 32)%nat || (nat_of_ascii c =? 127)%nat || has_ctl s'
  end.

Definition Parse (rawurl : string) : option error :=
  if has_ctl rawurl
  then Some (urlError "parse" rawurl)
  else None.

(** *** [hash/crc32], and numbers and slices of the input *)

Definition crc_step (crc : N) : N :=
  if N.testbit crc 0
  then N.lxor (N.shiftr crc 1) 3988292384
  else N.shiftr crc 1.

Definition crc_byte (crc : N) (b : ascii) : N :=
  Nat.iter 8 crc_step (N.lxor crc (N_of_ascii b)).

Fixpoint crc_update (crc : N) (s : string) : N :=
  match s with
  | EmptyString => crc
  | String b s' => crc_update (crc_byte crc b) s'
  end.

Definition crc32 (s : string) : N :=
  N.lxor (crc_update 4294967295 s) 4294967295.

(** A little-endian number of [n] bytes at the start of [s]. *)
Fixpoint le_bytes (n : nat) (s : string) : option (N * string) :=
  match n with
  | O => Some (0%N, s)
  | S n' =>
      match s with
      | EmptyString => None
      | String b s' =>
          match le_bytes n' s' with
          | Some (hi, r) => Some ((N_of_ascii b + 256 * hi)%N, r)
          | None => None
          end
      end
  end.

Definition split_at (n : nat) (s : string) : option (string * string) :=
  if (n <=? String.length s)%nat
  then Some (substring 0 n s, substring n (String.length s - n) s)
  else None.

(** *** [compress/flate]: the inflation of a deflate stream *)

(** What stops a reader: the end of the input, or damaged input. *)
Inductive failure : Type :=
| Short
| Corrupt.

(** The input of the inflation: the bits of the byte that is being
    read, least significant first, and the bytes after it. *)
Definition input : Type := (list bool * string)%type.

Definition get_bit (i : input) : (bool * input) + failure :=
  match i with
  | (b :: bs, r) => inl (b, (bs, r))
  | ([], String (Ascii b0 b1 b2 b3 b4 b5 b6 b7) r) =>
      inl (b0, ([b1; b2; b3; b4; b5; b6; b7], r))
  | ([], EmptyString) => inr Short
  end.

(** A number of [n] bits, least significant bit first. *)
Fixpoint get_bits (n : nat) (i : input) : (nat * input) + failure :=
  match n with
  | O => inl (O, i)
  | S n' =>
      match get_bit i with
      | inr f => inr f
      | inl (b, i1) =>
          match get_bits n' i1 with
          | inr f => inr f
          | inl (v, i2) => inl (((if b then 1 else 0) + 2 * v)%nat, i2)
          end
      end
  end.

(** A Huffman code in canonical form: the number of codes of each
    length from 1 to 15, and the symbols ordered by length and then by
    value. *)
Record huffman : Type := mkHuffman {
  counts : list nat;
  symbols : list nat
}.

Fixpoint with_length (len k : nat) (lengths : list nat) : list nat :=
  match lengths with
  | [] => []
  | l :: rest =>
      if (l =? len)%nat then k :: with_length len (S k) rest
      else with_length len (S k) rest
  end.

Definition huffman_of (lengths : list nat) : huffman :=
  mkHuffman
    (map (fun len => length (with_length len 0 lengths)) (seq 1 15))
    (flat_map (fun len => with_length len 0 lengths) (seq 1 15)).

(** The test of the decoder of Go on a code: it uses all bit sequences
    of its longest length, or it is empty, or it is the one code of
    length 1. *)
Definition huffman_ok (h : huffman) : bool :=
  let used :=
    fold_left (fun code count => (2 * code + N.of_nat count)%N) (counts h) 0%N in
  (used =? 32768)%N || (used =? 0)%N
  || match counts h with
     | 1%nat :: rest => forallb (Nat.eqb 0) rest
     | _ => false
     end.

(** One symbol, read bit by bit; a bit sequence that is no code of the
    Huffman code is damaged input. *)
Fixpoint decode_sym (counts symbols : list nat) (code first index : nat)
  (i : input) : (nat * input) + failure :=
  match counts with
  | [] => inr Corrupt
  | count :: counts' =>
      if forallb (Nat.eqb 0) counts then inr Corrupt
      else
        match get_bit i with
        | inr f => inr f
        | inl (b, i1) =>
            let code := (code + if b then 1 else 0)%nat in
            if (code <? first + count)%nat
            then inl (nth (index + (code - first)) symbols O, i1)
            else decode_sym counts' symbols (2 * code) (2 * (first + count))
                   (index + count) i1
        end
  end.

Definition huffSym (h : huffman) (i : input) : (nat * input) + failure :=
  decode_sym (counts h) (symbols h) 0 0 0 i.

(** The lengths and the distances of RFC 1951: the base and the number
    of extra bits of the symbols 257 to 285, and of the distance
    symbols 0 to 29. *)
Definition length_base : list nat :=
  [3; 4; 5; 6; 7; 8; 9; 10; 11; 13; 15; 17; 19; 23; 27; 31; 35; 43; 51; 59;
   67; 83; 99; 115; 131; 163; 195; 227; 258].
Definition length_extra : list nat :=
  [0; 0; 0; 0; 0; 0; 0; 0; 1; 1; 1; 1; 2; 2; 2; 2; 3; 3; 3; 3; 4; 4; 4; 4;
   5; 5; 5; 5; 0].
Definition dist_base : list nat :=
  map N.to_nat
    [1; 2; 3; 4; 5; 7; 9; 13; 17; 25; 33; 49; 65; 97; 129; 193; 257; 385; 513;
     769; 1025; 1537; 2049; 3073; 4097; 6145; 8193; 12289; 16385; 24577]%N.
Definition dist_extra : list nat :=
  [0; 0; 0; 0; 1; 1; 2; 2; 3; 3; 4; 4; 5; 5; 6; 6; 7; 7; 8; 8; 9; 9; 10; 10;
   11; 11; 12; 12; 13; 13].

(** The fixed codes: literals and lengths on 8, 9, 7 and 8 bits, the
    distances on 5 bits. *)
Definition fixed_lit : huffman :=
  huffman_of (repeat 8 144 ++ repeat 9 112 ++ repeat 7 24 ++ repeat 8 8)%nat%list.
Definition fixed_dist : huffman := huffman_of (repeat 5%nat 32).

(** [len] bytes copied from [dist] bytes back, one at a time. *)
Fixpoint copy (len dist : nat) (out : string) : string :=
  match len with
  | O => out
  | S len' =>
      match String.get (String.length out - dist) out with
      | Some c => copy len' dist (out +:+ String c "")
      | None => out
      end
  end.

(** The symbols of one block, up to its end: what has been written so
    far is kept when the read fails. *)
Fixpoint huffmanBlock (fuel : nat) (lit dist : huffman) (out : string)
  (i : input) : string * (input + failure) :=
  match fuel with
  | O => (out, inr Corrupt)
  | S fuel' =>
      match huffSym lit i with
      | inr f => (out, inr f)
      | inl (v, i1) =>
          if (v <? 256)%nat
          then huffmanBlock fuel' lit dist (out +:+ String (ascii_of_nat v) "") i1
          else if (v =? 256)%nat then (out, inl i1)
          else if (286 <=? v)%nat then (out, inr Corrupt)
          else
            match get_bits (nth (v - 257) length_extra O) i1 with
            | inr f => (out, inr f)
            | inl (e, i2) =>
                let len := (nth (v - 257) length_base O + e)%nat in
                match huffSym dist i2 with
                | inr f => (out, inr f)
                | inl (d, i3) =>
                    if (30 <=? d)%nat then (out, inr Corrupt)
                    else
                      match get_bits (nth d dist_extra O) i3 with
                      | inr f => (out, inr f)
                      | inl (e', i4) =>
                          let distance := (nth d dist_base O + e')%nat in
                          if (String.length out <? distance)%nat
                          then (out, inr Corrupt)
                          else huffmanBlock fuel' lit dist
                                 (copy len distance out) i4
                      end
                end
            end
      end
  end.

(** The order of the lengths of the code for the code lengths. *)
Definition codeOrder : list nat :=
  [16; 17; 18; 0; 8; 7; 9; 6; 10; 5; 11; 4; 12; 3; 13; 2; 14; 1; 15].

Fixpoint set_nth (k : nat) (v : nat) (l : list nat) : list nat :=
  match l with
  | [] => []
  | x :: rest =>
      match k with
      | O => v :: rest
      | S k' => x :: set_nth k' v rest
      end
  end.

(** The code lengths of the code for the code lengths: 3 bits each, in
    the order of [codeOrder]. *)
Fixpoint read_codebits (order : list nat) (n : nat) (acc : list nat)
  (i : input) : (list nat * input) + failure :=
  match n with
  | O => inl (acc, i)
  | S n' =>
      match order with
      | [] => inl (acc, i)
      | k :: order' =>
          match get_bits 3 i with
          | inr f => inr f
          | inl (v, i1) => read_codebits order' n' (set_nth k v acc) i1
          end
      end
  end.

(** The code lengths of the block, [n] in all, with the repeat codes 16,
    17 and 18. *)
Fixpoint read_lengths (fuel : nat) (h : huffman) (n : nat) (acc : list nat)
  (i : input) : (list nat * input) + failure :=
  match fuel with
  | O => inr Corrupt
  | S fuel' =>
      if (n <=? length acc)%nat then inl (acc, i)
      else
        match huffSym h i with
        | inr f => inr f
        | inl (x, i1) =>
            if (x <? 16)%nat then read_lengths fuel' h n (acc ++ [x])%list i1
            else
              let again (rep nb b : nat) :=
                match get_bits nb i1 with
                | inr f => inr f
                | inl (e, i2) =>
                    if (n <? length acc + (rep + e))%nat then inr Corrupt
                    else read_lengths fuel' h n
                           (acc ++ repeat b (rep + e))%list i2
                end in
              if (x =? 16)%nat then
                match rev acc with
                | [] => inr Corrupt
                | b :: _ => again 3%nat 2%nat b
                end
              else if (x =? 17)%nat then again 3%nat 3%nat O
              else again 11%nat 7%nat O
        end
  end.

(** The header of a block with dynamic codes: the two codes. *)
Definition readHuffman (i : input) : (huffman * huffman * input) + failure :=
  match get_bits 5 i with
  | inr f => inr f
  | inl (hlit, i1) =>
      match get_bits 5 i1 with
      | inr f => inr f
      | inl (hdist, i2) =>
          match get_bits 4 i2 with
          | inr f => inr f
          | inl (hclen, i3) =>
              let nlit := (hlit + 257)%nat in
              let ndist := (hdist + 1)%nat in
              let nclen := (hclen + 4)%nat in
              if (286 <? nlit)%nat || (30 <? ndist)%nat then inr Corrupt
              else
                match read_codebits codeOrder nclen (repeat O 19) i3 with
                | inr f => inr f
                | inl (codebits, i4) =>
                    let h1 := huffman_of codebits in
                    if negb (huffman_ok h1) then inr Corrupt
                    else
                      match read_lengths (S (nlit + ndist)) h1 (nlit + ndist)
                              [] i4 with
                      | inr f => inr f
                      | inl (bits, i5) =>
                          let lit := huffman_of (firstn nlit bits) in
                          let dist := huffman_of (skipn nlit bits) in
                          if huffman_ok lit && huffman_ok dist
                          then inl (lit, dist, i5)
                          else inr Corrupt
                      end
                end
          end
      end
  end.

(** A stored block: the bits left of the current byte are dropped, the
    length and its complement follow on two bytes each, then the
    data. *)
Definition dataBlock (out : string) (i : input) : string * (input + failure) :=
  let s := snd i in
  match le_bytes 2 s with
  | None => (out, inr Short)
  | Some (len, s1) =>
      match le_bytes 2 s1 with
      | None => (out, inr Short)
      | Some (nlen, s2) =>
          if negb (len + nlen =? 65535)%N then (out, inr Corrupt)
          else
            match split_at (N.to_nat len) s2 with
            | None => (out +:+ s2, inr Short)
            | Some (data, s3) => (out +:+ data, inl ([], s3))
            end
      end
  end.

(** The blocks of a deflate stream, up to the final one. *)
Fixpoint inflate (fuel : nat) (out : string) (i : input)
  : string * (input + failure) :=
  match fuel with
  | O => (out, inr Corrupt)
  | S fuel' =>
      match get_bits 3 i with
      | inr f => (out, inr f)
      | inl (hdr, i1) =>
          let final := Nat.odd hdr in
          let block :=
            match (hdr / 2)%nat with
            | 0%nat => dataBlock out i1
            | 1%nat =>
                huffmanBlock (S (8 * String.length (snd i1) + 8))
                  fixed_lit fixed_dist out i1
            | 2%nat =>
                match readHuffman i1 with
                | inr f => (out, inr f)
                | inl (lit, dist, i2) =>
                    huffmanBlock (S (8 * String.length (snd i2) + 8))
                      lit dist out i2
                end
            | _ => (out, inr Corrupt)
            end in
          match block with
          | (out', inl i') =>
              if final then (out', inl i') else inflate fuel' out' i'
          | failed => failed
          end
      end
  end.

(** *** [compress/gzip]: the reader *)

Definition ErrHeader : error := gzipError "gzip: invalid header".
Definition ErrChecksum : error := gzipError "gzip: invalid checksum".
Definition CorruptInputError : error := gzipError "flate: corrupt input".
Definition io_EOF : error := gzipError "EOF".
Definition io_ErrUnexpectedEOF : error := gzipError "unexpected EOF".

(** A byte stream ends with the error of the stream, if it has one. *)
Definition noEOF (eof : option error) : error :=
  match eof with
  | Some e => e
  | None => io_ErrUnexpectedEOF
  end.

Definition flate_error (f : failure) (eof : option error) : error :=
  match f with
  | Short => noEOF eof
  | Corrupt => CorruptInputError
  end.

(** A string of the header up to its NUL, in a buffer of [room]
    bytes: the bytes read and the bytes after them, or the error. *)
Fixpoint readString (room : nat) (eof : option error) (s : string)
  : (string * string) + error :=
  match room with
  | O => inr ErrHeader
  | S room' =>
      match s with
      | EmptyString => inr (noEOF eof)
      | String c r =>
          if (nat_of_ascii c =? 0)%nat then inl (String c "", r)
          else match readString room' eof r with
               | inl (k, r') => inl (String c k, r')
               | inr e => inr e
               end
      end
  end.

(** The header of a member after its first ten bytes [fixed], with the
    optional fields the flags announce: the extra field, the name, the
    comment and the check sum of the header. *)
Definition readHeader_fields (flg : N) (fixed : string) (eof : option error)
  (s : string) : string + error :=
  let extra :=
    if N.testbit flg 2 then
      match le_bytes 2 s with
      | None => inr (noEOF eof)
      | Some (n, s1) =>
          match split_at (N.to_nat n) s1 with
          | None => inr (noEOF eof)
          | Some (data, s2) =>
              inl (fixed +:+ substring 0 2 s +:+ data, s2)
          end
      end
    else inl (fixed, s) in
  match extra with
  | inr e => inr e
  | inl (seen, s) =>
      let name :=
        if N.testbit flg 3 then
          match readString 512 eof s with
          | inr e => inr e
          | inl (k, s1) => inl (seen +:+ k, s1)
          end
        else inl (seen, s) in
      match name with
      | inr e => inr e
      | inl (seen, s) =>
          let comment :=
            if N.testbit flg 4 then
              match readString 512 eof s with
              | inr e => inr e
              | inl (k, s1) => inl (seen +:+ k, s1)
              end
            else inl (seen, s) in
          match comment with
          | inr e => inr e
          | inl (seen, s) =>
              if N.testbit flg 1 then
                match le_bytes 2 s with
                | None => inr (noEOF eof)
                | Some (digest, s1) =>
                    if (digest =? crc32 seen mod 65536)%N then inl s1
                    else inr ErrHeader
                end
              else inl s
          end
      end
  end.

(** The header of a member: the magic [1f 8b], the method [08], the
    flags, the time, the extra flags and the system, and the optional
    fields.  What is left is the deflate stream. *)
Definition readHeader (eof : option error) (s : string) : string + error :=
  match s with
  | String id1 (String id2 (String cm (String flg (String t0 (String t1
      (String t2 (String t3 (String xfl (String os r))))))))) =>
      if (nat_of_ascii id1 =? 31)%nat && (nat_of_ascii id2 =? 139)%nat
         && (nat_of_ascii cm =? 8)%nat
      then
        readHeader_fields (N_of_ascii flg)
          (String id1 (String id2 (String cm (String flg (String t0
             (String t1 (String t2 (String t3 (String xfl (String os ""))))))))))
          eof r
      else inr ErrHeader
  | _ => inr (noEOF eof)
  end.

(** The members of the stream after the header of the first one: each
    is inflated, its check sum and its size are compared, and the
    header of the next one is read.  The stream delivers what has been
    inflated before an error. *)
Fixpoint read_members (fuel : nat) (eof : option error) (out : string)
  (s : string) : Body :=
  match fuel with
  | O => mkBody out (Some CorruptInputError)
  | S fuel' =>
      match inflate (S (String.length s)) "" ([], s) with
      | (data, inr f) => mkBody (out +:+ data) (Some (flate_error f eof))
      | (data, inl (_, trailer)) =>
          match le_bytes 4 trailer with
          | None => mkBody (out +:+ data) (Some (noEOF eof))
          | Some (digest, t') =>
              match le_bytes 4 t' with
              | None => mkBody (out +:+ data) (Some (noEOF eof))
              | Some (size, next) =>
                  if (digest =? crc32 data)%N
                     && (size =? N.of_nat (String.length data) mod 4294967296)%N
                  then
                    match next with
                    | EmptyString => mkBody (out +:+ data) eof
                    | _ =>
                        match readHeader eof next with
                        | inr e => mkBody (out +:+ data) (Some e)
                        | inl s' => read_members fuel' eof (out +:+ data) s'
                        end
                    end
                  else mkBody (out +:+ data) (Some ErrChecksum)
              end
          end
      end
  end.

(** [gzip.NewReader] reads the header of the first member and fails
    where it cannot; the reader it returns delivers the data of the
    members, and the error that ends the stream. *)
Definition NewReader (b : Body) : Body + error :=
  match body_bytes b with
  | EmptyString =>
      inr (match body_err b with Some e => e | None => io_EOF end)
  | s =>
      match readHeader (body_err b) s with
      | inr e => inr e
      | inl rest =>
          inl (read_members (S (String.length rest)) (body_err b) "" rest)
      end
  end.

(** *** [compress/gzip]: the writer without compression *)

Definition of_bytes (l : list nat) : string :=
  fold_right (fun n s => String (ascii_of_nat n) s) "" l.

Definition block_max : nat := N.to_nat 65535.

Definition le2 (v : N) : string :=
  String (ascii_of_N (v mod 256)) (String (ascii_of_N (v / 256 mod 256)) "").

Definition le4 (v : N) : string :=
  String (ascii_of_N (v mod 256))
    (String (ascii_of_N (v / 256 mod 256))
       (String (ascii_of_N (v / 65536 mod 256))
          (String (ascii_of_N (v / 16777216 mod 256)) ""))).

(** One stored block: the final bit, the length and its complement on
    two bytes each, the data. *)
Definition stored_block (final : bool) (data : string) : string :=
  String (ascii_of_nat (if final then 1 else 0))
    (le2 (N.of_nat (String.length data))
     +:+ le2 (65535 - N.of_nat (String.length data))
     +:+ data).

(** The data in stored blocks of at most [block_max] bytes, none of
    them final, and the empty final block that closes the stream. *)
Fixpoint write_blocks (fuel : nat) (x : string) : string :=
  match fuel with
  | O => stored_block true ""
  | S fuel' =>
      if (String.length x =? 0)%nat then stored_block true ""
      else if (String.length x <=? block_max)%nat
           then stored_block false x +:+ stored_block true ""
           else stored_block false (substring 0 block_max x)
                +:+ write_blocks fuel'
                      (substring block_max (String.length x - block_max) x)
  end.

(** The member header: no flags, no time, unknown system. *)
Definition member_header : string := of_bytes [31; 139; 8; 0; 0; 0; 0; 0; 0; 255].

(** The member for [x], as the writer of [gzip.NewWriterLevel] with
    [gzip.NoCompression] lays it out for one [Write] of [x] and
    [Close]: header, stored blocks, CRC-32 and size of [x]. *)
Definition Compress (x : string) : string :=
  member_header +:+ write_blocks (String.length x) x
  +:+ le4 (crc32 x) +:+ le4 (N.of_nat (String.length x) mod 4294967296).

#[export] Instance libs : Libs := {|
  url_Parse := Parse;
  gzip_NewReader := NewReader;
  json_Unmarshal_ImageDigest := Unmarshal_ImageDigest;
  json_Unmarshal_authToken := Unmarshal_authToken
|}.

(** *** A scripted network: the results of the coming calls, in order *)

Definition script_Do (c : Go.Client) (w : list (Response + error))
  (req : Request) : (Response + error) * list (Response + error) :=
  match w with
  | [] => (inr (netError "connection refused"), [])
  | x :: w' => (x, w')
  end.

#[export] Instance script : Network := {|
  World := list (Response + error);
  Do := script_Do
|}.

Definition start (w : list (Response + error)) : NetState := mkNet script w [].

(** The double quote character. *)
Definition dq : string := String (ascii_of_nat 34) "".

(** *** Sample values *)

(** The registry that [CreateRegistryClient] builds for [docker.io]
    without credentials. *)
Definition dockerhub : Registry.t :=
  Registry.mk "https://registry-1.docker.io" "registry-1.docker.io" "" ""
    (mkClient DefaultTimeout)
    (Opt.mk "https://registry-1.docker.io" 0 ∅ false).

Definition alpine (digest : string) : Image.t :=
  Image.mk "docker.io" "library/alpine" "latest" digest.

(** A manifest reduced to its [config.digest]. *)
Definition manifest_body : string :=
  "{" +:+ dq +:+ "config" +:+ dq +:+ ":{" +:+ dq +:+ "digest" +:+ dq +:+ ":"
  +:+ dq +:+ "sha256:abc" +:+ dq +:+ "}}".

(** The body of a token endpoint that gives both fields. *)
Definition token_body : string :=
  "{" +:+ dq +:+ "token" +:+ dq +:+ ":" +:+ dq +:+ "T1" +:+ dq +:+ ","
  +:+ dq +:+ "access_token" +:+ dq +:+ ":" +:+ dq +:+ "T2" +:+ dq +:+ "}".

(** The challenge of the Docker hub. *)
Definition bearer_challenge : string :=
  "Bearer realm=" +:+ dq +:+ "https://auth.docker.io/token" +:+ dq
  +:+ ",service=" +:+ dq +:+ "registry.docker.io" +:+ dq
  +:+ ",scope=" +:+ dq +:+ "repository:library/alpine:pull" +:+ dq.

(** The gzip member that holds the two bytes [hi] in one stored block. *)
Definition gzip_hi : string :=
  of_bytes [31; 139; 8; 0; 0; 0; 0; 0; 4; 3;
            1; 2; 0; 253; 255; 104; 105;
            172; 42; 147; 216; 2; 0; 0; 0].

(** A member with the name [hello.txt] in its header, whose one block
    has the fixed codes and copies from the text before: the text
    [hello] four times, with spaces between. *)
Definition gzip_hello : string :=
  of_bytes [
    31; 139; 8; 8; 0; 0; 0; 0; 0; 255; 104; 101; 108; 108; 111; 46; 116;
    120; 116; 0; 203; 72; 205; 201; 201; 87; 200; 64; 39; 1; 227; 81; 61;
    141; 23; 0; 0; 0 ].

(** A manifest of schema 2 with two layers, as one line of JSON, and the
    member a compressor makes of it in one block with dynamic codes. *)
Definition schema2_manifest : string :=
  of_bytes [
    123; 34; 115; 99; 104; 101; 109; 97; 86; 101; 114; 115; 105;
    111; 110; 34; 58; 50; 44; 34; 109; 101; 100; 105; 97; 84; 121;
    112; 101; 34; 58; 34; 97; 112; 112; 108; 105; 99; 97; 116;
    105; 111; 110; 47; 118; 110; 100; 46; 100; 111; 99; 107; 101;
    114; 46; 100; 105; 115; 116; 114; 105; 98; 117; 116; 105; 111;
    110; 46; 109; 97; 110; 105; 102; 101; 115; 116; 46; 118; 50;
    43; 106; 115; 111; 110; 34; 44; 34; 99; 111; 110; 102; 105;
    103; 34; 58; 123; 34; 109; 101; 100; 105; 97; 84; 121; 112;
    101; 34; 58; 34; 97; 112; 112; 108; 105; 99; 97; 116; 105;
    111; 110; 47; 118; 110; 100; 46; 100; 111; 99; 107; 101; 114;
    46; 99; 111; 110; 116; 97; 105; 110; 101; 114; 46; 105; 109;
    97; 103; 101; 46; 118; 49; 43; 106; 115; 111; 110; 34; 44; 34;
    115; 105; 122; 101; 34; 58; 49; 52; 55; 50; 44; 34; 100; 105;
    103; 101; 115; 116; 34; 58; 34; 115; 104; 97; 50; 53; 54; 58;
    98; 55; 57; 54; 48; 54; 102; 98; 51; 97; 102; 101; 97; 53; 98;
    100; 49; 54; 48; 57; 101; 100; 52; 48; 98; 54; 50; 50; 49; 52;
    50; 102; 49; 99; 57; 56; 49; 50; 53; 97; 98; 99; 102; 101; 56;
    57; 97; 55; 54; 97; 54; 54; 49; 98; 48; 101; 56; 101; 51; 52;
    51; 57; 49; 48; 34; 125; 44; 34; 108; 97; 121; 101; 114; 115;
    34; 58; 91; 123; 34; 109; 101; 100; 105; 97; 84; 121; 112;
    101; 34; 58; 34; 97; 112; 112; 108; 105; 99; 97; 116; 105;
    111; 110; 47; 118; 110; 100; 46; 100; 111; 99; 107; 101; 114;
    46; 105; 109; 97; 103; 101; 46; 114; 111; 111; 116; 102; 115;
    46; 100; 105; 102; 102; 46; 116; 97; 114; 46; 103; 122; 105;
    112; 34; 44; 34; 115; 105; 122; 101; 34; 58; 50; 55; 56; 57;
    55; 52; 50; 44; 34; 100; 105; 103; 101; 115; 116; 34; 58; 34;
    115; 104; 97; 50; 53; 54; 58; 55; 55; 101; 97; 55; 101; 101;
    101; 51; 100; 56; 48; 98; 49; 97; 51; 56; 102; 56; 51; 57; 48;
    54; 100; 100; 51; 48; 52; 56; 101; 50; 54; 56; 57; 52; 53; 55;
    101; 98; 57; 48; 101; 49; 56; 97; 55; 100; 49; 50; 102; 56;
    51; 57; 99; 53; 97; 101; 51; 55; 49; 48; 54; 97; 50; 34; 125;
    44; 123; 34; 109; 101; 100; 105; 97; 84; 121; 112; 101; 34;
    58; 34; 97; 112; 112; 108; 105; 99; 97; 116; 105; 111; 110;
    47; 118; 110; 100; 46; 100; 111; 99; 107; 101; 114; 46; 105;
    109; 97; 103; 101; 46; 114; 111; 111; 116; 102; 115; 46; 100;
    105; 102; 102; 46; 116; 97; 114; 46; 103; 122; 105; 112; 34;
    44; 34; 115; 105; 122; 101; 34; 58; 51; 48; 49; 44; 34; 100;
    105; 103; 101; 115; 116; 34; 58; 34; 115; 104; 97; 50; 53; 54;
    58; 57; 53; 99; 102; 49; 97; 50; 101; 49; 54; 57; 56; 102;
    101; 51; 99; 97; 49; 102; 99; 99; 51; 102; 54; 53; 51; 49; 49;
    57; 49; 52; 54; 98; 50; 55; 49; 100; 48; 98; 54; 50; 101; 52;
    56; 55; 101; 99; 50; 54; 52; 52; 52; 49; 101; 56; 56; 54; 97;
    49; 49; 98; 100; 48; 54; 34; 125; 93; 125 ].

Definition gzip_schema2_manifest : string :=
  of_bytes [
    31; 139; 8; 0; 0; 0; 0; 0; 0; 255; 173; 144; 77; 78; 3; 49;
    12; 133; 239; 146; 45; 213; 16; 39; 25; 39; 153; 115; 32; 54;
    136; 133; 147; 56; 211; 64; 231; 71; 51; 67; 165; 182; 234;
    221; 73; 133; 96; 3; 139; 46; 216; 89; 126; 246; 243; 231;
    119; 17; 107; 220; 243; 64; 207; 188; 172; 101; 26; 69; 167;
    118; 98; 224; 84; 232; 233; 52; 179; 232; 4; 205; 243; 161;
    68; 218; 170; 246; 120; 28; 83; 147; 166; 248; 206; 75; 147;
    202; 186; 45; 37; 124; 220; 250; 205; 64; 99; 201; 188; 110;
    205; 81; 61; 188; 173; 213; 100; 39; 226; 52; 230; 210; 139;
    238; 114; 143; 89; 29; 222; 168; 140; 181; 42; 3; 245; 220;
    28; 225; 219; 102; 45; 231; 186; 7; 198; 86; 170; 84; 250;
    122; 163; 186; 172; 123; 82; 45; 118; 193; 122; 148; 152; 131;
    166; 204; 212; 134; 4; 40; 61; 39; 35; 3; 42; 5; 70; 101; 136;
    222; 129; 106; 41; 196; 204; 206; 147; 69; 66; 132; 32; 217;
    177; 54; 218; 131; 20; 215; 157; 56; 208; 169; 254; 45; 186;
    151; 187; 56; 191; 232; 150; 105; 218; 242; 90; 19; 200; 185;
    217; 104; 105; 250; 115; 153; 127; 80; 149; 117; 222; 154; 63;
    104; 173; 101; 178; 204; 172; 147; 147; 1; 72; 187; 236; 180;
    151; 152; 146; 150; 198; 177; 66; 231; 77; 107; 57; 120; 201;
    224; 200; 38; 80; 55; 61; 182; 196; 218; 130; 68; 82; 149;
    246; 191; 24; 181; 132; 223; 124; 190; 141; 25; 72; 49; 160;
    119; 153; 117; 36; 200; 49; 234; 140; 173; 6; 240; 96; 48; 40;
    11; 233; 150; 45; 27; 103; 57; 42; 52; 198; 0; 59; 135; 4; 16;
    146; 68; 113; 125; 189; 126; 2; 250; 45; 159; 88; 76; 2; 0; 0 ].

Definition response (status : Z) (body : string) : Response :=
  mkResponse status ∅ (mkBody body None).

Definition gzip_response (status : Z) (body : string) : Response :=
  mkResponse status (<["Content-Encoding" := ["gzip"]]> ∅) (mkBody body None).

Definition challenge_response (value : string) : Response :=
  mkResponse StatusUnauthorized (<["Www-Authenticate" := [value]]> ∅)
    (mkBody "" None).

End Reference.

(** ** A reference environment for the image inspection *)

Module ReferenceInspect.

Import Reference.

Definition store_entry_member (acc : DockerConfigEntry.t * option error)
  (kv : string * Json.value) : DockerConfigEntry.t * option error :=
  let '(c, e) := acc in
  let '(k, v) := kv in
  if key_is k "username" then
    let '(x, e') := store_string "DockerConfigEntry.username" v
                      (DockerConfigEntry.Username c) in
    (DockerConfigEntry.mk x (DockerConfigEntry.Password c)
       (DockerConfigEntry.Email c) (DockerConfigEntry.ServerAddress c),
     first_error e e')
  else if key_is k "password" then
    let '(x, e') := store_string "DockerConfigEntry.password" v
                      (DockerConfigEntry.Password c) in
    (DockerConfigEntry.mk (DockerConfigEntry.Username c) x
       (DockerConfigEntry.Email c) (DockerConfigEntry.ServerAddress c),
     first_error e e')
  else if key_is k "email" then
    let '(x, e') := store_string "DockerConfigEntry.email" v
                      (DockerConfigEntry.Email c) in
    (DockerConfigEntry.mk (DockerConfigEntry.Username c)
       (DockerConfigEntry.Password c) x (DockerConfigEntry.ServerAddress c),
     first_error e e')
  else if key_is k "serverAddress" then
    let '(x, e') := store_string "DockerConfigEntry.serverAddress" v
                      (DockerConfigEntry.ServerAddress c) in
    (DockerConfigEntry.mk (DockerConfigEntry.Username c)
       (DockerConfigEntry.Password c) (DockerConfigEntry.Email c) x,
     first_error e e')
  else acc.

(** An element of a map is decoded into a fresh value. *)
Definition store_entry (v : Json.value) : DockerConfigEntry.t * option error :=
  match v with
  | Json.Object ms =>
      fold_left store_entry_member ms (DockerConfigEntry.mk "" "" "" "", None)
  | Json.Null => (DockerConfigEntry.mk "" "" "" "", None)
  | _ => (DockerConfigEntry.mk "" "" "" "",
          Some (jsonTypeError "DockerConfigEntry"))
  end.

Definition store_Auths (v : Json.value) (old : gmap string DockerConfigEntry.t)
  : gmap string DockerConfigEntry.t * option error :=
  match v with
  | Json.Object ms =>
      fold_left
        (fun acc kv =>
           let '(m, e) := acc in
           let '(en, e') := store_entry (snd kv) in
           (<[fst kv := en]> m, first_error e e'))
        ms (old, None)
  | Json.Null => (old, None)
  | _ => (old, Some (jsonTypeError "DockerConfigJson.auths"))
  end.

Definition store_DockerConfigJson_member
  (acc : DockerConfigJson.t * option error) (kv : string * Json.value)
  : DockerConfigJson.t * option error :=
  let '(d, e) := acc in
  if key_is (fst kv) "auths" then
    let '(x, e') := store_Auths (snd kv) (DockerConfigJson.Auths d) in
    (DockerConfigJson.mk x, first_error e e')
  else acc.

Definition Unmarshal_DockerConfigJson (data : string) (target : DockerConfigJson.t)
  : DockerConfigJson.t * option error :=
  match Json.parse data with
  | None => (target, Some (jsonSyntaxError "invalid JSON text"))
  | Some (Json.Object ms) =>
      fold_left store_DockerConfigJson_member ms (target, None)
  | Some Json.Null => (target, None)
  | Some _ => (target, Some (jsonTypeError "DockerConfigJson"))
  end.

#[export] Instance secrets : SecretLib := {|
  json_Unmarshal_DockerConfigJson := Unmarshal_DockerConfigJson;
  range_start := fun _ => 0%nat
|}.

(** A stand-in for [ParseImage] on names of the form
    [domain/path:tag]. *)
Fixpoint split_first (c : ascii) (s : string) : option (string * string) :=
  match s with
  | EmptyString => None
  | String d s' =>
      if Ascii.eqb c d then Some (EmptyString, s')
      else match split_first c s' with
           | Some (a, b) => Some (String d a, b)
           | None => None
           end
  end.

Definition ParseImage_names (name : string) : Image.t * option error :=
  match split_first "/" name with
  | Some (domain, rest) =>
      match split_first ":" rest with
      | Some (path, tag) => (Image.mk domain path tag "", None)
      | None => (Image.mk domain rest "latest" "", None)
      end
  | None => (Image.mk "" "" "" "", Some (errorString "invalid reference format"))
  end.

(** Two of the fields of [ImageBlob]. *)
Record Blob2 : Type := mkBlob2 {
  Architecture : string;
  Os : string
}.

Definition store_Blob2_member (acc : Blob2 * option error)
  (kv : string * Json.value) : Blob2 * option error :=
  let '(c, e) := acc in
  if key_is (fst kv) "architecture" then
    let '(x, e') := store_string "ImageBlob.architecture" (snd kv)
                      (Architecture c) in
    (mkBlob2 x (Os c), first_error e e')
  else if key_is (fst kv) "os" then
    let '(x, e') := store_string "ImageBlob.os" (snd kv) (Os c) in
    (mkBlob2 (Architecture c) x, first_error e e')
  else acc.

Definition Unmarshal_Blob2 (data : string) (target : Blob2)
  : Blob2 * option error :=
  match Json.parse data with
  | None => (target, Some (jsonSyntaxError "invalid JSON text"))
  | Some (Json.Object ms) => fold_left store_Blob2_member ms (target, None)
  | Some Json.Null => (target, None)
  | Some _ => (target, Some (jsonTypeError "ImageBlob"))
  end.

#[export] Instance inspection : @Inspection script := {|
  ParseImage := ParseImage_names;
  Registry_Token := Token;
  ImageBlob := Blob2;
  ImageBlob_zero := mkBlob2 "" "";
  json_Unmarshal_ImageBlob := Unmarshal_Blob2
|}.

(** *** Sample values *)

(** A docker configuration with one registry. *)
Definition docker_config : string :=
  "{" +:+ dq +:+ "auths" +:+ dq +:+ ":{" +:+ dq +:+ "example.com" +:+ dq
  +:+ ":{" +:+ dq +:+ "username" +:+ dq +:+ ":" +:+ dq +:+ "user" +:+ dq
  +:+ "," +:+ dq +:+ "password" +:+ dq +:+ ":" +:+ dq +:+ "secret" +:+ dq
  +:+ "}}}".

Definition pull_secret : Secret.t :=
  Secret.mk "project" "pull" SecretTypeDockerConfigJson
    (<[DockerConfigJsonKey := docker_config]> ∅).

Definition opaque_secret : Secret.t :=
  Secret.mk "project" "tls" "kubernetes.io/tls" ∅.

Definition no_secret : Secret.t := Secret.mk "" "" "" ∅.

Definition blob_body : string :=
  "{" +:+ dq +:+ "architecture" +:+ dq +:+ ":" +:+ dq +:+ "amd64" +:+ dq
  +:+ "," +:+ dq +:+ "os" +:+ dq +:+ ":" +:+ dq +:+ "linux" +:+ dq +:+ "}".

End ReferenceInspect.

(** ** Package [devops]: the mail server of Jenkins *)

(** [strings.Replace(s, old, new, 1)]: the first instance of [old] in [s]
    is replaced by [new]; without an instance the result is [s]. *)
Fixpoint strings_Replace_1 (s old new : string) : string :=
  match strip_prefix old s with
  | Some rest => new +:+ rest
  | None =>
      match s with
      | EmptyString => EmptyString
      | String c s' => String c (strings_Replace_1 s' old new)
      end
  end.

(** [strings.Contains(s, substr)] *)
Fixpoint strings_Contains (s substr : string) : bool :=
  match strip_prefix substr s with
  | Some _ => true
  | None =>
      match s with
      | EmptyString => false
      | String _ s' => strings_Contains s' substr
      end
  end.

Definition strconv_FormatBool (b : bool) : string :=
  if b then "true" else "false".

Definition StatusServiceUnavailable : Z := 503.

(** The text of the errors that are raised inside the libraries. *)
Class ErrorText : Type := {
  error_Error : error -> string
}.

(** [err.Error()]: the text of an error made by [errors.New] or
    [fmt.Errorf] is its message. *)
Definition Error `{ErrorText} (e : error) : string :=
  match e with
  | errorString msg => msg
  | _ => error_Error e
  end.

(** What [SetMailServer] finds outside its package: the client set with
    its Jenkins client, and the status code the [utils] package reads
    off an error.  The declaration of [EmailServerConfig] is not among
    the sources; the type of its field [Submit], which is only handed on
    to [ExecutesScript], is left open.  [ExecutesScript] returns the
    message or an error. *)
Class DevopsClient : Type := {
  SubmitT : Type;
  ClientSets_Devops : option error;
  ExecutesScript : string -> SubmitT -> string + error;
  GetJenkinsStatusCode : error -> Z
}.

(** The fields of [EmailServerConfig] that [SetMailServer] reads. *)
Module EmailServerConfig.
Record t `{D : DevopsClient} : Type := mk {
  Email : string;
  FromEmailAddr : string;
  Password : string;
  EmailHost : string;
  Port : Z;
  SslEnable : bool;
  Submit : SubmitT
}.
Arguments mk {D} Email FromEmailAddr Password EmailHost Port SslEnable Submit.
End EmailServerConfig.

(** The fields of [ExecutesResult] that [SetMailServer] writes. *)
Module ExecutesResult.
Record t : Type := mk {
  Success : bool;
  Message : string
}.
End ExecutesResult.

(** [restful.ServiceError], as [restful.NewError(code, message)] builds
    it. *)
Module ServiceError.
Record t : Type := mk {
  Code : Z;
  Message : string
}.
End ServiceError.

Definition restful_NewError (code : Z) (message : string) : ServiceError.t :=
  ServiceError.mk code message.

Definition newline : string := String (ascii_of_nat 10) "".
Definition quote : string := String (ascii_of_nat 34) "".

(** The lines of a raw string literal. *)
Fixpoint lines (l : list string) : string :=
  match l with
  | [] => ""
  | a :: rest =>
      match rest with
      | [] => a
      | _ => a +:+ newline +:+ lines rest
      end
  end.

(** The script for the mail server as the source has it, line by
    line; it opens with a line break. *)
Definition setMailServerScript_template : string :=
  lines
    [ "";
      "import jenkins.model.*";
      "";
      "def env = System.getenv()";
      "";
      "def emailFromName = " +:+ quote +:+ "EMAILFROMNAME" +:+ quote;
      "def emailFromAddr = " +:+ quote +:+ "EMAILFROMADDR" +:+ quote;
      "def emailFromPass = " +:+ quote +:+ "EMAILFROMPASS" +:+ quote;
      "def emailSmtpHost = " +:+ quote +:+ "EMAILSMTPHOST" +:+ quote;
      "def emailSmtpPort = " +:+ quote +:+ "EMAILSMTPPORT" +:+ quote;
      "def ssl = USESSL";
      "";
      "def locationConfig = JenkinsLocationConfiguration.get()";
      "locationConfig.adminAddress = " +:+ quote
        +:+ "${emailFromName} <${emailFromAddr}>" +:+ quote;
      "locationConfig.save()";
      "";
      "def mailer = Jenkins.instance.getDescriptor(" +:+ quote
        +:+ "hudson.tasks.Mailer" +:+ quote +:+ ")";
      "mailer.setSmtpAuth(emailFromAddr, emailFromPass)";
      "mailer.setReplyToAddress(" +:+ quote
        +:+ "no-reply@k8s.kubesphere.io" +:+ quote +:+ ")";
      "mailer.setSmtpHost(emailSmtpHost)";
      "mailer.setUseSsl(ssl)";
      "mailer.setSmtpPort(emailSmtpPort)";
      "mailer.save()" ].

(** The value of [setMailServerScript] when it is handed to
    [ExecutesScript]: the six replacements, in the order of the
    source. *)
Definition setMailServerScript `{DevopsClient} (server : EmailServerConfig.t)
  : string :=
  let s := setMailServerScript_template in
  let s := strings_Replace_1 s "EMAILFROMNAME" (EmailServerConfig.Email server) in
  let s := strings_Replace_1 s "EMAILFROMADDR"
             (EmailServerConfig.FromEmailAddr server) in
  let s := strings_Replace_1 s "EMAILFROMPASS"
             (EmailServerConfig.Password server) in
  let s := strings_Replace_1 s "EMAILSMTPHOST"
             (EmailServerConfig.EmailHost server) in
  let s := strings_Replace_1 s "EMAILSMTPPORT"
             (strconv_Itoa (EmailServerConfig.Port server)) in
  strings_Replace_1 s "USESSL"
    (strconv_FormatBool (EmailServerConfig.SslEnable server)).

(** The texts of the script between the places of the values. *)
Definition script_text_0 : string :=
  lines [ "";
          "import jenkins.model.*";
          "";
          "def env = System.getenv()";
          "";
          "def emailFromName = " +:+ quote ].
Definition script_text_1 : string :=
  lines [ quote; "def emailFromAddr = " +:+ quote ].
Definition script_text_2 : string :=
  lines [ quote; "def emailFromPass = " +:+ quote ].
Definition script_text_3 : string :=
  lines [ quote; "def emailSmtpHost = " +:+ quote ].
Definition script_text_4 : string :=
  lines [ quote; "def emailSmtpPort = " +:+ quote ].
Definition script_text_5 : string :=
  lines [ quote; "def ssl = " ].
Definition script_text_6 : string :=
  lines
    [ "";
      "";
      "def locationConfig = JenkinsLocationConfiguration.get()";
      "locationConfig.adminAddress = " +:+ quote
        +:+ "${emailFromName} <${emailFromAddr}>" +:+ quote;
      "locationConfig.save()";
      "";
      "def mailer = Jenkins.instance.getDescriptor(" +:+ quote
        +:+ "hudson.tasks.Mailer" +:+ quote +:+ ")";
      "mailer.setSmtpAuth(emailFromAddr, emailFromPass)";
      "mailer.setReplyToAddress(" +:+ quote
        +:+ "no-reply@k8s.kubesphere.io" +:+ quote +:+ ")";
      "mailer.setSmtpHost(emailSmtpHost)";
      "mailer.setUseSsl(ssl)";
      "mailer.setSmtpPort(emailSmtpPort)";
      "mailer.save()" ].

(** The script with a value in each place. *)
Definition filled_script (name addr pass host port ssl : string) : string :=
  script_text_0 +:+ name +:+ script_text_1 +:+ addr +:+ script_text_2
  +:+ pass +:+ script_text_3 +:+ host +:+ script_text_4 +:+ port
  +:+ script_text_5 +:+ ssl +:+ script_text_6.

(** [free_of c s]: the character [c] does not occur in [s]. *)
Fixpoint free_of (c : ascii) (s : string) : bool :=
  match s with
  | EmptyString => true
  | String d s' => negb (Ascii.eqb c d) && free_of c s'
  end.

(** [starts_outside b old]: [b] starts with a character that does not
    occur in [old]. *)
Definition starts_outside (b old : string) : bool :=
  match b with
  | EmptyString => false
  | String q _ => free_of q old
  end.

(** [contains_any v olds]: one of [olds] occurs in [v]. *)
Definition contains_any (v : string) (olds : list string) : bool :=
  existsb (strings_Contains v) olds.

Definition isSuccess (msg : string) : bool :=
  if String.eqb msg "" then true else false.

(** [server] is a pointer: the client set is asked for before the
    first field of [server] is read. *)
Definition SetMailServer `{ErrorText} `{DevopsClient}
  (server : option EmailServerConfig.t)
  : outcome (option ExecutesResult.t * option ServiceError.t) :=
  match ClientSets_Devops with
  | Some err =>
      Returns
        (None, Some (restful_NewError StatusServiceUnavailable (Error err)))
  | None =>
      match server with
      | None => Panics nil_dereference
      | Some server =>
          match ExecutesScript (setMailServerScript server)
                  (EmailServerConfig.Submit server) with
          | inr err =>
              Returns
                (None,
                 Some (restful_NewError (GetJenkinsStatusCode err) (Error err)))
          | inl executesMessage =>
              Returns
                (Some (ExecutesResult.mk (isSuccess executesMessage)
                         executesMessage),
                 None)
          end
      end
  end.

(** *** The handler [SetupMailServer] *)

Definition StatusBadRequest : Z := 400.

(** The request of the handler: [ReadEntity(&server)] gives what it
    has stored in [server], nil when it has stored nothing, and its
    error. *)
Class Restful `{DevopsClient} : Type := {
  RestRequest : Type;
  ReadEntity : RestRequest -> option EmailServerConfig.t * option error
}.

(** What the handler does with the response: the calls of
    [errors.ParseSvcErr], of [parseErr] and of [WriteAsJson], in their
    order. *)
Inductive written : Type :=
| ParseSvcErr (err : ServiceError.t)
| parseErr (err : ServiceError.t)
| WriteAsJson (res : option ExecutesResult.t).

(** The calls on the response are kept when the handler panics. *)
Definition SetupMailServer `{ErrorText} `{Restful} (req : RestRequest)
  : outcome unit * list written :=
  let '(server, err) := ReadEntity req in
  let resp :=
    match err with
    | Some err =>
        [ParseSvcErr (restful_NewError StatusBadRequest (Error err))]
    | None => []
    end in
  match SetMailServer server with
  | Panics msg => (Panics msg, resp)
  | Returns (res, err) =>
      match err with
      | Some err => (Returns tt, resp ++ [parseErr err])%list
      | None => (Returns tt, resp ++ [WriteAsJson res])%list
      end
  end.

(** ** Package [options]: the options of the server *)

Module ServerRunOptions.
Record t : Type := mk {
  BindAddress : string;
  InsecurePort : Z;
  SecurePort : Z;
  TlsCertFile : string;
  TlsPrivateKey : string
}.
End ServerRunOptions.

Definition NewServerRunOptions : ServerRunOptions.t :=
  ServerRunOptions.mk "0.0.0.0" 9090 0 "" "".

(** [pflag.FlagSet]: its name and the flags defined so far, each with
    its name, the text of its default and its usage. *)
Record Flag : Type := mkFlag {
  flag_Name : string;
  flag_DefValue : string;
  flag_Usage : string
}.

Record FlagSet : Type := mkFlagSet {
  flagset_name : string;
  formal : list Flag
}.

(** [AddFlag] of [pflag]: a name that is defined already makes it
    panic. *)
Definition FlagSet_AddFlag (fs : FlagSet) (flag : Flag) : outcome FlagSet :=
  if existsb (fun f => String.eqb (flag_Name f) (flag_Name flag)) (formal fs)
  then Panics (fmt_Sprintf "%s flag redefined: %s"
                 [ArgS (flagset_name fs); ArgS (flag_Name flag)])
  else Returns (mkFlagSet (flagset_name fs) (formal fs ++ [flag])%list).

(** [StringVar] and [IntVar] store the default in the variable and
    then define the flag; the first component is the variable after the
    call. *)
Definition FlagSet_StringVar (fs : FlagSet) (name value usage : string)
  : string * outcome FlagSet :=
  (value, FlagSet_AddFlag fs (mkFlag name value usage)).

Definition FlagSet_IntVar (fs : FlagSet) (name : string) (value : Z)
  (usage : string) : Z * outcome FlagSet :=
  (value, FlagSet_AddFlag fs (mkFlag name (strconv_Itoa value) usage)).

(** [AddFlags] works on its receiver and on the flag set: the result
    has the receiver after the call, also when the call panics. *)
Definition AddFlags (s : ServerRunOptions.t) (fs : FlagSet)
  : ServerRunOptions.t * outcome FlagSet :=
  let '(v, fs) :=
    FlagSet_StringVar fs "bind-address" "0.0.0.0" "server bind address" in
  let s := ServerRunOptions.mk v (ServerRunOptions.InsecurePort s)
             (ServerRunOptions.SecurePort s) (ServerRunOptions.TlsCertFile s)
             (ServerRunOptions.TlsPrivateKey s) in
  match fs with
  | Panics msg => (s, Panics msg)
  | Returns fs =>
  let '(v, fs) := FlagSet_IntVar fs "insecure-port" 9090 "insecure port number" in
  let s := ServerRunOptions.mk (ServerRunOptions.BindAddress s) v
             (ServerRunOptions.SecurePort s) (ServerRunOptions.TlsCertFile s)
             (ServerRunOptions.TlsPrivateKey s) in
  match fs with
  | Panics msg => (s, Panics msg)
  | Returns fs =>
  let '(v, fs) := FlagSet_IntVar fs "secure-port" 0 "secure port number" in
  let s := ServerRunOptions.mk (ServerRunOptions.BindAddress s)
             (ServerRunOptions.InsecurePort s) v
             (ServerRunOptions.TlsCertFile s)
             (ServerRunOptions.TlsPrivateKey s) in
  match fs with
  | Panics msg => (s, Panics msg)
  | Returns fs =>
  let '(v, fs) := FlagSet_StringVar fs "tls-cert-file" "" "tls cert file" in
  let s := ServerRunOptions.mk (ServerRunOptions.BindAddress s)
             (ServerRunOptions.InsecurePort s) (ServerRunOptions.SecurePort s)
             v (ServerRunOptions.TlsPrivateKey s) in
  match fs with
  | Panics msg => (s, Panics msg)
  | Returns fs =>
  let '(v, fs) := FlagSet_StringVar fs "tls-private-key" "" "tls private key" in
  let s := ServerRunOptions.mk (ServerRunOptions.BindAddress s)
             (ServerRunOptions.InsecurePort s) (ServerRunOptions.SecurePort s)
             (ServerRunOptions.TlsCertFile s) v in
  (s, fs)
  end end end end.


(** ** Package [jenkins]: the Jenkins client *)

(** [strings.Join(elems, sep)] *)
Fixpoint strings_Join (elems : list string) (sep : string) : string :=
  match elems with
  | [] => ""
  | a :: rest =>
      match rest with
      | [] => a
      | _ => a +:+ sep +:+ strings_Join rest sep
      end
  end.

(** A value handed over as [interface{}]: a string, a
    [map[string]string], or a value of another type. *)
Inductive any : Type :=
| AnyString (s : string)
| AnyMap (m : gmap string string)
| AnyOther.

(** The panic of a type assertion [x.(string)] on a value that is not a
    string, and the one of [make(chan struct{}, n)] for a negative
    [n]. *)
Definition interface_conversion : string :=
  "interface conversion: interface {} is not string".
Definition makechan_size : string := "makechan: size out of range".

(** [http.DefaultClient] is [&Client{}]. *)
Definition http_DefaultClient : Client := mkClient 0.

Module BasicAuth.
Record t : Type := mk {
  Username : string;
  Password : string
}.
End BasicAuth.

(** The fields of [Requester] that [CreateJenkins] sets; [Client] is a
    pointer and [connControl] is the capacity of the channel. *)
Module Requester.
Record t : Type := mk {
  Base : string;
  BasicAuth : option BasicAuth.t;
  Client : option Go.Client;
  SslVerify : bool;
  connControl : Z
}.
End Requester.

(** The types and the constant of the package that are declared outside
    the sources: the bodies of the answers, with the value [new] gives,
    the role as the literal [GlobalRoleResponse{RoleName: roleName}]
    builds it and as [json.Unmarshal] fills it, and [GLOBAL_ROLE]. *)
Class Declarations : Type := {
  ExecutorResponse : Type;
  ExecutorResponse_zero : ExecutorResponse;
  JobResponse : Type;
  JobResponse_zero : JobResponse;
  FolderResponse : Type;
  FolderResponse_zero : FolderResponse;
  GlobalRoleResponse : Type;
  GlobalRoleResponse_RoleName : string -> GlobalRoleResponse;
  json_Unmarshal_GlobalRoleResponse :
    string -> GlobalRoleResponse -> GlobalRoleResponse * option error;
  GLOBAL_ROLE : string
}.

Module Jenkins.
Record t `{D : Declarations} : Type := mk {
  Server : string;
  Version : string;
  Raw : option ExecutorResponse;
  Requester : Requester.t
}.
Arguments mk {D} Server Version Raw Requester.
End Jenkins.

Module Job.
Record t `{D : Declarations} : Type := mk {
  Jenkins : Jenkins.t;
  Raw : JobResponse;
  Base : string
}.
Arguments mk {D} Jenkins Raw Base.
End Job.

Module Folder.
Record t `{D : Declarations} : Type := mk {
  Jenkins : Jenkins.t;
  Raw : FolderResponse;
  Base : string
}.
Arguments mk {D} Jenkins Raw Base.
End Folder.

Module GlobalRole.
Record t `{D : Declarations} : Type := mk {
  Jenkins : Jenkins.t;
  Raw : GlobalRoleResponse
}.
Arguments mk {D} Jenkins Raw.
End GlobalRole.

(** The calls that leave the sources: the methods of [Requester], of
    [Job] and of [Folder].  [Post] is called without payload; a call
    that is given a pointer to fill answers with what it has written
    there. *)
Inductive call `{Declarations} : Type :=
| CallPost (r : Requester.t) (endpoint : string)
    (querystring : option (gmap string string))
| CallGet (r : Requester.t) (endpoint : string)
    (querystring : gmap string string)
| CallGetJSON (r : Requester.t) (endpoint : string)
| CallJobPoll (job : Job.t)
| CallFolderPoll (folder : Folder.t)
| CallJobCreate (job : Job.t) (config : string) (qr : gmap string string)
| CallJobInvokeSimple (job : Job.t) (params : option (gmap string string)).

(** What each call gives back: a response or an error for the methods
    of [Requester], after the text or the body written through the
    pointer; the Go pair for the others, [Poll] after the body it has
    written into [Raw]. *)
Definition reply `{Declarations} (c : call) : Type :=
  match c with
  | CallPost _ _ _ => (Response + error)%type
  | CallGet _ _ _ => (string * (Response + error))%type
  | CallGetJSON _ _ => (ExecutorResponse * (Response + error))%type
  | CallJobPoll _ => (JobResponse * (Z * option error))%type
  | CallFolderPoll _ => (FolderResponse * (Z * option error))%type
  | CallJobCreate _ _ _ => (option Job.t * option error)%type
  | CallJobInvokeSimple _ _ => (Z * option error)%type
  end.

(** The server behind the calls: a state and what one call does to
    it. *)
Class Server `{D : Declarations} : Type := {
  Conn : Type;
  serve : forall c : call, Conn -> reply c * Conn
}.

(** What a run can observe of the server: its state and the calls made
    so far, oldest first. *)
Record RemoteState `{S : Server} : Type := mkRemote {
  conn : Conn;
  calls : list call
}.
Arguments mkRemote {D S} conn calls.

Definition request `{Server} (c : call) (st : RemoteState)
  : reply c * RemoteState :=
  let '(r, w) := serve c (conn st) in
  (r, mkRemote w (calls st ++ [c])%list).

Section Client.

Context `{Server}.

(** [Init] works on its receiver: the first component is the receiver
    after the call, the second one the pair that is returned, whose
    pointer is the receiver.  [initLoggers] only sets the loggers of the
    package and is left out. *)
Definition Jenkins_Init (j : Jenkins.t) (st : RemoteState)
  : (Jenkins.t * (option Jenkins.t * option error)) * RemoteState :=
  let j := Jenkins.mk (Jenkins.Server j) (Jenkins.Version j)
             (Some ExecutorResponse_zero) (Jenkins.Requester j) in
  let '((raw, rsp), st) := request (CallGetJSON (Jenkins.Requester j) "/") st in
  let j := Jenkins.mk (Jenkins.Server j) (Jenkins.Version j)
             (Some raw) (Jenkins.Requester j) in
  match rsp with
  | inr err => ((j, (None, Some err)), st)
  | inl rsp =>
      let j := Jenkins.mk (Jenkins.Server j) (Header_Get (Header rsp) "X-Jenkins")
                 (Jenkins.Raw j) (Jenkins.Requester j) in
      match Jenkins.Raw j with
      | None =>
          ((j, (None,
                Some (errorString
                        "Connection Failed, Please verify that the host and credentials are correct."))),
           st)
      | Some _ => ((j, (Some j, None)), st)
      end
  end.

Definition CreateJob (j : Jenkins.t) (config : string) (options : list any)
  (st : RemoteState)
  : outcome (option Job.t * option error) * RemoteState :=
  let qr : gmap string string := ∅ in
  match options with
  | o :: _ =>
      match o with
      | AnyString name =>
          let qr := <["name" := name]> qr in
          let jobObj :=
            Job.mk j JobResponse_zero ("/job/" +:+ default "" (qr !! "name")) in
          let '((job, err), st) := request (CallJobCreate jobObj config qr) st in
          match err with
          | Some err => (Returns (None, Some err), st)
          | None => (Returns (job, None), st)
          end
      | _ => (Panics interface_conversion, st)
      end
  | [] =>
      (Returns (None, Some (errorString "Error Creating Job, job name is missing")),
       st)
  end.

Definition BuildJob (j : Jenkins.t) (name : string) (options : list any)
  (st : RemoteState) : (Z * option error) * RemoteState :=
  let job := Job.mk j JobResponse_zero ("/job/" +:+ name) in
  let params : option (gmap string string) :=
    match options with
    | o :: _ => match o with AnyMap m => Some m | _ => None end
    | [] => None
    end in
  request (CallJobInvokeSimple job params) st.

Definition GetJob (j : Jenkins.t) (id : string) (parentIDs : list string)
  (st : RemoteState) : (option Job.t * option error) * RemoteState :=
  let job :=
    Job.mk j JobResponse_zero
      ("/job/" +:+ strings_Join (parentIDs ++ [id])%list "/job/") in
  let '((raw, (status, err)), st) := request (CallJobPoll job) st in
  let job := Job.mk (Job.Jenkins job) raw (Job.Base job) in
  match err with
  | Some err => ((None, Some err), st)
  | None =>
      if (status =? 200)%Z then ((Some job, None), st)
      else ((None, Some (errorString (strconv_Itoa status))), st)
  end.

(** [fmt.Errorf] with the verb [%v] writes the text of the error after
    the words of the format. *)
Definition GetFolder `{ErrorText} (j : Jenkins.t) (id : string)
  (parents : list string) (st : RemoteState)
  : (option Folder.t * option error) * RemoteState :=
  let folder :=
    Folder.mk j FolderResponse_zero
      ("/job/" +:+ strings_Join (parents ++ [id])%list "/job/") in
  let '((raw, (status, err)), st) := request (CallFolderPoll folder) st in
  let folder := Folder.mk (Folder.Jenkins folder) raw (Folder.Base folder) in
  match err with
  | Some err =>
      ((None, Some (errorString ("trouble polling folder: " +:+ Error err))), st)
  | None =>
      if (status =? 200)%Z then ((Some folder, None), st)
      else ((None, Some (errorString (strconv_Itoa status))), st)
  end.

Definition DeleteCredentialInFolder (j : Jenkins.t) (domain id : string)
  (folders : list string) (st : RemoteState)
  : (option string * option error) * RemoteState :=
  let prePath := "" in
  let domain := if String.eqb domain "" then "_" else domain in
  if (length folders =? 0)%nat then
    ((None, Some (fmt_Errorf "folder name shoud not be nil" [])), st)
  else
    let prePath :=
      fold_left (fun prePath folder =>
                   prePath +:+ fmt_Sprintf "/job/%s" [ArgS folder])
        folders prePath in
    let '(response, st) :=
      request
        (CallPost (Jenkins.Requester j)
           (prePath
            +:+ fmt_Sprintf
                  "/credentials/store/folder/domain/%s/credential/%s/doDelete"
                  [ArgS domain; ArgS id])
           None) st in
    match response with
    | inr err => ((None, Some err), st)
    | inl response =>
        if negb (StatusCode response =? StatusOK)%Z then
          ((None, Some (errorString (strconv_Itoa (StatusCode response)))), st)
        else ((Some id, None), st)
    end.

Definition GetGlobalRole (j : Jenkins.t) (roleName : string)
  (st : RemoteState) : (option GlobalRole.t * option error) * RemoteState :=
  let roleResponse := GlobalRoleResponse_RoleName roleName in
  let '((stringResponse, response), st) :=
    request
      (CallGet (Jenkins.Requester j) "/role-strategy/strategy/getRole"
         (<["roleName" := roleName]> (<["type" := GLOBAL_ROLE]> ∅))) st in
  match response with
  | inr err => ((None, Some err), st)
  | inl response =>
      if negb (StatusCode response =? StatusOK)%Z then
        ((None, Some (errorString (strconv_Itoa (StatusCode response)))), st)
      else if String.eqb stringResponse "{}" then ((None, None), st)
      else
        let '(roleResponse, err) :=
          json_Unmarshal_GlobalRoleResponse stringResponse roleResponse in
        match err with
        | Some err => ((None, Some err), st)
        | None => ((Some (GlobalRole.mk j roleResponse), None), st)
        end
  end.

End Client.

Definition CreateJenkins `{Declarations} (client : option Client)
  (base : string) (maxConnection : Z) (auth : list any) : outcome Jenkins.t :=
  let base :=
    if strings_HasSuffix base "/"
    then substring 0 (String.length base - 1) base
    else base in
  if (maxConnection <? 0)%Z then Panics makechan_size
  else
    let requester := Requester.mk base None client true maxConnection in
    let requester :=
      match Requester.Client requester with
      | None =>
          Requester.mk (Requester.Base requester)
            (Requester.BasicAuth requester) (Some http_DefaultClient)
            (Requester.SslVerify requester) (Requester.connControl requester)
      | Some _ => requester
      end in
    match auth with
    | [username; password] =>
        match username, password with
        | AnyString username, AnyString password =>
            let requester :=
              Requester.mk (Requester.Base requester)
                (Some (BasicAuth.mk username password))
                (Requester.Client requester) (Requester.SslVerify requester)
                (Requester.connControl requester) in
            Returns (Jenkins.mk base "" None requester)
        | _, _ => Panics interface_conversion
        end
    | _ => Returns (Jenkins.mk base "" None requester)
    end.

(** ** A reference environment for the mail server and the Jenkins client *)

Module ReferenceJenkins.

(** The texts of the errors of the libraries, without their wrapping. *)
#[export] Instance texts : ErrorText := {|
  error_Error := fun e =>
    match e with
    | errorString msg => msg
    | urlError op url => op +:+ " " +:+ url
    | netError msg => msg
    | gzipError msg => msg
    | jsonSyntaxError msg => msg
    | jsonTypeError field => "json: cannot unmarshal into field " +:+ field
    end
|}.

(** A Jenkins that runs every script without a message. *)
#[export] Instance devops : DevopsClient := {|
  SubmitT := string;
  ClientSets_Devops := None;
  ExecutesScript := fun _ _ => inl "";
  GetJenkinsStatusCode := fun _ => 500%Z
|}.

(** The bodies are kept as the text of the answer; a role is its
    name. *)
#[export] Instance declarations : Declarations := {|
  ExecutorResponse := string;
  ExecutorResponse_zero := "";
  JobResponse := string;
  JobResponse_zero := "";
  FolderResponse := string;
  FolderResponse_zero := "";
  GlobalRoleResponse := string;
  GlobalRoleResponse_RoleName := fun roleName => roleName;
  json_Unmarshal_GlobalRoleResponse := fun text role =>
    match Json.parse text with
    | Some _ => (role, None)
    | None => (role, Some (jsonSyntaxError "invalid character"))
    end;
  GLOBAL_ROLE := "globalRoles"
|}.

(** A request is what [ReadEntity] makes of it. *)
#[export] Instance restful : Restful := {|
  RestRequest := option EmailServerConfig.t * option error;
  ReadEntity := fun req => req
|}.

Definition refused : error := netError "connection refused".

Definition answered (status : Z) (text : string) : Response :=
  mkResponse status (<["X-Jenkins" := ["2.176"]]> ∅) (mkBody text None).

(** A scripted server: each call takes the next status and text of the
    list, and fails once the list is used up. *)
Definition script_serve (c : call) (w : list (Z * string))
  : reply c * list (Z * string) :=
  match c return reply c * list (Z * string) with
  | CallPost _ _ _ =>
      match w with
      | (status, text) :: w' => (inl (answered status text), w')
      | [] => (inr refused, [])
      end
  | CallGet _ _ _ =>
      match w with
      | (status, text) :: w' => ((text, inl (answered status text)), w')
      | [] => (("", inr refused), [])
      end
  | CallGetJSON _ _ =>
      match w with
      | (status, text) :: w' => ((text, inl (answered status text)), w')
      | [] => (("", inr refused), [])
      end
  | CallJobPoll _ =>
      match w with
      | (status, text) :: w' => ((text, (status, None)), w')
      | [] => (("", (0%Z, Some refused)), [])
      end
  | CallFolderPoll _ =>
      match w with
      | (status, text) :: w' => ((text, (status, None)), w')
      | [] => (("", (0%Z, Some refused)), [])
      end
  | CallJobCreate job _ _ =>
      match w with
      | (status, text) :: w' =>
          if (status =? 200)%Z then ((Some job, None), w')
          else ((None, Some (errorString (strconv_Itoa status))), w')
      | [] => ((None, Some refused), [])
      end
  | CallJobInvokeSimple _ _ =>
      match w with
      | (status, _) :: w' => ((status, None), w')
      | [] => ((0%Z, Some refused), [])
      end
  end.

#[export] Instance scripted : Server := {|
  Conn := list (Z * string);
  serve := script_serve
|}.

Definition served (w : list (Z * string)) : RemoteState := mkRemote w [].

(** Samples. *)
Definition mail_server : EmailServerConfig.t :=
  EmailServerConfig.mk "admin" "admin@example.com" "secret" "smtp.example.com"
    465%Z true "Submit".

Definition shifted_mail_server : EmailServerConfig.t :=
  EmailServerConfig.mk "EMAILFROMADDR" "admin@example.com" "secret"
    "smtp.example.com" 465%Z true "Submit".

Definition unreadable : @RestRequest devops restful :=
  (None, Some (jsonSyntaxError "unexpected end of JSON input")).

Definition jenkins : Jenkins.t :=
  Jenkins.mk "http://jenkins.example.com" "" None
    (Requester.mk "http://jenkins.example.com" None (Some http_DefaultClient)
       true 20%Z).

End ReferenceJenkins.

(** * Properties *)

(** ** Strings *)

Lemma append_empty_r (s : string) : s +:+ "" = s.
Proof.
  induction s as [|c s IH]; [reflexivity |].
  change (String c (s +:+ "") = String c s). now rewrite IH.
Qed.

Lemma prefix_append (p a t : string) :
  String.prefix p a = true -> String.prefix p (a +:+ t) = true.
Proof.
  revert a; induction p as [|c p IH]; intros a Hp.
  - now destruct (a +:+ t).
  - destruct a as [|d a]; simpl in Hp; [discriminate |].
    change (String d a +:+ t) with (String d (a +:+ t)). simpl.
    destruct (Ascii.ascii_dec c d); [auto | discriminate].
Qed.

Lemma substring_0_splits (n : nat) (s : string) :
  exists t, s = substring 0 n s +:+ t.
Proof.
  revert n; induction s as [|c s IH]; intros [|n].
  - now exists "".
  - now exists "".
  - now exists (String c s).
  - destruct (IH n) as [t Ht]. exists t.
    change (String c s = String c (substring 0 n s +:+ t)). now rewrite <- Ht.
Qed.

Lemma TrimSuffix_splits (s suffix : string) :
  exists t, s = strings_TrimSuffix s suffix +:+ t.
Proof.
  unfold strings_TrimSuffix. destruct (strings_HasSuffix s suffix).
  - apply substring_0_splits.
  - exists "". now rewrite append_empty_r.
Qed.

Lemma reProtocol_append (a t : string) :
  reProtocol_MatchString a = true -> reProtocol_MatchString (a +:+ t) = true.
Proof.
  unfold reProtocol_MatchString. intros H.
  apply orb_true_iff in H. apply orb_true_iff.
  destruct H as [H | H]; [left | right]; now apply prefix_append.
Qed.

(** A domain without scheme has none after [strings.TrimSuffix] either. *)
Lemma reProtocol_TrimSuffix (s suffix : string) :
  reProtocol_MatchString s = false ->
  reProtocol_MatchString (strings_TrimSuffix s suffix) = false.
Proof.
  intros Hs. destruct (TrimSuffix_splits s suffix) as [t Ht].
  destruct (reProtocol_MatchString (strings_TrimSuffix s suffix)) eqn:E;
    [| reflexivity].
  apply (reProtocol_append _ t) in E. rewrite <- Ht in E. congruence.
Qed.

Lemma eqb_false_of_neq (a b : string) : a <> b -> String.eqb a b = false.
Proof. intros H. now apply String.eqb_neq. Qed.

Lemma length_lt_1 (s : string) : s <> "" -> (String.length s <? 1)%nat = false.
Proof. destruct s; [congruence | reflexivity]. Qed.

(** ** Registry construction *)

Lemma GetAuthConfig_ok (username password registry : string) :
  snd (GetAuthConfig username password registry) = None
  /\ AuthConfig.ServerAddress (fst (GetAuthConfig username password registry))
     = setDefaultRegistry registry.
Proof.
  unfold GetAuthConfig.
  destruct (negb (String.eqb username "") && negb (String.eqb password "")
            && negb (String.eqb (setDefaultRegistry registry) ""));
    split; reflexivity.
Qed.

Lemma newFromTransport_ok (auth : AuthConfig.t) (opt : Opt.t) :
  exists r, newFromTransport auth opt = (Some r, None).
Proof. unfold newFromTransport. eexists. reflexivity. Qed.

Lemma CreateRegistryClient_unfold (authURL username password domain : string) :
  CreateRegistryClient authURL username password domain
  = newFromTransport
      (fst (GetAuthConfig username password
              (if String.eqb authURL "" then domain else authURL)))
      (Opt.mk domain 0 ∅ false).
Proof.
  unfold CreateRegistryClient, New.
  pose proof (GetAuthConfig_ok username password
                (if String.eqb authURL "" then domain else authURL)) as [He _].
  destruct (GetAuthConfig username password
              (if String.eqb authURL "" then domain else authURL)) as [auth err].
  simpl in *. now subst err.
Qed.

(** The URL of the registry that [newFromTransport] builds for a domain
    of its own (not empty, not [docker.io]) that has no scheme. *)
Lemma newFromTransport_scheme (auth : AuthConfig.t) (opt : Opt.t) :
  Opt.Domain opt <> "" ->
  Opt.Domain opt <> "docker.io" ->
  reProtocol_MatchString (Opt.Domain opt) = false ->
  exists r,
    newFromTransport auth opt = (Some r, None)
    /\ Registry.URL r
       = (if Opt.UseSSL opt then "https://" else "http://")
         +:+ strings_TrimSuffix (Opt.Domain opt) "/".
Proof.
  intros Hne Hnd Hre. unfold newFromTransport.
  rewrite (length_lt_1 _ Hne), (eqb_false_of_neq _ _ Hnd). simpl orb. cbv iota.
  rewrite (reProtocol_TrimSuffix _ "/" Hre). simpl negb. cbv iota.
  eexists. split; [reflexivity |]. simpl. now destruct (Opt.UseSSL opt).
Qed.

(** C10: for every input, [CreateRegistryClient] returns a registry and
    the nil error; so do the two calls it is made of: [GetAuthConfig]
    always returns the nil error, and [newFromTransport] (and [New])
    always returns a registry and the nil error. *)
Theorem CreateRegistryClient_total (authURL username password domain : string) :
  (exists r,
      CreateRegistryClient authURL username password domain = (Some r, None))
  /\ (forall u p reg, snd (GetAuthConfig u p reg) = None)
  /\ (forall auth opt, exists r, newFromTransport auth opt = (Some r, None))
  /\ (forall auth opt, exists r, New auth opt = (Some r, None)).
Proof.
  split; [| split; [| split]].
  - rewrite CreateRegistryClient_unfold. apply newFromTransport_ok.
  - intros u p reg. apply GetAuthConfig_ok.
  - apply newFromTransport_ok.
  - intros auth opt. unfold New. apply newFromTransport_ok.
Qed.

(** The guard of [newFromTransport]: the empty domain and [docker.io]
    are replaced by the server address of the credentials, which then
    gets its scheme like any other domain. *)
Lemma newFromTransport_default_domain (auth : AuthConfig.t) (opt : Opt.t) :
  Opt.Domain opt = "" \/ Opt.Domain opt = "docker.io" ->
  exists r,
    newFromTransport auth opt = (Some r, None)
    /\ Registry.URL r
       = if reProtocol_MatchString
              (strings_TrimSuffix (AuthConfig.ServerAddress auth) "/")
         then strings_TrimSuffix (AuthConfig.ServerAddress auth) "/"
         else (if Opt.UseSSL opt then "https://" else "http://")
              +:+ strings_TrimSuffix (AuthConfig.ServerAddress auth) "/".
Proof.
  intros Hd. unfold newFromTransport.
  replace ((String.length (Opt.Domain opt) <? 1)%nat
           || String.eqb (Opt.Domain opt) "docker.io") with true
    by (destruct Hd as [-> | ->]; reflexivity).
  cbn [Opt.Domain Opt.UseSSL]. eexists. split; [reflexivity |].
  cbn [Registry.URL].
  destruct (reProtocol_MatchString _); cbn [negb]; [reflexivity |].
  now destruct (Opt.UseSSL opt).
Qed.

(** C4, as the code has it: the normalisation of the domain at
    construction.
    (1) [setDefaultRegistry] maps the bare [docker.io] and the empty
    string to the canonical host [https://registry-1.docker.io].  The
    domain [docker.io] and the empty domain are replaced by the server
    address of the credentials: a client created for either of them has
    the canonical host as its URL when the auth URL is empty or
    [docker.io], and the auth URL, with its scheme, as its URL
    otherwise.
    (2) A domain that does not start with [http://] or [https://] gets
    [https://] put in front when SSL is enabled and [http://] when it is
    disabled (after [strings.TrimSuffix] has dropped one closing slash);
    [CreateRegistryClient] builds its options with SSL disabled.
    (3) No domain makes the construction fail. *)
Theorem domain_normalisation :
  (setDefaultRegistry "docker.io" = "https://registry-1.docker.io"
   /\ setDefaultRegistry "" = "https://registry-1.docker.io"
   /\ (forall username password domain,
          domain = "docker.io" \/ domain = "" ->
          exists r,
            CreateRegistryClient "" username password domain = (Some r, None)
            /\ Registry.URL r = "https://registry-1.docker.io")
   /\ (forall auth opt,
          Opt.Domain opt = "docker.io" \/ Opt.Domain opt = "" ->
          exists r,
            newFromTransport auth opt = (Some r, None)
            /\ Registry.URL r
               = if reProtocol_MatchString
                      (strings_TrimSuffix (AuthConfig.ServerAddress auth) "/")
                 then strings_TrimSuffix (AuthConfig.ServerAddress auth) "/"
                 else (if Opt.UseSSL opt then "https://" else "http://")
                      +:+ strings_TrimSuffix (AuthConfig.ServerAddress auth)
                            "/")
   /\ (forall authURL username password domain,
          domain = "docker.io" \/ domain = "" ->
          exists r,
            CreateRegistryClient authURL username password domain
            = (Some r, None)
            /\ (authURL = "" \/ authURL = "docker.io" ->
                Registry.URL r = "https://registry-1.docker.io")
            /\ (authURL <> "" -> authURL <> "docker.io" ->
                Registry.URL r
                = if reProtocol_MatchString (strings_TrimSuffix authURL "/")
                  then strings_TrimSuffix authURL "/"
                  else "http://" +:+ strings_TrimSuffix authURL "/")))
  /\ (forall auth opt,
         Opt.Domain opt <> "" ->
         Opt.Domain opt <> "docker.io" ->
         reProtocol_MatchString (Opt.Domain opt) = false ->
         exists r,
           newFromTransport auth opt = (Some r, None)
           /\ Registry.URL r
              = (if Opt.UseSSL opt then "https://" else "http://")
                +:+ strings_TrimSuffix (Opt.Domain opt) "/")
  /\ (forall authURL username password domain,
         domain <> "" ->
         domain <> "docker.io" ->
         reProtocol_MatchString domain = false ->
         exists r,
           CreateRegistryClient authURL username password domain
           = (Some r, None)
           /\ Registry.URL r = "http://" +:+ strings_TrimSuffix domain "/")
  /\ (forall auth opt, exists r, newFromTransport auth opt = (Some r, None))
  /\ (forall authURL username password domain,
         exists r,
           CreateRegistryClient authURL username password domain
           = (Some r, None)).
Proof.
  split; [| split; [| split; [| split]]].
  - split; [reflexivity | split; [reflexivity | split; [| split]]].
    + intros username password domain [-> | ->];
        rewrite CreateRegistryClient_unfold; unfold GetAuthConfig; simpl;
        destruct (negb (String.eqb username "") && negb (String.eqb password ""));
        simpl; eexists; (split; [reflexivity | reflexivity]).
    + intros auth opt Hd. apply newFromTransport_default_domain. tauto.
    + intros authURL username password domain Hd.
      rewrite CreateRegistryClient_unfold.
      destruct (newFromTransport_default_domain
                  (fst (GetAuthConfig username password
                          (if String.eqb authURL "" then domain else authURL)))
                  (Opt.mk domain 0 ∅ false)) as (r & Hr & Hurl);
        [cbn [Opt.Domain]; tauto |].
      exists r. split; [exact Hr |].
      rewrite (proj2 (GetAuthConfig_ok _ _ _)) in Hurl. cbn [Opt.UseSSL] in Hurl.
      split.
      * intros Ha. rewrite Hurl.
        replace (setDefaultRegistry
                   (if String.eqb authURL "" then domain else authURL))
          with "https://registry-1.docker.io"; [reflexivity |].
        destruct Ha as [-> | ->]; [| reflexivity].
        now destruct Hd as [-> | ->].
      * intros Hne Hnd. rewrite Hurl.
        rewrite (eqb_false_of_neq _ _ Hne).
        unfold setDefaultRegistry.
        now rewrite (eqb_false_of_neq _ _ Hnd), (eqb_false_of_neq _ _ Hne).
  - apply newFromTransport_scheme.
  - intros authURL username password domain Hne Hnd Hre.
    rewrite CreateRegistryClient_unfold.
    apply (newFromTransport_scheme _ (Opt.mk domain 0 ∅ false)); assumption.
  - apply newFromTransport_ok.
  - intros authURL username password domain.
    rewrite CreateRegistryClient_unfold. apply newFromTransport_ok.
Qed.

(** ** URLs *)

Lemma url_closed_form (r : Registry.t) (pathTemplate : string)
  (args : list fmt_arg) :
  url r pathTemplate args = Registry.URL r +:+ fmt_Sprintf pathTemplate args.
Proof. unfold url. simpl. now rewrite append_empty_r. Qed.

(** C5: [GetDigestUrl] and [GetBlobUrl] are functions of the registry
    and the image alone (they are embedded without any state), with the
    closed forms [URL + "/v2/" + Path + "/manifests/" + Tag] and
    [URL + "/v2/" + Path + "/blobs/" + Digest]; equal inputs, and even
    inputs that only agree on the fields read, give equal URLs. *)
Theorem url_builders (r : Registry.t) (image : Image.t) :
  GetDigestUrl r image
  = Registry.URL r +:+ "/v2/" +:+ Image.Path image +:+ "/manifests/"
    +:+ Image.Tag image
  /\ GetBlobUrl r image
     = Registry.URL r +:+ "/v2/" +:+ Image.Path image +:+ "/blobs/"
       +:+ Image.Digest image
  /\ (forall r' image',
         r' = r -> image' = image ->
         GetDigestUrl r' image' = GetDigestUrl r image
         /\ GetBlobUrl r' image' = GetBlobUrl r image)
  /\ (forall r' image',
         Registry.URL r' = Registry.URL r ->
         Image.Path image' = Image.Path image ->
         (Image.Tag image' = Image.Tag image ->
          GetDigestUrl r' image' = GetDigestUrl r image)
         /\ (Image.Digest image' = Image.Digest image ->
             GetBlobUrl r' image' = GetBlobUrl r image)).
Proof.
  assert (HD : forall r0 i0, GetDigestUrl r0 i0
     = Registry.URL r0 +:+ "/v2/" +:+ Image.Path i0 +:+ "/manifests/"
       +:+ Image.Tag i0).
  { intros r0 i0. unfold GetDigestUrl. rewrite url_closed_form. simpl.
    now rewrite append_empty_r. }
  assert (HB : forall r0 i0, GetBlobUrl r0 i0
     = Registry.URL r0 +:+ "/v2/" +:+ Image.Path i0 +:+ "/blobs/"
       +:+ Image.Digest i0).
  { intros r0 i0. unfold GetBlobUrl. rewrite url_closed_form. simpl.
    now rewrite append_empty_r. }
  split; [apply HD | split; [apply HB | split]].
  - intros r' image' -> ->. split; reflexivity.
  - intros r' image' Hu Hp. split; intros Ht.
    + rewrite !HD. now rewrite Hu, Hp, Ht.
    + rewrite !HB. now rewrite Hu, Hp, Ht.
Qed.

(** ** The manifest and blob fetchers *)

Lemma Sprintf_Bearer (token : string) :
  fmt_Sprintf "Bearer %s" [ArgS token] = "Bearer " +:+ token.
Proof. simpl. now rewrite append_empty_r. Qed.

Lemma Errorf_status (status : Z) :
  fmt_Errorf "got status code: %d" [ArgD status]
  = errorString ("got status code: " +:+ strconv_Itoa status).
Proof. unfold fmt_Errorf. simpl. now rewrite append_empty_r. Qed.

Lemma fetch_request_carries (url token : string) :
  carries_token token (fetch_request url token).
Proof.
  unfold carries_token, fetch_request, Header_Set, Header_Add. split; intros Ht.
  - subst token. simpl.
    change (CanonicalMIMEHeaderKey "Accept") with "Accept".
    rewrite lookup_insert_ne by discriminate. apply lookup_empty.
  - rewrite (eqb_false_of_neq _ _ Ht). simpl.
    change (CanonicalMIMEHeaderKey "Authorization") with "Authorization".
    apply lookup_insert_eq.
Qed.

Lemma accepted_test (status : Z) :
  negb (status =? StatusOK)%Z && negb (status =? StatusNotFound)%Z = false
  <-> accepted status.
Proof.
  unfold accepted.
  destruct (Z.eqb_spec status StatusOK), (Z.eqb_spec status StatusNotFound);
    simpl; intuition congruence.
Qed.

Lemma not_accepted_test (status : Z) :
  negb (status =? StatusOK)%Z && negb (status =? StatusNotFound)%Z = true
  <-> ~ accepted status.
Proof.
  rewrite <- accepted_test.
  destruct (negb (status =? StatusOK)%Z && negb (status =? StatusNotFound)%Z);
    intuition congruence.
Qed.

Section Fetchers.

Context `{L : Libs} `{N : Network}.

Variables (r : Registry.t) (image : Image.t) (token : string) (st : NetState).

(** What is left of [Digest] once the digest is not taken from the image
    and the URL has parsed: the call of the client on [fetch_request] and
    the handling of its result. *)
Lemma Digest_unfold :
  (String.length (Image.Digest image) <= 1)%nat ->
  url_Parse (GetDigestUrl r image) = None ->
  Digest r image token st
  = bind (Client_Do (Registry.Client r)
            (fetch_request (GetDigestUrl r image) token))
      (fun res =>
         match res with
         | inr err => ret ("", Some err)
         | inl resp =>
             if negb (StatusCode resp =? StatusOK)%Z
                && negb (StatusCode resp =? StatusNotFound)%Z
             then ret ("", Some (fmt_Errorf "got status code: %d"
                                   [ArgD (StatusCode resp)]))
             else
               bind (lift (GetRespBody resp))
                 (fun b =>
                    ret (Config.Digest
                           (ImageDigest.Config
                              (fst (json_Unmarshal_ImageDigest (fst b)
                                      ImageDigest.zero))), None))
         end) st.
Proof.
  intros Hlen Hparse. unfold Digest.
  destruct (Nat.ltb_spec 1 (String.length (Image.Digest image))); [lia |].
  unfold http_NewRequest. rewrite Hparse.
  unfold fetch_request. rewrite Sprintf_Bearer.
  destruct (String.eqb token ""); reflexivity.
Qed.

Lemma Blob_unfold :
  url_Parse (GetBlobUrl r image) = None ->
  Blob r image token st
  = bind (Client_Do (Registry.Client r)
            (fetch_request (GetBlobUrl r image) token))
      (fun res =>
         match res with
         | inr err => ret ("", Some err)
         | inl resp =>
             if negb (StatusCode resp =? StatusOK)%Z
                && negb (StatusCode resp =? StatusNotFound)%Z
             then ret ("", Some (fmt_Errorf "got status code: %d"
                                   [ArgD (StatusCode resp)]))
             else bind (lift (GetRespBody resp)) (fun b => ret (fst b, None))
         end) st.
Proof.
  intros Hparse. unfold Blob, http_NewRequest. rewrite Hparse.
  unfold fetch_request. rewrite Sprintf_Bearer.
  destruct (String.eqb token ""); reflexivity.
Qed.

(** The run of [Digest] on a response. *)
Lemma Digest_on_response (resp : Response) (w : World) :
  (String.length (Image.Digest image) <= 1)%nat ->
  url_Parse (GetDigestUrl r image) = None ->
  Do (Registry.Client r) (world st)
     (fetch_request (GetDigestUrl r image) token) = (inl resp, w) ->
  Digest r image token st
  = (if negb (StatusCode resp =? StatusOK)%Z
        && negb (StatusCode resp =? StatusNotFound)%Z
     then Returns ("", Some (errorString ("got status code: "
                                          +:+ strconv_Itoa (StatusCode resp))))
     else match GetRespBody resp with
          | Returns b =>
              Returns (Config.Digest
                         (ImageDigest.Config
                            (fst (json_Unmarshal_ImageDigest (fst b)
                                    ImageDigest.zero))), None)
          | Panics msg => Panics msg
          end,
     mkNet N w (sent st ++ [fetch_request (GetDigestUrl r image) token])).
Proof.
  intros Hlen Hparse HDo. rewrite Digest_unfold by assumption.
  unfold bind, Client_Do. rewrite HDo.
  destruct (negb (StatusCode resp =? StatusOK)%Z
            && negb (StatusCode resp =? StatusNotFound)%Z).
  - unfold ret. now rewrite Errorf_status.
  - unfold lift, ret. now destruct (GetRespBody resp).
Qed.

Lemma Blob_on_response (resp : Response) (w : World) :
  url_Parse (GetBlobUrl r image) = None ->
  Do (Registry.Client r) (world st)
     (fetch_request (GetBlobUrl r image) token) = (inl resp, w) ->
  Blob r image token st
  = (if negb (StatusCode resp =? StatusOK)%Z
        && negb (StatusCode resp =? StatusNotFound)%Z
     then Returns ("", Some (errorString ("got status code: "
                                          +:+ strconv_Itoa (StatusCode resp))))
     else match GetRespBody resp with
          | Returns b => Returns (fst b, None)
          | Panics msg => Panics msg
          end,
     mkNet N w (sent st ++ [fetch_request (GetBlobUrl r image) token])).
Proof.
  intros Hparse HDo. rewrite Blob_unfold by assumption.
  unfold bind, Client_Do. rewrite HDo.
  destruct (negb (StatusCode resp =? StatusOK)%Z
            && negb (StatusCode resp =? StatusNotFound)%Z).
  - unfold ret. now rewrite Errorf_status.
  - unfold lift, ret. now destruct (GetRespBody resp).
Qed.

(** The requests a run hands to the client. *)
Lemma Digest_sent :
  exists new,
    sent (snd (Digest r image token st)) = (sent st ++ new)%list
    /\ (new = [] \/ new = [fetch_request (GetDigestUrl r image) token])
    /\ ((String.length (Image.Digest image) <= 1)%nat ->
        url_Parse (GetDigestUrl r image) = None ->
        new = [fetch_request (GetDigestUrl r image) token]).
Proof.
  destruct (Nat.ltb_spec 1 (String.length (Image.Digest image))) as [Hl | Hl].
  - exists []. unfold Digest.
    destruct (Nat.ltb_spec 1 (String.length (Image.Digest image))); [| lia].
    simpl. rewrite app_nil_r. split; [reflexivity | split; [now left | lia]].
  - destruct (url_Parse (GetDigestUrl r image)) as [e |] eqn:Hp.
    + exists []. unfold Digest.
      destruct (Nat.ltb_spec 1 (String.length (Image.Digest image))); [lia |].
      unfold http_NewRequest. rewrite Hp. simpl. rewrite app_nil_r.
      split; [reflexivity | split; [now left | discriminate]].
    + exists [fetch_request (GetDigestUrl r image) token].
      split; [| split; [now right | reflexivity]].
      rewrite Digest_unfold by assumption. unfold bind, Client_Do.
      destruct (Do (Registry.Client r) (world st)
                  (fetch_request (GetDigestUrl r image) token)) as [[resp | e] w].
      * destruct (negb (StatusCode resp =? StatusOK)%Z
                  && negb (StatusCode resp =? StatusNotFound)%Z);
          [reflexivity |].
        unfold lift. now destruct (GetRespBody resp).
      * reflexivity.
Qed.

Lemma Blob_sent :
  exists new,
    sent (snd (Blob r image token st)) = (sent st ++ new)%list
    /\ (new = [] \/ new = [fetch_request (GetBlobUrl r image) token])
    /\ (url_Parse (GetBlobUrl r image) = None ->
        new = [fetch_request (GetBlobUrl r image) token]).
Proof.
  destruct (url_Parse (GetBlobUrl r image)) as [e |] eqn:Hp.
  - exists []. unfold Blob, http_NewRequest. rewrite Hp. simpl.
    rewrite app_nil_r. split; [reflexivity | split; [now left | discriminate]].
  - exists [fetch_request (GetBlobUrl r image) token].
    split; [| split; [now right | reflexivity]].
    rewrite Blob_unfold by assumption. unfold bind, Client_Do.
    destruct (Do (Registry.Client r) (world st)
                (fetch_request (GetBlobUrl r image) token)) as [[resp | e] w].
    + destruct (negb (StatusCode resp =? StatusOK)%Z
                && negb (StatusCode resp =? StatusNotFound)%Z);
        [reflexivity |].
      unfold lift. now destruct (GetRespBody resp).
    + reflexivity.
Qed.

End Fetchers.

(** C1, as the code has it: an image whose digest is longer than one
    byte is taken as resolved.  [Digest] then returns that digest with
    the nil error and leaves the network as it found it: no request is
    handed to the client and the state behind it is untouched. *)
Theorem Digest_short_circuit `{L : Libs} `{N : Network}
  (r : Registry.t) (image : Image.t) (token : string) (st : NetState) :
  (1 < String.length (Image.Digest image))%nat ->
  Digest r image token st = (Returns (Image.Digest image, None), st).
Proof.
  intros Hlen. unfold Digest.
  destruct (Nat.ltb_spec 1 (String.length (Image.Digest image))); [| lia].
  reflexivity.
Qed.

(** C2, as the code has it.  For an image without digest and a response
    to the manifest request, [Digest] returns an error exactly when the
    status is neither 200 nor 404, and the error then is
    ["got status code: "] followed by the status in decimal.  A response
    with status 200 or 404 whose body [GetRespBody] returns gives the nil
    error and the [config.digest] that the body decodes to: a 404 is
    handled like a 200, so its digest is empty when its body carries
    none.  [Blob] accepts the same statuses, and hands back the body. *)
Theorem status_acceptance `{L : Libs} `{N : Network}
  (r : Registry.t) (image : Image.t) (token : string) (st : NetState) :
  (forall resp w,
      Image.Digest image = "" ->
      url_Parse (GetDigestUrl r image) = None ->
      Do (Registry.Client r) (world st)
         (fetch_request (GetDigestUrl r image) token) = (inl resp, w) ->
      ((exists d e, fst (Digest r image token st) = Returns (d, Some e))
       <-> ~ accepted (StatusCode resp))
      /\ (~ accepted (StatusCode resp) ->
          fst (Digest r image token st)
          = Returns ("", Some (errorString
                                 ("got status code: "
                                  +:+ strconv_Itoa (StatusCode resp)))))
      /\ (accepted (StatusCode resp) ->
          forall b, GetRespBody resp = Returns b ->
          fst (Digest r image token st)
          = Returns (Config.Digest
                       (ImageDigest.Config
                          (fst (json_Unmarshal_ImageDigest (fst b)
                                  ImageDigest.zero))), None)))
  /\ (forall resp w,
         url_Parse (GetBlobUrl r image) = None ->
         Do (Registry.Client r) (world st)
            (fetch_request (GetBlobUrl r image) token) = (inl resp, w) ->
         ((exists d e, fst (Blob r image token st) = Returns (d, Some e))
          <-> ~ accepted (StatusCode resp))
         /\ (~ accepted (StatusCode resp) ->
             fst (Blob r image token st)
             = Returns ("", Some (errorString
                                    ("got status code: "
                                     +:+ strconv_Itoa (StatusCode resp)))))
         /\ (accepted (StatusCode resp) ->
             forall b, GetRespBody resp = Returns b ->
             fst (Blob r image token st) = Returns (fst b, None))).
Proof.
  split.
  - intros resp w Hd Hp HDo.
    assert (Hlen : (String.length (Image.Digest image) <= 1)%nat)
      by (rewrite Hd; simpl; lia).
    rewrite (Digest_on_response r image token st resp w Hlen Hp HDo).
    cbn [fst].
    destruct (negb (StatusCode resp =? StatusOK)%Z
              && negb (StatusCode resp =? StatusNotFound)%Z) eqn:E.
    + apply not_accepted_test in E.
      split; [| split]; [split | |]; try tauto.
      intros _. eauto.
    + apply accepted_test in E.
      split; [| split]; [split | |].
      * intros (d & e & He).
        destruct (GetRespBody resp); discriminate.
      * tauto.
      * tauto.
      * intros _ b Hb. now rewrite Hb.
  - intros resp w Hp HDo.
    rewrite (Blob_on_response r image token st resp w Hp HDo).
    cbn [fst].
    destruct (negb (StatusCode resp =? StatusOK)%Z
              && negb (StatusCode resp =? StatusNotFound)%Z) eqn:E.
    + apply not_accepted_test in E.
      split; [| split]; [split | |]; try tauto.
      intros _. eauto.
    + apply accepted_test in E.
      split; [| split]; [split | |].
      * intros (d & e & He).
        destruct (GetRespBody resp); discriminate.
      * tauto.
      * tauto.
      * intros _ b Hb. now rewrite Hb.
Qed.

(** What [Digest] makes of a failure of the JSON decoding: the result of
    [json.Unmarshal] is not looked at.  When it reports an error on the
    body of a response with status 200 or 404, [Digest] still returns the
    nil error, with the digest field as the decoder left it; that is the
    empty digest when the decoder has left its target untouched. *)
Lemma decode_failure_dropped `{L : Libs} `{N : Network}
  (r : Registry.t) (image : Image.t) (token : string) (st : NetState)
  (resp : Response) (w : World) (b : string * option error) (jerr : error) :
  Image.Digest image = "" ->
  url_Parse (GetDigestUrl r image) = None ->
  Do (Registry.Client r) (world st)
     (fetch_request (GetDigestUrl r image) token) = (inl resp, w) ->
  accepted (StatusCode resp) ->
  GetRespBody resp = Returns b ->
  snd (json_Unmarshal_ImageDigest (fst b) ImageDigest.zero) = Some jerr ->
  fst (Digest r image token st)
  = Returns (Config.Digest
               (ImageDigest.Config
                  (fst (json_Unmarshal_ImageDigest (fst b) ImageDigest.zero))),
             None)
  /\ (fst (json_Unmarshal_ImageDigest (fst b) ImageDigest.zero)
      = ImageDigest.zero ->
      fst (Digest r image token st) = Returns ("", None)).
Proof.
  intros Hd Hp HDo Hs Hb _.
  assert (Hlen : (String.length (Image.Digest image) <= 1)%nat)
    by (rewrite Hd; simpl; lia).
  rewrite (Digest_on_response r image token st resp w Hlen Hp HDo).
  apply accepted_test in Hs. rewrite Hs, Hb. cbn [fst].
  split; [reflexivity | intros ->; reflexivity].
Qed.

(** C6: every request that [Digest] or [Blob] hands to the client
    carries the token as [carries_token] says: no [Authorization] header
    when the token is empty, and the header set to exactly
    ["Bearer " + token] when it is not.  Each of them sends one such
    request once its URL has parsed ([Digest]: and the digest is not
    taken from the image). *)
Theorem fetchers_carry_token `{L : Libs} `{N : Network}
  (r : Registry.t) (image : Image.t) (token : string) (st : NetState) :
  (exists new,
      sent (snd (Digest r image token st)) = (sent st ++ new)%list
      /\ Forall (carries_token token) new
      /\ ((String.length (Image.Digest image) <= 1)%nat ->
          url_Parse (GetDigestUrl r image) = None ->
          exists req, new = [req] /\ Go.URL req = GetDigestUrl r image))
  /\ (exists new,
         sent (snd (Blob r image token st)) = (sent st ++ new)%list
         /\ Forall (carries_token token) new
         /\ (url_Parse (GetBlobUrl r image) = None ->
             exists req, new = [req] /\ Go.URL req = GetBlobUrl r image)).
Proof.
  split.
  - destruct (Digest_sent r image token st) as (new & Hs & Hnew & Hone).
    exists new. split; [exact Hs | split].
    + destruct Hnew as [-> | ->]; [constructor |].
      constructor; [apply fetch_request_carries | constructor].
    + intros Hl Hp. rewrite (Hone Hl Hp). eexists. split; reflexivity.
  - destruct (Blob_sent r image token st) as (new & Hs & Hnew & Hone).
    exists new. split; [exact Hs | split].
    + destruct Hnew as [-> | ->]; [constructor |].
      constructor; [apply fetch_request_carries | constructor].
    + intros Hp. rewrite (Hone Hp). eexists. split; reflexivity.
Qed.

(** ** Decoding a response body *)

Lemma GetRespBody_plain `{L : Libs} (resp : Response) :
  Header_Get (Header resp) "Content-Encoding" <> "gzip" ->
  GetRespBody resp
  = Returns (match body_err (RespBody resp) with
             | Some e => ("", Some e)
             | None => (body_bytes (RespBody resp), None)
             end).
Proof.
  intros Hh. unfold GetRespBody. rewrite (eqb_false_of_neq _ _ Hh).
  unfold ioutil_ReadAll. now destruct (body_err (RespBody resp)).
Qed.

Lemma GetRespBody_gzip_stream `{L : Libs} (resp : Response) (z : Body) :
  Header_Get (Header resp) "Content-Encoding" = "gzip" ->
  gzip_NewReader (RespBody resp) = inl z ->
  GetRespBody resp
  = Returns (match body_err z with
             | Some e => ("", Some e)
             | None => (body_bytes z, None)
             end).
Proof.
  intros Hh Hz. unfold GetRespBody. rewrite Hh, Hz. simpl.
  now destruct (body_err z).
Qed.

(** Where [gzip.NewReader] rejects the body, its error is dropped and the
    read goes through the nil reader. *)
Lemma GetRespBody_gzip_rejected `{L : Libs} (resp : Response) (e : error) :
  Header_Get (Header resp) "Content-Encoding" = "gzip" ->
  gzip_NewReader (RespBody resp) = inr e ->
  GetRespBody resp = Panics "invalid memory address or nil pointer dereference".
Proof. intros Hh Hz. unfold GetRespBody. now rewrite Hh, Hz. Qed.

(** ** Token negotiation *)

Lemma append_cons (c : ascii) (a b : string) :
  String c a +:+ b = String c (a +:+ b).
Proof. reflexivity. Qed.

Lemma skip_spaces_split (s : string) :
  exists w, all_spaces w = true /\ s = w +:+ skip_spaces s.
Proof.
  induction s as [|c s (w & Hw & Hs)]; [now exists "" |].
  simpl. destruct (is_space c) eqn:Hc.
  - exists (String c w). simpl. rewrite Hc, Hw. split; [reflexivity |].
    rewrite append_cons. now rewrite <- Hs.
  - now exists "".
Qed.

Lemma skip_spaces_app (w t : string) :
  all_spaces w = true -> skip_spaces (w +:+ t) = skip_spaces t.
Proof.
  induction w as [|c w IH]; [reflexivity |].
  intros H. simpl in H. apply andb_true_iff in H as [Hc Hw].
  rewrite append_cons. simpl skip_spaces. rewrite Hc. now apply IH.
Qed.

Lemma skip_spaces_idem (s : string) : skip_spaces (skip_spaces s) = skip_spaces s.
Proof.
  induction s as [|c s IH]; [reflexivity |].
  simpl. destruct (is_space c) eqn:Hc; [exact IH |].
  simpl. now rewrite Hc.
Qed.

Lemma strip_prefix_app (p u : string) : strip_prefix p (p +:+ u) = Some u.
Proof.
  induction p as [|c p IH]; [reflexivity |].
  rewrite append_cons. simpl. now rewrite Ascii.eqb_refl.
Qed.

Lemma strip_prefix_Some (p s u : string) :
  strip_prefix p s = Some u -> s = p +:+ u.
Proof.
  revert s; induction p as [|c p IH]; intros s H.
  - simpl in H. injection H as ->. reflexivity.
  - destruct s as [|d s]; simpl in H; [discriminate |].
    destruct (Ascii.eqb_spec c d) as [-> | _]; [| discriminate].
    rewrite append_cons. now rewrite (IH s H).
Qed.

(** [match_scheme] finds exactly the texts of the pattern, with the group
    of the greedy match. *)
Lemma match_scheme_spec (c0 : ascii) (kw' s g : string) :
  is_space c0 = false ->
  match_scheme (String c0 kw') s = Some g <-> scheme_text (String c0 kw') s g.
Proof.
  intros Hc0. unfold match_scheme, scheme_text. split.
  - destruct (strip_prefix (String c0 kw') (skip_spaces s)) as [[|c t] |] eqn:E;
      try discriminate.
    destruct (is_space c) eqn:Hc; [| discriminate].
    destruct (has_newline (skip_spaces t)) eqn:Hn; [discriminate |].
    intros [= <-].
    destruct (skip_spaces_split s) as (w1 & Hw1 & Hs).
    destruct (skip_spaces_split t) as (w2 & Hw2 & Ht).
    exists w1, (String c w2).
    apply strip_prefix_Some in E.
    split; [| split; [exact Hw1 | split; [discriminate | split; [| split]]]].
    + rewrite Hs at 1. rewrite E. rewrite (append_cons c w2).
      now rewrite <- Ht.
    + simpl. now rewrite Hc, Hw2.
    + exact Hn.
    + apply skip_spaces_idem.
  - intros (w1 & w2 & -> & Hw1 & Hne & Hw2 & Hn & Hg).
    rewrite (skip_spaces_app _ _ Hw1). rewrite append_cons. simpl skip_spaces.
    rewrite Hc0. rewrite <- append_cons, strip_prefix_app.
    destruct w2 as [|c w2]; [congruence |].
    simpl in Hw2. apply andb_true_iff in Hw2 as [Hc Hw2].
    rewrite append_cons, Hc, (skip_spaces_app _ _ Hw2), Hg, Hn. reflexivity.
Qed.

(** The two challenge patterns exclude each other: after the blanks the
    header reads [Basic] or [Bearer], not both. *)
Lemma strip_Basic_not_Bearer (t : string) :
  strip_prefix "Bearer" t = None \/ strip_prefix "Basic" t = None.
Proof.
  destruct t as [|c1 [|c2 t]]; cbn -[Ascii.eqb].
  - now left.
  - left. now destruct (Ascii.eqb "B" c1).
  - destruct (Ascii.eqb "B" c1); [| now left].
    destruct (Ascii.eqb_spec "a" c2) as [<- | _]; [now left | now right].
Qed.

Lemma basic_not_bearer (h : string) :
  basicRegex_MatchString h = true -> bearerRegex_FindStringSubmatch h = None.
Proof.
  unfold basicRegex_MatchString, bearerRegex_FindStringSubmatch, match_scheme.
  destruct (strip_Basic_not_Bearer (skip_spaces h)) as [-> | ->];
    [reflexivity | discriminate].
Qed.

Lemma NewRequest_plain `{L : Libs} (method url : string) (req : Request) :
  http_NewRequest method url = inl req ->
  req = mkRequest method url ∅.
Proof.
  unfold http_NewRequest. destruct (url_Parse url); congruence.
Qed.

(** C8: when the probe of [url] is answered with a 401 whose
    [WWW-Authenticate] header matches the basic pattern, [Token] returns
    the empty token with [ErrBasicAuth], and the probe, which carries no
    credentials, is the only request it has handed to the client. *)
Theorem Token_basic_challenge `{L : Libs} `{N : Network}
  (r : Registry.t) (url : string) (st : NetState)
  (req : Request) (resp : Response) (w : World) :
  http_NewRequest "GET" url = inl req ->
  Do (Registry.Client r) (world st) req = (inl resp, w) ->
  StatusCode resp = StatusUnauthorized ->
  basicRegex_MatchString (Header_Get (Header resp) "WWW-Authenticate") = true ->
  Token r url st
  = (Returns ("", Some ErrBasicAuth), mkNet N w (sent st ++ [req]))
  /\ ReqHeader req !! "Authorization" = None
  /\ ErrBasicAuth = errorString "basic auth required".
Proof.
  intros Hreq HDo Hs Hb. split; [| split; [| reflexivity]].
  - unfold Token. rewrite Hreq. unfold bind, Client_Do. rewrite HDo, Hs.
    simpl. rewrite (basic_not_bearer _ Hb), Hb. reflexivity.
  - rewrite (NewRequest_plain _ _ _ Hreq). apply lookup_empty.
Qed.

(** C9: when the token endpoint answers the request made from a bearer
    challenge with a body that decodes into [authToken], [Token] returns
    the [token] field if the body gave one, and the [access_token] field
    if it gave only that; with both, [token] wins.  A field is given when
    the decoded struct holds a string that is not empty. *)
Theorem Token_prefers_token `{L : Libs} `{N : Network}
  (r : Registry.t) (url : string) (st : NetState)
  (req authReq : Request) (resp resp' : Response) (w w' : World)
  (params data : string) (t : authToken.t) :
  http_NewRequest "GET" url = inl req ->
  Do (Registry.Client r) (world st) req = (inl resp, w) ->
  StatusCode resp = StatusUnauthorized ->
  bearerRegex_FindStringSubmatch (Header_Get (Header resp) "WWW-Authenticate")
  = Some params ->
  token_request r (parseAuthService params) = inl authReq ->
  Do (Registry.Client r) w authReq = (inl resp', w') ->
  RespBody resp' = mkBody data None ->
  json_Unmarshal_authToken data authToken.zero = (t, None) ->
  (authToken.Token t <> "" ->
   fst (Token r url st) = Returns (authToken.Token t, None))
  /\ (authToken.Token t = "" ->
      authToken.AccessToken t <> "" ->
      fst (Token r url st) = Returns (authToken.AccessToken t, None))
  /\ sent (snd (Token r url st)) = (sent st ++ [req; authReq])%list.
Proof.
  intros Hreq HDo Hs Hbearer Hauth HDo' Hbody Hjson.
  assert (Hrun : Token r url st
    = (Returns (if negb (String.eqb (authToken.Token t) "")
                then (authToken.Token t, None)
                else (authToken.AccessToken t, None)),
       mkNet N w' ((sent st ++ [req]) ++ [authReq]))).
  { unfold Token. rewrite Hreq. unfold bind, Client_Do. rewrite HDo, Hs.
    simpl. rewrite Hbearer, Hauth. simpl. rewrite HDo', Hbody. simpl.
    rewrite Hjson. now destruct (negb (String.eqb (authToken.Token t) "")). }
  rewrite Hrun. cbn [fst snd sent]. split; [| split].
  - intros Ht. now rewrite (eqb_false_of_neq _ _ Ht).
  - intros Ht _. now rewrite Ht.
  - now rewrite <- app_assoc.
Qed.

(** ** The reference gzip writer and reader *)

Section Codec.

Import Reference.

Ltac Zify.zify_post_hook ::= Z.to_euclidean_division_equations.

Lemma append_assoc (a b c : string) : (a +:+ b) +:+ c = a +:+ (b +:+ c).
Proof.
  induction a as [|x a IH]; [reflexivity |].
  rewrite !append_cons. now rewrite IH.
Qed.

Lemma length_append (a b : string) :
  String.length (a +:+ b) = (String.length a + String.length b)%nat.
Proof.
  induction a as [|c a IH]; [reflexivity |].
  rewrite append_cons. simpl. now rewrite IH.
Qed.

Lemma substring_0_length (a b : string) :
  substring 0 (String.length a) (a +:+ b) = a.
Proof.
  induction a as [|c a IH].
  - simpl. now destruct b.
  - rewrite append_cons. simpl. now rewrite IH.
Qed.

Lemma substring_all (b : string) : substring 0 (String.length b) b = b.
Proof. induction b as [|c b IH]; simpl; [reflexivity | now rewrite IH]. Qed.

Lemma substring_skip (a b : string) :
  substring (String.length a) (String.length b) (a +:+ b) = b.
Proof.
  induction a as [|c a IH].
  - apply substring_all.
  - rewrite append_cons. simpl. exact IH.
Qed.

Lemma split_at_append (a b : string) :
  split_at (String.length a) (a +:+ b) = Some (a, b).
Proof.
  unfold split_at. rewrite length_append.
  destruct (Nat.leb_spec (String.length a) (String.length a + String.length b));
    [| lia].
  rewrite substring_0_length.
  replace (String.length a + String.length b - String.length a)%nat
    with (String.length b) by lia.
  now rewrite substring_skip.
Qed.

Lemma substring_rejoin (n : nat) (x : string) :
  (n <= String.length x)%nat ->
  substring 0 n x +:+ substring n (String.length x - n) x = x.
Proof.
  revert n; induction x as [|c x IH]; intros [|n] Hn; simpl in *.
  - reflexivity.
  - lia.
  - now rewrite substring_all.
  - rewrite append_cons. rewrite IH by lia. reflexivity.
Qed.

Lemma length_substring_0 (n : nat) (x : string) :
  (n <= String.length x)%nat -> String.length (substring 0 n x) = n.
Proof.
  revert n; induction x as [|c x IH]; intros [|n] Hn; simpl in *; try lia.
  rewrite IH by lia. reflexivity.
Qed.

Lemma length_substring_rest (n : nat) (x : string) :
  (n <= String.length x)%nat ->
  String.length (substring n (String.length x - n) x) = (String.length x - n)%nat.
Proof.
  intros Hn. pose proof (substring_rejoin n x Hn) as H.
  apply (f_equal String.length) in H. rewrite length_append in H.
  rewrite (length_substring_0 n x Hn) in H. lia.
Qed.

Lemma le_bytes_le2 (v : N) (s : string) :
  (v < 65536)%N -> le_bytes 2 (le2 v +:+ s) = Some (v, s).
Proof.
  intros Hv. unfold le2. rewrite !append_cons. simpl.
  rewrite !N_ascii_embedding by lia. f_equal. f_equal. lia.
Qed.

Lemma le_bytes_le4 (v : N) (s : string) :
  (v < 4294967296)%N -> le_bytes 4 (le4 v +:+ s) = Some (v, s).
Proof.
  intros Hv. unfold le4. rewrite !append_cons. simpl.
  rewrite !N_ascii_embedding by lia. f_equal. f_equal. lia.
Qed.

(** One stored block is read back, whatever is written before it. *)
Lemma inflate_stored (fuel : nat) (final : bool) (out data rest : string) :
  (String.length data <= block_max)%nat ->
  inflate (S fuel) out ([], stored_block final data +:+ rest)
  = if final then (out +:+ data, inl ([], rest))
    else inflate fuel (out +:+ data) ([], rest).
Proof.
  intros Hlen. unfold block_max in Hlen.
  unfold stored_block. rewrite append_cons.
  assert (Hd : dataBlock out
                 ([false; false; false; false; false],
                  (le2 (N.of_nat (String.length data))
                   +:+ le2 (65535 - N.of_nat (String.length data)) +:+ data)
                  +:+ rest)
               = (out +:+ data, inl ([], rest))).
  { unfold dataBlock. cbn [snd]. rewrite !append_assoc.
    rewrite le_bytes_le2 by lia. rewrite le_bytes_le2 by lia.
    assert (Hsum : (N.of_nat (String.length data)
                    + (65535 - N.of_nat (String.length data)) =? 65535)%N = true)
      by (apply N.eqb_eq; lia).
    rewrite Hsum. cbn [negb]. rewrite Nat2N.id, split_at_append. reflexivity. }
  destruct final;
    [change (ascii_of_nat 1)
       with (Ascii true false false false false false false false)
    | change (ascii_of_nat 0)
       with (Ascii false false false false false false false false)];
    cbn -[dataBlock append le2]; now rewrite Hd.
Qed.

Lemma write_blocks_inflate (fw : nat) :
  forall (x out rest : string) (fr : nat),
    (String.length x <= fw)%nat -> (fw < fr)%nat ->
    inflate fr out ([], write_blocks fw x +:+ rest)
    = (out +:+ x, inl ([], rest)).
Proof.
  assert (Hend : forall out rest fr,
             inflate (S fr) out ([], stored_block true "" +:+ rest)
             = (out +:+ "", inl ([], rest))).
  { intros out rest fr. rewrite inflate_stored; [reflexivity | cbn; lia]. }
  induction fw as [|fw IH]; intros x out rest fr Hx Hfr;
    (destruct fr as [|fr]; [lia |]).
  - destruct x; [| simpl in Hx; lia]. cbn [write_blocks]. apply Hend.
  - cbn [write_blocks].
    destruct (Nat.eqb_spec (String.length x) 0) as [H0 | H0].
    { destruct x; [| discriminate]. apply Hend. }
    destruct (Nat.leb_spec (String.length x) block_max) as [Hs | Hs].
    + rewrite append_assoc, inflate_stored by exact Hs.
      destruct fr as [|fr]; [lia |].
      rewrite Hend. now rewrite append_empty_r.
    + rewrite append_assoc, inflate_stored
        by (rewrite length_substring_0 by lia; lia).
      rewrite IH.
      * now rewrite append_assoc, substring_rejoin by lia.
      * rewrite length_substring_rest by lia. unfold block_max in *. lia.
      * lia.
Qed.

Lemma length_le2 (v : N) : String.length (le2 v) = 2%nat.
Proof. reflexivity. Qed.

Lemma length_write_blocks (fw : nat) (x : string) :
  (String.length x <= fw)%nat ->
  (String.length x <= String.length (write_blocks fw x))%nat.
Proof.
  revert x; induction fw as [|fw IH]; intros x Hx.
  - lia.
  - cbn [write_blocks].
    destruct (Nat.eqb_spec (String.length x) 0) as [H0 | H0]; [lia |].
    destruct (Nat.leb_spec (String.length x) block_max) as [Hs | Hs].
    + rewrite length_append. unfold stored_block at 1. cbn [String.length].
      rewrite !length_append. lia.
    + rewrite length_append. unfold stored_block at 1. cbn [String.length].
      rewrite !length_append. rewrite length_substring_0 by lia.
      specialize (IH (substring block_max (String.length x - block_max) x)).
      rewrite length_substring_rest in IH by lia.
      unfold block_max in *. lia.
Qed.

Lemma lxor_below (a b n : N) :
  (a < 2 ^ n)%N -> (b < 2 ^ n)%N -> (N.lxor a b < 2 ^ n)%N.
Proof.
  intros Ha Hb.
  destruct (N.eq_dec (N.lxor a b) 0%N) as [-> | Hne]; [lia |].
  apply N.log2_lt_pow2; [lia |].
  pose proof (N.log2_lxor a b) as Hl.
  assert (Hn : (0 < n)%N).
  { destruct (N.eq_dec n 0%N) as [-> | ?]; [| lia].
    simpl in Ha, Hb. assert (a = 0%N) by lia. assert (b = 0%N) by lia.
    subst. now elim Hne. }
  assert (Hla : (N.log2 a < n)%N).
  { destruct (N.eq_dec a 0%N) as [-> | ?]; [simpl; lia |].
    apply N.log2_lt_pow2; lia. }
  assert (Hlb : (N.log2 b < n)%N).
  { destruct (N.eq_dec b 0%N) as [-> | ?]; [simpl; lia |].
    apply N.log2_lt_pow2; lia. }
  lia.
Qed.

Lemma crc_step_below (crc : N) :
  (crc < 2 ^ 32)%N -> (crc_step crc < 2 ^ 32)%N.
Proof.
  intros H. unfold crc_step.
  assert (Hs : (N.shiftr crc 1 < 2 ^ 32)%N).
  { rewrite N.shiftr_div_pow2. change (2 ^ 1)%N with 2%N.
    change (2 ^ 32)%N with 4294967296%N in *. lia. }
  destruct (N.testbit crc 0); [| exact Hs].
  apply lxor_below; [exact Hs | reflexivity].
Qed.

Lemma crc_byte_below (crc : N) (b : ascii) :
  (crc < 2 ^ 32)%N -> (crc_byte crc b < 2 ^ 32)%N.
Proof.
  intros H. unfold crc_byte.
  assert (H0 : (N.lxor crc (N_of_ascii b) < 2 ^ 32)%N).
  { apply lxor_below; [exact H |].
    pose proof (N_ascii_bounded b). change (2 ^ 32)%N with 4294967296%N. lia. }
  simpl Nat.iter. now repeat apply crc_step_below.
Qed.

Lemma crc_update_below (s : string) :
  forall crc, (crc < 2 ^ 32)%N -> (crc_update crc s < 2 ^ 32)%N.
Proof.
  induction s as [|b s IH]; intros crc H; simpl; [exact H |].
  apply IH. now apply crc_byte_below.
Qed.

Lemma crc32_below (s : string) : (crc32 s < 4294967296)%N.
Proof.
  unfold crc32. change (N.lxor (crc_update 4294967295 s) 4294967295 < 2 ^ 32)%N.
  apply lxor_below; [| reflexivity].
  apply crc_update_below. reflexivity.
Qed.

(** What [Compress] writes, [NewReader] reads back. *)
Lemma Compress_NewReader (x : string) :
  NewReader (mkBody (Compress x) None) = inl (mkBody x None).
Proof.
  unfold Compress.
  change (NewReader
            (mkBody (member_header
                     +:+ write_blocks (String.length x) x
                     +:+ le4 (crc32 x)
                     +:+ le4 (N.of_nat (String.length x) mod 4294967296)) None))
    with (@inl Body error
            (read_members
               (S (String.length
                     (write_blocks (String.length x) x
                      +:+ le4 (crc32 x)
                      +:+ le4 (N.of_nat (String.length x) mod 4294967296))))
               None ""
               (write_blocks (String.length x) x
                +:+ le4 (crc32 x)
                +:+ le4 (N.of_nat (String.length x) mod 4294967296)))).
  f_equal. cbn [read_members].
  rewrite write_blocks_inflate.
  - change ("" +:+ x) with x.
    rewrite le_bytes_le4 by apply crc32_below.
    rewrite <- (append_empty_r (le4 (N.of_nat (String.length x) mod 4294967296))).
    rewrite le_bytes_le4 by (apply N.mod_lt; lia).
    now rewrite !N.eqb_refl.
  - lia.
  - rewrite length_append.
    pose proof (length_write_blocks (String.length x) x (Nat.le_refl _)). lia.
Qed.

End Codec.

(** ** The gzip round trip *)

(** C7, as the code has it.  [GetRespBody] reads the body through the
    reader of [gzip.NewReader] exactly when the [Content-Encoding]
    header is [gzip], and reads the body itself otherwise; it returns
    the bytes read when the read ends without error, and no bytes with
    the error when it does not.  So with the header a body that the
    gzip reader decompresses to [x] gives [x], with any other value of
    the header the bytes of the body are returned as they are, and a
    response that carries the gzip encoding of [x] under the header and
    one that carries [x] without it give the same bytes.  The round
    trip holds for the gzip format: what the writer without compression
    makes of [x] decodes to [x]; and it holds for every compressor that
    the reader at hand inverts.  A body that [gzip.NewReader] rejects
    is not covered. *)
Theorem GetRespBody_gzip `{L : Libs} (resp : Response) (x : string) :
  (Header_Get (Header resp) "Content-Encoding" = "gzip" ->
   forall z,
     gzip_NewReader (RespBody resp) = inl z ->
     GetRespBody resp
     = Returns (match body_err z with
                | Some e => ("", Some e)
                | None => (body_bytes z, None)
                end))
  /\ (Header_Get (Header resp) "Content-Encoding" <> "gzip" ->
      GetRespBody resp
      = Returns (match body_err (RespBody resp) with
                 | Some e => ("", Some e)
                 | None => (body_bytes (RespBody resp), None)
                 end))
  /\ (Header_Get (Header resp) "Content-Encoding" = "gzip" ->
      gzip_NewReader (RespBody resp) = inl (mkBody x None) ->
      GetRespBody resp = Returns (x, None))
  /\ (Header_Get (Header resp) "Content-Encoding" <> "gzip" ->
      RespBody resp = mkBody x None ->
      GetRespBody resp = Returns (x, None))
  /\ (forall resp',
         Header_Get (Header resp) "Content-Encoding" = "gzip" ->
         gzip_NewReader (RespBody resp) = inl (mkBody x None) ->
         Header_Get (Header resp') "Content-Encoding" <> "gzip" ->
         RespBody resp' = mkBody x None ->
         GetRespBody resp = GetRespBody resp'
         /\ GetRespBody resp' = Returns (x, None))
  /\ (forall status status' h h',
         Header_Get h "Content-Encoding" = "gzip" ->
         Header_Get h' "Content-Encoding" <> "gzip" ->
         @GetRespBody Reference.libs
           (mkResponse status h (mkBody (Reference.Compress x) None))
         = Returns (x, None)
         /\ @GetRespBody Reference.libs
              (mkResponse status' h' (mkBody x None))
            = Returns (x, None))
  /\ (forall (compress : string -> string) status status' h h',
         (forall y,
             gzip_NewReader (mkBody (compress y) None) = inl (mkBody y None)) ->
         Header_Get h "Content-Encoding" = "gzip" ->
         Header_Get h' "Content-Encoding" <> "gzip" ->
         GetRespBody (mkResponse status h (mkBody (compress x) None))
         = GetRespBody (mkResponse status' h' (mkBody x None))
         /\ GetRespBody (mkResponse status h (mkBody (compress x) None))
            = Returns (x, None)).
Proof.
  assert (Hg : forall (L0 : Libs) resp0,
             Header_Get (Header resp0) "Content-Encoding" = "gzip" ->
             @gzip_NewReader L0 (RespBody resp0) = inl (mkBody x None) ->
             @GetRespBody L0 resp0 = Returns (x, None)).
  { intros L0 resp0 Hh Hz.
    now rewrite (@GetRespBody_gzip_stream L0 resp0 _ Hh Hz). }
  assert (Hp : forall (L0 : Libs) resp0,
             Header_Get (Header resp0) "Content-Encoding" <> "gzip" ->
             RespBody resp0 = mkBody x None ->
             @GetRespBody L0 resp0 = Returns (x, None)).
  { intros L0 resp0 Hh Hb. rewrite (@GetRespBody_plain L0 resp0 Hh).
    now rewrite Hb. }
  split; [| split; [| split; [| split; [| split; [| split]]]]].
  - intros Hh z Hz. exact (GetRespBody_gzip_stream resp z Hh Hz).
  - intros Hh. exact (GetRespBody_plain resp Hh).
  - apply Hg.
  - apply Hp.
  - intros resp' Hh Hz Hh' Hb'.
    rewrite (Hg L resp Hh Hz), (Hp L resp' Hh' Hb'). split; reflexivity.
  - intros status status' h h' Hh Hh'. split.
    + apply Hg; [exact Hh |]. apply Compress_NewReader.
    + apply Hp; [exact Hh' | reflexivity].
  - intros compress status status' h h' Hinv Hh Hh'.
    rewrite (Hg L (mkResponse status h (mkBody (compress x) None)) Hh (Hinv x)).
    rewrite (Hp L (mkResponse status' h' (mkBody x None)) Hh' eq_refl).
    split; reflexivity.
Qed.

(** ** The theorems at work on the reference environment *)

Section Runs.

Import Reference.

Example dockerhub_is_built :
  CreateRegistryClient "" "" "" "docker.io" = (Some dockerhub, None).
Proof. reflexivity. Qed.

(** The digest URL of the spec's example. *)
Example alpine_digest_url :
  GetDigestUrl dockerhub (alpine "")
  = "https://registry-1.docker.io/v2/library/alpine/manifests/latest".
Proof. reflexivity. Qed.

(** The challenge of the spec's example gives its realm, service and
    scope. *)
Example bearer_challenge_parsed :
  option_map parseAuthService (bearerRegex_FindStringSubmatch bearer_challenge)
  = Some (authService.mk "https://auth.docker.io/token" "registry.docker.io"
            ["repository:library/alpine:pull"]).
Proof. reflexivity. Qed.

Example gzip_hi_decodes : NewReader (mkBody gzip_hi None) = inl (mkBody "hi" None).
Proof. vm_compute. reflexivity. Qed.

(** A name in the header and a block with the fixed codes. *)
Example gzip_hello_decodes :
  NewReader (mkBody gzip_hello None)
  = inl (mkBody "hello hello hello hello" None).
Proof. vm_compute. reflexivity. Qed.

(** A block with dynamic codes. *)
Example gzip_schema2_manifest_decodes :
  NewReader (mkBody gzip_schema2_manifest None)
  = inl (mkBody schema2_manifest None).
Proof. vm_compute. reflexivity. Qed.

(** Two members are read as one stream. *)
Example gzip_members_decode :
  NewReader (mkBody (gzip_hi +:+ gzip_hello) None)
  = inl (mkBody "hihello hello hello hello" None).
Proof. vm_compute. reflexivity. Qed.

(** What follows a member has to be a member. *)
Example gzip_padding_rejected :
  NewReader (mkBody (gzip_hi +:+ of_bytes [0; 0; 0]) None)
  = inl (mkBody "hi" (Some io_ErrUnexpectedEOF))
  /\ NewReader (mkBody (gzip_hi +:+ "0123456789") None)
     = inl (mkBody "hi" (Some ErrHeader)).
Proof. split; vm_compute; reflexivity. Qed.

(** The digest of a manifest that arrives compressed. *)
Example Digest_of_compressed_manifest :
  fst (Digest dockerhub (alpine "") ""
         (start [inl (gzip_response 200 gzip_schema2_manifest)]))
  = Returns
      ("sha256:b79606fb3afea5bd1609ed40b622142f1c98125abcfe89a76a661b0e8e343910",
       None).
Proof. vm_compute. reflexivity. Qed.

(** A text that does not scan leaves the target of the reference decoder
    as it was. *)
Lemma Unmarshal_ImageDigest_syntax (data : string) (target : ImageDigest.t) :
  Json.parse data = None ->
  Unmarshal_ImageDigest data target
  = (target, Some (jsonSyntaxError "invalid JSON text")).
Proof. intros H. unfold Unmarshal_ImageDigest. now rewrite H. Qed.

(** A gzip header over a body that is no gzip member: the run panics. *)
Example Digest_panics_on_rejected_gzip :
  fst (Digest dockerhub (alpine "") "" (start [inl (gzip_response 200 "")]))
  = Panics "invalid memory address or nil pointer dereference".
Proof. vm_compute. reflexivity. Qed.

(** C3: on this input the code does not propagate the failure of the
    decoding.  The registry answers the manifest request with status 200
    and a body that is no JSON text; [json.Unmarshal] fails on it, and
    [Digest] returns the empty digest with the nil error after its one
    request, where a 404 would be the documented case of no digest.  The
    result of [json.Unmarshal] on the manifest is not looked at; on the
    blob, [RegistryImageBlob] does look at it. *)
Theorem decode_failure_dropped_on_200 :
  snd (Unmarshal_ImageDigest "not json" ImageDigest.zero)
  = Some (jsonSyntaxError "invalid JSON text")
  /\ Digest dockerhub (alpine "") "" (start [inl (response 200 "not json")])
     = (Returns ("", None),
        mkNet script []
          [fetch_request
             "https://registry-1.docker.io/v2/library/alpine/manifests/latest"
             ""])
  /\ ~ (exists d e,
           fst (Digest dockerhub (alpine "") ""
                  (start [inl (response 200 "not json")]))
           = Returns (d, Some e)).
Proof.
  assert (H : Digest dockerhub (alpine "") ""
                (start [inl (response 200 "not json")])
              = (Returns ("", None),
                 mkNet script []
                   [fetch_request
                      "https://registry-1.docker.io/v2/library/alpine/manifests/latest"
                      ""])) by (vm_compute; reflexivity).
  split; [vm_compute; reflexivity | split; [exact H |]].
  rewrite H. intros (d & e & He). discriminate He.
Qed.

End Runs.

(** ** Instances of the theorems, and the inputs on which the claims as
    first stated fail *)

Section Instances.

Import Reference.

(** An image with a full digest: nothing is sent. *)
Lemma Digest_short_circuit_witness :
  (1 < String.length (Image.Digest (alpine "sha256:abc")))%nat
  /\ Digest dockerhub (alpine "sha256:abc") "T1" (start [])
     = (Returns ("sha256:abc", None), start []).
Proof.
  split; [simpl; lia |].
  apply (Digest_short_circuit dockerhub (alpine "sha256:abc") "T1" (start [])).
  simpl; lia.
Defined.

(** C1 as first stated fails on a digest of one byte: it is not empty,
    yet [Digest] sends the manifest request and returns what the registry
    answers, not the digest of the image. *)
Lemma Digest_one_byte_counterexample :
  Image.Digest (alpine "a") <> ""
  /\ fst (Digest dockerhub (alpine "a") "" (start [inl (response 200 manifest_body)]))
     = Returns ("sha256:abc", None)
  /\ sent (snd (Digest dockerhub (alpine "a") ""
                  (start [inl (response 200 manifest_body)])))
     = [fetch_request (GetDigestUrl dockerhub (alpine "a")) ""]
  /\ ~ (forall (L : Libs) (N : Network) r image token st,
           Image.Digest image <> "" ->
           Digest r image token st
           = (Returns (Image.Digest image, None), st)).
Proof.
  split; [discriminate | split; [vm_compute; reflexivity | split]].
  - vm_compute. reflexivity.
  - intros H.
    specialize (H libs script dockerhub (alpine "a") ""
                  (start [inl (response 200 manifest_body)])).
    assert (Hne : Image.Digest (alpine "a") <> "") by discriminate.
    apply H in Hne. apply (f_equal fst) in Hne. vm_compute in Hne.
    discriminate.
Qed.

(** A 500 is an error that names the status; a 404 without manifest is
    the empty digest. *)
Lemma status_acceptance_witness :
  fst (Digest dockerhub (alpine "") "" (start [inl (response 500 "")]))
  = Returns ("", Some (errorString "got status code: 500"))
  /\ fst (Digest dockerhub (alpine "") "" (start [inl (response 404 "{}")]))
     = Returns ("", None)
  /\ fst (Blob dockerhub (alpine "sha256:abc") ""
            (start [inl (response 403 "")]))
     = Returns ("", Some (errorString "got status code: 403")).
Proof.
  split; [| split].
  - destruct (status_acceptance dockerhub (alpine "") ""
                (start [inl (response 500 "")])) as [HD _].
    destruct (HD (response 500 "") [] eq_refl eq_refl eq_refl)
      as (_ & Herr & _).
    apply Herr. unfold accepted. intros [H | H]; discriminate H.
  - destruct (status_acceptance dockerhub (alpine "") ""
                (start [inl (response 404 "{}")])) as [HD _].
    destruct (HD (response 404 "{}") [] eq_refl eq_refl eq_refl)
      as (_ & _ & Hok).
    apply (Hok (or_intror eq_refl) ("{}", None)). reflexivity.
  - destruct (status_acceptance dockerhub (alpine "sha256:abc") ""
                (start [inl (response 403 "")])) as [_ HB].
    destruct (HB (response 403 "") [] eq_refl eq_refl) as (_ & Herr & _).
    apply Herr. unfold accepted. intros [H | H]; discriminate H.
Defined.

(** C2 as first stated fails on a 404 whose body is a manifest: the
    digest returned with the nil error is the one of the body, not the
    empty one. *)
Lemma not_found_with_manifest_counterexample :
  Image.Digest (alpine "") = ""
  /\ StatusCode (response 404 manifest_body) = StatusNotFound
  /\ Do (Registry.Client dockerhub) (world (start [inl (response 404 manifest_body)]))
        (fetch_request (GetDigestUrl dockerhub (alpine "")) "")
     = (inl (response 404 manifest_body), [])
  /\ fst (Digest dockerhub (alpine "") ""
            (start [inl (response 404 manifest_body)]))
     = Returns ("sha256:abc", None)
  /\ fst (Digest dockerhub (alpine "") ""
            (start [inl (response 404 manifest_body)]))
     <> Returns ("", None).
Proof.
  split; [reflexivity | split; [reflexivity | split; [reflexivity |]]].
  assert (H : fst (Digest dockerhub (alpine "") ""
                     (start [inl (response 404 manifest_body)]))
              = Returns ("sha256:abc", None)) by (vm_compute; reflexivity).
  split; [exact H | rewrite H; discriminate].
Qed.

(** Construction for [docker.io], without and with an auth URL, and
    for a domain without scheme with SSL enabled and disabled. *)
Lemma domain_normalisation_witness :
  (exists r,
      CreateRegistryClient "" "" "" "docker.io" = (Some r, None)
      /\ Registry.URL r = "https://registry-1.docker.io")
  /\ (exists r,
         CreateRegistryClient "auth.example.com/" "" "" "docker.io"
         = (Some r, None)
         /\ Registry.URL r = "http://auth.example.com")
  /\ (exists r,
         newFromTransport (AuthConfig.mk "" "" "https://registry-1.docker.io")
           (Opt.mk "example.com/" 0 ∅ true) = (Some r, None)
         /\ Registry.URL r = "https://example.com")
  /\ (exists r,
         CreateRegistryClient "" "user" "secret" "example.com:5000"
         = (Some r, None)
         /\ Registry.URL r = "http://example.com:5000").
Proof.
  destruct domain_normalisation as ((_ & _ & H1 & _ & H1a) & H2 & H3 & _).
  split; [| split; [| split]].
  - apply (H1 "" "" "docker.io"). left. reflexivity.
  - destruct (H1a "auth.example.com/" "" "" "docker.io" (or_introl eq_refl))
      as (r & Hr & _ & Hurl).
    exists r. split; [exact Hr |].
    apply Hurl; discriminate.
  - apply (H2 (AuthConfig.mk "" "" "https://registry-1.docker.io")
              (Opt.mk "example.com/" 0 ∅ true));
      [discriminate | discriminate | reflexivity].
  - apply (H3 "" "user" "secret" "example.com:5000");
      [discriminate | discriminate | reflexivity].
Defined.

(** C4 as first stated fails where an auth URL is given: the client for
    [docker.io] has the auth URL as its URL, not the canonical host. *)
Lemma domain_with_auth_url_counterexample :
  exists r,
    CreateRegistryClient "https://auth.example.com" "" "" "docker.io"
    = (Some r, None)
    /\ Registry.URL r = "https://auth.example.com"
    /\ Registry.URL r <> "https://registry-1.docker.io".
Proof.
  eexists. split; [reflexivity |]. split; [reflexivity | discriminate].
Qed.

(** The URLs of the spec's example, and of a second registry value with
    the same base URL. *)
Lemma url_builders_witness :
  GetDigestUrl dockerhub (alpine "sha256:abc")
  = "https://registry-1.docker.io/v2/library/alpine/manifests/latest"
  /\ GetBlobUrl dockerhub (alpine "sha256:abc")
     = "https://registry-1.docker.io/v2/library/alpine/blobs/sha256:abc"
  /\ GetDigestUrl
       (Registry.mk "https://registry-1.docker.io" "" "user" "secret"
          (mkClient 0) (Opt.mk "" 0 ∅ true))
       (Image.mk "" "library/alpine" "latest" "")
     = GetDigestUrl dockerhub (alpine "sha256:abc").
Proof.
  destruct (url_builders dockerhub (alpine "sha256:abc"))
    as (HD & HB & _ & Hdep).
  split; [exact HD | split; [exact HB |]].
  destruct (Hdep (Registry.mk "https://registry-1.docker.io" "" "user" "secret"
                    (mkClient 0) (Opt.mk "" 0 ∅ true))
                 (Image.mk "" "library/alpine" "latest" "")
                 eq_refl eq_refl) as [Hd _].
  exact (Hd eq_refl).
Defined.

(** One request with the token, one without. *)
Lemma fetchers_carry_token_witness :
  (exists req,
      sent (snd (Digest dockerhub (alpine "") "T1"
                   (start [inl (response 200 manifest_body)]))) = [req]
      /\ ReqHeader req !! "Authorization" = Some ["Bearer T1"])
  /\ (exists req,
         sent (snd (Blob dockerhub (alpine "sha256:abc") ""
                      (start [inl (response 200 "{}")]))) = [req]
         /\ ReqHeader req !! "Authorization" = None).
Proof.
  split.
  - destruct (fetchers_carry_token dockerhub (alpine "") "T1"
                (start [inl (response 200 manifest_body)]))
      as [(new & Hs & Hall & Hone) _].
    destruct (Hone ltac:(simpl; lia) eq_refl) as (req & -> & _).
    exists req. split; [exact Hs |].
    apply Forall_inv in Hall. destruct Hall as [_ Hset].
    apply Hset. discriminate.
  - destruct (fetchers_carry_token dockerhub (alpine "sha256:abc") ""
                (start [inl (response 200 "{}")]))
      as [_ (new & Hs & Hall & Hone)].
    destruct (Hone eq_refl) as (req & -> & _).
    exists req. split; [exact Hs |].
    apply Forall_inv in Hall. destruct Hall as [Hnone _].
    apply Hnone. reflexivity.
Defined.

(** The gzip member of [hi] under the header, and [hi] without it; what
    the writer makes of a longer text; a manifest that a compressor has
    packed with dynamic codes; and a member that ends before its check
    sum. *)
Lemma GetRespBody_gzip_witness :
  GetRespBody (gzip_response 200 gzip_hi) = Returns ("hi", None)
  /\ GetRespBody (response 200 gzip_hi) = Returns (gzip_hi, None)
  /\ GetRespBody (gzip_response 200 gzip_hi) = GetRespBody (response 200 "hi")
  /\ GetRespBody (gzip_response 200 (Compress manifest_body))
     = GetRespBody (response 200 manifest_body)
  /\ GetRespBody (gzip_response 200 (Compress manifest_body))
     = Returns (manifest_body, None)
  /\ GetRespBody (gzip_response 200 gzip_schema2_manifest)
     = GetRespBody (response 200 schema2_manifest)
  /\ GetRespBody (gzip_response 200 (substring 0 17 gzip_hi))
     = Returns ("", Some io_ErrUnexpectedEOF).
Proof.
  assert (Hh : forall body,
             Header_Get (Header (gzip_response 200 body)) "Content-Encoding"
             = "gzip") by (intros body; vm_compute; reflexivity).
  assert (Hz : gzip_NewReader (RespBody (gzip_response 200 gzip_hi))
               = inl (mkBody "hi" None)) by (vm_compute; reflexivity).
  assert (Hm : gzip_NewReader (RespBody (gzip_response 200 gzip_schema2_manifest))
               = inl (mkBody schema2_manifest None))
    by (vm_compute; reflexivity).
  assert (Hc : gzip_NewReader (RespBody (gzip_response 200 (substring 0 17 gzip_hi)))
               = inl (mkBody "hi" (Some io_ErrUnexpectedEOF)))
    by (vm_compute; reflexivity).
  assert (Hp : forall body,
             Header_Get (Header (response 200 body)) "Content-Encoding"
             <> "gzip") by (intros body; vm_compute; discriminate).
  destruct (GetRespBody_gzip (gzip_response 200 gzip_hi) "hi")
    as (_ & _ & Hgz & _ & Hsame & _).
  destruct (GetRespBody_gzip (response 200 gzip_hi) gzip_hi)
    as (_ & _ & _ & Hplain & _).
  destruct (GetRespBody_gzip (response 200 "") manifest_body)
    as (_ & _ & _ & _ & _ & Hround & _).
  destruct (GetRespBody_gzip (gzip_response 200 gzip_schema2_manifest)
              schema2_manifest) as (_ & _ & _ & _ & Hpacked & _).
  destruct (GetRespBody_gzip (gzip_response 200 (substring 0 17 gzip_hi)) "")
    as (Hcut & _).
  destruct (Hround 200%Z 200%Z (Header (gzip_response 200 ""))
              (Header (response 200 "")) (Hh "") (Hp "")) as [Hr1 Hr2].
  split; [exact (Hgz (Hh gzip_hi) Hz) |].
  split; [exact (Hplain (Hp gzip_hi) eq_refl) |].
  split; [exact (proj1 (Hsame (response 200 "hi") (Hh gzip_hi) Hz (Hp "hi")
                          eq_refl)) |].
  split; [exact (eq_trans Hr1 (eq_sym Hr2)) |].
  split; [exact Hr1 |].
  split; [exact (proj1 (Hpacked (response 200 schema2_manifest)
                          (Hh gzip_schema2_manifest) Hm (Hp schema2_manifest)
                          eq_refl)) |].
  exact (Hcut (Hh (substring 0 17 gzip_hi)) _ Hc).
Defined.

(** C7 as first stated fails where the read of the body fails: a body
    that breaks off after three bytes is not returned as it is, and a
    gzip member that ends before its check sum is not returned
    decompressed.  Both give no bytes and the error. *)
Lemma GetRespBody_unread_counterexample :
  (GetRespBody
     (mkResponse 200 ∅ (mkBody "par" (Some (netError "connection reset"))))
   = Returns ("", Some (netError "connection reset"))
   /\ ~ (exists bytes,
            GetRespBody
              (mkResponse 200 ∅
                 (mkBody "par" (Some (netError "connection reset"))))
            = Returns (bytes, None)))
  /\ (gzip_NewReader (mkBody (substring 0 17 gzip_hi) None)
      = inl (mkBody "hi" (Some io_ErrUnexpectedEOF))
      /\ GetRespBody (gzip_response 200 (substring 0 17 gzip_hi))
         = Returns ("", Some io_ErrUnexpectedEOF)
      /\ ~ (exists bytes,
               GetRespBody (gzip_response 200 (substring 0 17 gzip_hi))
               = Returns (bytes, None))).
Proof.
  assert (H1 : GetRespBody
                 (mkResponse 200 ∅
                    (mkBody "par" (Some (netError "connection reset"))))
               = Returns ("", Some (netError "connection reset")))
    by (vm_compute; reflexivity).
  assert (H2 : GetRespBody (gzip_response 200 (substring 0 17 gzip_hi))
               = Returns ("", Some io_ErrUnexpectedEOF))
    by (vm_compute; reflexivity).
  split; [split; [exact H1 |] | split; [vm_compute; reflexivity |
                                       split; [exact H2 |]]].
  - rewrite H1. intros (bytes & Hb). discriminate Hb.
  - rewrite H2. intros (bytes & Hb). discriminate Hb.
Qed.

(** A registry that asks for basic authentication. *)
Lemma Token_basic_challenge_witness :
  Token dockerhub "https://registry-1.docker.io/v2/"
    (start [inl (challenge_response "Basic realm=registry")])
  = (Returns ("", Some ErrBasicAuth),
     mkNet script [] [mkRequest "GET" "https://registry-1.docker.io/v2/" ∅]).
Proof.
  apply (Token_basic_challenge dockerhub "https://registry-1.docker.io/v2/"
           (start [inl (challenge_response "Basic realm=registry")])
           (mkRequest "GET" "https://registry-1.docker.io/v2/" ∅)
           (challenge_response "Basic realm=registry") []);
    vm_compute; reflexivity.
Defined.

(** The Docker hub flow: a bearer challenge, then a token endpoint that
    gives both fields, and one that gives [access_token] only. *)
Lemma Token_prefers_token_witness :
  fst (Token dockerhub (GetDigestUrl dockerhub (alpine ""))
         (start [inl (challenge_response bearer_challenge);
                 inl (response 200 token_body)]))
  = Returns ("T1", None).
Proof.
  refine (proj1
    (Token_prefers_token dockerhub (GetDigestUrl dockerhub (alpine ""))
       (start [inl (challenge_response bearer_challenge);
               inl (response 200 token_body)])
       (mkRequest "GET" (GetDigestUrl dockerhub (alpine "")) ∅)
       (mkRequest "GET"
          ("https://auth.docker.io/token?service=registry.docker.io"
           +:+ "&scope=repository:library/alpine:pull") ∅)
       (challenge_response bearer_challenge) (response 200 token_body)
       [inl (response 200 token_body)] []
       ("realm=" +:+ dq +:+ "https://auth.docker.io/token" +:+ dq
        +:+ ",service=" +:+ dq +:+ "registry.docker.io" +:+ dq
        +:+ ",scope=" +:+ dq +:+ "repository:library/alpine:pull" +:+ dq)
       token_body (authToken.mk "T1" "T2")
       _ _ _ _ _ _ _ _) _);
    [vm_compute; reflexivity | reflexivity | reflexivity
     | vm_compute; reflexivity | vm_compute; reflexivity | reflexivity
     | reflexivity | vm_compute; reflexivity | discriminate].
Defined.

End Instances.

(** * Further properties of the package *)

(** ** Registry construction *)

Lemma prefix_split (p s : string) :
  String.prefix p s = true ->
  s = p +:+ substring (String.length p) (String.length s - String.length p) s.
Proof.
  revert s; induction p as [|c p IH]; intros s H.
  - simpl. rewrite Nat.sub_0_r. now rewrite substring_all.
  - destruct s as [|d s]; simpl in H; [discriminate |].
    destruct (Ascii.ascii_dec c d) as [<- | _]; [| discriminate].
    rewrite append_cons. simpl. now rewrite <- (IH s H).
Qed.

Lemma ReplaceAllString_scheme (u : string) :
  reProtocol_MatchString u = true ->
  u = "https://" +:+ reProtocol_ReplaceAllString u ""
  \/ u = "http://" +:+ reProtocol_ReplaceAllString u "".
Proof.
  unfold reProtocol_MatchString, reProtocol_ReplaceAllString. intros H.
  destruct (String.prefix "https://" u) eqn:Hs.
  - left. exact (prefix_split "https://" u Hs).
  - rewrite orb_false_r in H. rewrite H. right.
    exact (prefix_split "http://" u H).
Qed.

Lemma scheme_prepended (u : string) :
  reProtocol_MatchString ("https://" +:+ u) = true
  /\ reProtocol_MatchString ("http://" +:+ u) = true.
Proof.
  split.
  - apply (reProtocol_append "https://" u). reflexivity.
  - apply (reProtocol_append "http://" u). reflexivity.
Qed.

Lemma setDefaultRegistry_not_empty (s : string) : setDefaultRegistry s <> "".
Proof.
  unfold setDefaultRegistry.
  destruct (String.eqb_spec s "docker.io"); simpl; [discriminate |].
  destruct (String.eqb_spec s ""); [discriminate | assumption].
Qed.

Lemma setDefaultRegistry_other (s : string) :
  s <> "" -> s <> "docker.io" -> setDefaultRegistry s = s.
Proof.
  intros H1 H2. unfold setDefaultRegistry.
  now rewrite (eqb_false_of_neq _ _ H1), (eqb_false_of_neq _ _ H2).
Qed.

(** X1: whatever the domain and the server address, the URL of the
    registry that [newFromTransport] builds starts with [http://] or
    [https://], and the [Domain] field is that URL without its scheme. *)
Theorem registry_url_has_scheme (auth : AuthConfig.t) (opt : Opt.t) :
  exists r,
    newFromTransport auth opt = (Some r, None)
    /\ reProtocol_MatchString (Registry.URL r) = true
    /\ (Registry.URL r = "https://" +:+ Registry.Domain r
        \/ Registry.URL r = "http://" +:+ Registry.Domain r).
Proof.
  unfold newFromTransport.
  set (opt' := if (String.length (Opt.Domain opt) <? 1)%nat
                  || String.eqb (Opt.Domain opt) "docker.io"
               then _ else opt).
  set (u := strings_TrimSuffix (Opt.Domain opt') "/").
  set (url := if negb (reProtocol_MatchString u) then _ else u).
  eexists. split; [reflexivity |]. cbn [Registry.URL Registry.Domain].
  assert (Hm : reProtocol_MatchString url = true).
  { subst url. destruct (reProtocol_MatchString u) eqn:E; simpl; [exact E |].
    destruct (Opt.UseSSL opt'); apply scheme_prepended. }
  split; [exact Hm | apply ReplaceAllString_scheme, Hm].
Qed.

(** X2: the credentials of a client are kept together or not at all.
    [CreateRegistryClient] stores the user name and the password when
    both are given; when either is empty the registry holds neither, so a
    user name without password is dropped. *)
Theorem credentials_kept_together (authURL username password domain : string) :
  exists r,
    CreateRegistryClient authURL username password domain = (Some r, None)
    /\ (username <> "" -> password <> "" ->
        Registry.Username r = username /\ Registry.Password r = password)
    /\ (username = "" \/ password = "" ->
        Registry.Username r = "" /\ Registry.Password r = "").
Proof.
  rewrite CreateRegistryClient_unfold. unfold GetAuthConfig, newFromTransport.
  eexists. split; [reflexivity |]. cbn [Registry.Username Registry.Password].
  rewrite (eqb_false_of_neq _ _ (setDefaultRegistry_not_empty _)).
  split.
  - intros Hu Hp.
    rewrite (eqb_false_of_neq _ _ Hu), (eqb_false_of_neq _ _ Hp).
    split; reflexivity.
  - intros [-> | ->].
    + split; reflexivity.
    + destruct (negb (String.eqb username "")); split; reflexivity.
Qed.

(** X3: the auth URL matters only for the default domain.  For a domain
    of its own (not empty, not [docker.io]) the client does not depend on
    the auth URL at all; for the empty domain and for [docker.io] a given
    auth URL takes the place of the domain: the client is the one built
    for the auth URL as domain. *)
Theorem authURL_only_for_default_domain
  (authURL username password domain : string) :
  (domain <> "" -> domain <> "docker.io" ->
   forall authURL',
     CreateRegistryClient authURL username password domain
     = CreateRegistryClient authURL' username password domain)
  /\ (domain = "" \/ domain = "docker.io" -> authURL <> "" ->
      CreateRegistryClient authURL username password domain
      = CreateRegistryClient "" username password authURL).
Proof.
  split.
  - intros Hne Hnd authURL'. rewrite !CreateRegistryClient_unfold.
    unfold GetAuthConfig, newFromTransport. cbn [fst Opt.Domain].
    rewrite (length_lt_1 _ Hne), (eqb_false_of_neq _ _ Hnd).
    rewrite !(eqb_false_of_neq _ _ (setDefaultRegistry_not_empty _)).
    cbn [orb].
    destruct (negb (String.eqb username "") && negb (String.eqb password "")
              && negb false); reflexivity.
  - intros Hd Ha. rewrite !CreateRegistryClient_unfold.
    rewrite (eqb_false_of_neq _ _ Ha). cbn [String.eqb].
    unfold GetAuthConfig, newFromTransport. cbn [fst Opt.Domain].
    rewrite !(eqb_false_of_neq _ _ (setDefaultRegistry_not_empty _)).
    assert (Hdom : (String.length domain <? 1)%nat
                   || String.eqb domain "docker.io" = true)
      by (destruct Hd as [-> | ->]; reflexivity).
    rewrite Hdom, (length_lt_1 _ Ha).
    destruct (String.eqb_spec authURL "docker.io") as [-> | Hnd].
    + destruct (negb (String.eqb username "") && negb (String.eqb password "")
                && negb false); reflexivity.
    + rewrite (setDefaultRegistry_other _ Ha Hnd). cbn [orb].
      destruct (negb (String.eqb username "") && negb (String.eqb password "")
                && negb false); reflexivity.
Qed.

(** X4: a scheme that the domain brings is kept.  When the domain, one
    closing slash aside, starts with [http://] or [https://], the URL of
    the registry is that domain, whether SSL is enabled or not: enabling
    SSL does not turn [http://] into [https://]. *)
Theorem explicit_scheme_kept (auth : AuthConfig.t) (opt : Opt.t) :
  Opt.Domain opt <> "" ->
  Opt.Domain opt <> "docker.io" ->
  reProtocol_MatchString (strings_TrimSuffix (Opt.Domain opt) "/") = true ->
  exists r,
    newFromTransport auth opt = (Some r, None)
    /\ Registry.URL r = strings_TrimSuffix (Opt.Domain opt) "/".
Proof.
  intros Hne Hnd Hre. unfold newFromTransport.
  rewrite (length_lt_1 _ Hne), (eqb_false_of_neq _ _ Hnd). cbn [orb].
  rewrite Hre. eexists. split; reflexivity.
Qed.

(** ** Failures of the fetchers *)

Section FetcherFailures.

Context `{L : Libs} `{N : Network}.

Variables (r : Registry.t) (image : Image.t) (token : string) (st : NetState).

(** X5: a failure of the transport is handed to the caller as it is.
    When the client answers the request with an error, [Digest] and
    [Blob] return that very error with an empty result, after this one
    request. *)
Theorem transport_failure_returned (e : error) (w : World) :
  ((String.length (Image.Digest image) <= 1)%nat ->
   url_Parse (GetDigestUrl r image) = None ->
   Do (Registry.Client r) (world st)
      (fetch_request (GetDigestUrl r image) token) = (inr e, w) ->
   Digest r image token st
   = (Returns ("", Some e),
      mkNet N w (sent st ++ [fetch_request (GetDigestUrl r image) token])))
  /\ (url_Parse (GetBlobUrl r image) = None ->
      Do (Registry.Client r) (world st)
         (fetch_request (GetBlobUrl r image) token) = (inr e, w) ->
      Blob r image token st
      = (Returns ("", Some e),
         mkNet N w (sent st ++ [fetch_request (GetBlobUrl r image) token]))).
Proof.
  split.
  - intros Hlen Hp HDo. rewrite Digest_unfold by assumption.
    unfold bind, Client_Do. now rewrite HDo.
  - intros Hp HDo. rewrite Blob_unfold by assumption.
    unfold bind, Client_Do. now rewrite HDo.
Qed.

(** X6: nothing is retried and nothing is sent for a URL that does not
    parse.  A run of [Digest] or [Blob] hands at most one request to the
    client, whatever the answer; when [http.NewRequest] rejects the URL,
    its error is returned and the network is left as it was. *)
Theorem at_most_one_request :
  (exists new,
      sent (snd (Digest r image token st)) = (sent st ++ new)%list
      /\ (length new <= 1)%nat)
  /\ (exists new,
         sent (snd (Blob r image token st)) = (sent st ++ new)%list
         /\ (length new <= 1)%nat)
  /\ (forall e,
         (String.length (Image.Digest image) <= 1)%nat ->
         url_Parse (GetDigestUrl r image) = Some e ->
         Digest r image token st = (Returns ("", Some e), st))
  /\ (forall e,
         url_Parse (GetBlobUrl r image) = Some e ->
         Blob r image token st = (Returns ("", Some e), st)).
Proof.
  split; [| split; [| split]].
  - destruct (Digest_sent r image token st) as (new & Hs & [-> | ->] & _);
      eexists; (split; [exact Hs | simpl; lia]).
  - destruct (Blob_sent r image token st) as (new & Hs & [-> | ->] & _);
      eexists; (split; [exact Hs | simpl; lia]).
  - intros e Hlen Hp. unfold Digest.
    destruct (Nat.ltb_spec 1 (String.length (Image.Digest image))); [lia |].
    unfold http_NewRequest. now rewrite Hp.
  - intros e Hp. unfold Blob, http_NewRequest. now rewrite Hp.
Qed.

(** X7: a body that cannot be read to its end is not reported.  On a
    response with an accepted status whose body stream ends in an error,
    be it the stream of the response or the gzip stream over it, [Blob]
    returns no bytes and the nil error, and [Digest] the nil error with
    the digest that the empty text decodes to. *)
Theorem body_read_failure_hidden (resp : Response) (w : World)
  (stream : Body) (e : error) :
  accepted (StatusCode resp) ->
  (Header_Get (Header resp) "Content-Encoding" <> "gzip"
   /\ stream = RespBody resp
   \/ Header_Get (Header resp) "Content-Encoding" = "gzip"
      /\ gzip_NewReader (RespBody resp) = inl stream) ->
  body_err stream = Some e ->
  (url_Parse (GetBlobUrl r image) = None ->
   Do (Registry.Client r) (world st)
      (fetch_request (GetBlobUrl r image) token) = (inl resp, w) ->
   fst (Blob r image token st) = Returns ("", None))
  /\ ((String.length (Image.Digest image) <= 1)%nat ->
      url_Parse (GetDigestUrl r image) = None ->
      Do (Registry.Client r) (world st)
         (fetch_request (GetDigestUrl r image) token) = (inl resp, w) ->
      fst (Digest r image token st)
      = Returns (Config.Digest
                   (ImageDigest.Config
                      (fst (json_Unmarshal_ImageDigest "" ImageDigest.zero))),
                 None)).
Proof.
  intros Hs Hstream He.
  assert (Hb : GetRespBody resp = Returns ("", Some e)).
  { destruct Hstream as [[Hh ->] | [Hh Hz]].
    - rewrite (GetRespBody_plain resp Hh). now rewrite He.
    - rewrite (GetRespBody_gzip_stream resp stream Hh Hz). now rewrite He. }
  apply accepted_test in Hs. split.
  - intros Hp HDo. rewrite (Blob_on_response r image token st resp w Hp HDo).
    now rewrite Hs, Hb.
  - intros Hlen Hp HDo.
    rewrite (Digest_on_response r image token st resp w Hlen Hp HDo).
    now rewrite Hs, Hb.
Qed.

(** X8: a response with an accepted status that announces gzip over a
    body which [gzip.NewReader] rejects makes [Digest] and [Blob] panic,
    after the request has been sent: the error of [gzip.NewReader] is
    dropped in [GetRespBody] and the body is read through the nil
    reader. *)
Theorem rejected_gzip_panics (resp : Response) (w : World) (e : error) :
  accepted (StatusCode resp) ->
  Header_Get (Header resp) "Content-Encoding" = "gzip" ->
  gzip_NewReader (RespBody resp) = inr e ->
  ((String.length (Image.Digest image) <= 1)%nat ->
   url_Parse (GetDigestUrl r image) = None ->
   Do (Registry.Client r) (world st)
      (fetch_request (GetDigestUrl r image) token) = (inl resp, w) ->
   Digest r image token st
   = (Panics "invalid memory address or nil pointer dereference",
      mkNet N w (sent st ++ [fetch_request (GetDigestUrl r image) token])))
  /\ (url_Parse (GetBlobUrl r image) = None ->
      Do (Registry.Client r) (world st)
         (fetch_request (GetBlobUrl r image) token) = (inl resp, w) ->
      Blob r image token st
      = (Panics "invalid memory address or nil pointer dereference",
         mkNet N w (sent st ++ [fetch_request (GetBlobUrl r image) token]))).
Proof.
  intros Hs Hh Hz. apply accepted_test in Hs.
  pose proof (GetRespBody_gzip_rejected resp e Hh Hz) as Hb. split.
  - intros Hlen Hp HDo.
    rewrite (Digest_on_response r image token st resp w Hlen Hp HDo).
    now rewrite Hs, Hb.
  - intros Hp HDo.
    rewrite (Blob_on_response r image token st resp w Hp HDo).
    now rewrite Hs, Hb.
Qed.

End FetcherFailures.

(** X9: [GetRespBody] never returns bytes together with an error: when
    it returns an error, the bytes are empty, and the error is the one
    that ended the stream it read. *)
Theorem GetRespBody_error_without_bytes `{L : Libs}
  (resp : Response) (b : string) (e : error) :
  GetRespBody resp = Returns (b, Some e) ->
  b = ""
  /\ (body_err (RespBody resp) = Some e
      \/ exists stream,
          gzip_NewReader (RespBody resp) = inl stream
          /\ body_err stream = Some e).
Proof.
  unfold GetRespBody.
  destruct (String.eqb (Header_Get (Header resp) "Content-Encoding") "gzip").
  - destruct (gzip_NewReader (RespBody resp)) as [z | e'] eqn:Hz;
      [| discriminate].
    unfold ioutil_ReadAll. destruct (body_err z) as [e' |] eqn:He;
      intros [= <- <-] || intros [=].
    split; [reflexivity | right]. now exists z.
  - unfold ioutil_ReadAll.
    destruct (body_err (RespBody resp)) as [e' |] eqn:He;
      intros [= <- <-] || intros [=].
    split; [reflexivity | now left].
Qed.

(** ** URLs *)

Lemma append_cancel_l (a x y : string) : a +:+ x = a +:+ y -> x = y.
Proof.
  induction a as [|c a IH]; [trivial |].
  rewrite !append_cons. intros [= H]. now apply IH.
Qed.

(** X10: for one registry and one repository path, different tags have
    different manifest URLs and different digests have different blob
    URLs. *)
Theorem urls_tell_tags_apart (r : Registry.t) (image image' : Image.t) :
  Image.Path image' = Image.Path image ->
  (GetDigestUrl r image' = GetDigestUrl r image ->
   Image.Tag image' = Image.Tag image)
  /\ (GetBlobUrl r image' = GetBlobUrl r image ->
      Image.Digest image' = Image.Digest image).
Proof.
  intros Hp. unfold GetDigestUrl, GetBlobUrl. rewrite !url_closed_form.
  simpl fmt_Sprintf. rewrite Hp, !append_empty_r. split; intros H.
  - apply append_cancel_l in H. injection H as H.
    apply append_cancel_l in H.
    now apply (append_cancel_l "/manifests/") in H.
  - apply append_cancel_l in H. injection H as H.
    apply append_cancel_l in H.
    now apply (append_cancel_l "/blobs/") in H.
Qed.

(** ** Credentials from a secret *)

Section Secrets.

Context `{S : SecretLib}.

(** A [range] over a map that is not empty yields one of its pairs. *)
Lemma range_first_some (m : gmap string DockerConfigEntry.t) :
  size m <> 0%nat ->
  exists k v, range_first m = Some (k, v) /\ m !! k = Some v.
Proof.
  intros Hsize. unfold range_first.
  pose proof (length_map_to_list m) as Hlen.
  assert (Hlt : (range_start m mod length (map_to_list m)
                 < length (map_to_list m))%nat)
    by (apply Nat.mod_upper_bound; lia).
  destruct (lookup_lt_is_Some_2 _ _ Hlt) as [[k v] Hkv].
  exists k, v. split; [exact Hkv |].
  apply elem_of_map_to_list. apply list_elem_of_lookup. eauto.
Qed.

(** X11: [getDockerEntryFromDockerSecret] returns an entry or an error,
    never both and never neither: the closing [return nil, nil] of the
    source is not reached. *)
Theorem docker_entry_or_error (instance : Secret.t) :
  (exists entry, getDockerEntryFromDockerSecret instance = (Some entry, None))
  \/ (exists e, getDockerEntryFromDockerSecret instance = (None, Some e)).
Proof.
  unfold getDockerEntryFromDockerSecret.
  destruct (String.eqb (Secret.Type_ instance) ""); [left; eauto |].
  destruct (negb (String.eqb (Secret.Type_ instance) SecretTypeDockerConfigJson));
    [right; eauto |].
  destruct (Secret.Data instance !! DockerConfigJsonKey) as [bytes |];
    [| right; eauto].
  destruct (json_Unmarshal_DockerConfigJson bytes DockerConfigJson.zero)
    as [cfg [e |]]; [right; eauto |].
  destruct (Nat.eqb_spec (size (DockerConfigJson.Auths cfg)) 0) as [| Hsize];
    [right; eauto |].
  destruct (range_first_some _ Hsize) as (k & v & -> & _). left; eauto.
Qed.

(** X12: the failures of [getDockerEntryFromDockerSecret].  A secret of
    another type is refused with a message that names the namespace where
    the format says "secret" and the name where it says "ns"; a secret
    without the key [.dockerconfigjson] is refused; a decoding error is
    passed on; a configuration without registries is refused. *)
Theorem docker_entry_failures (instance : Secret.t) :
  (Secret.Type_ instance <> "" ->
   Secret.Type_ instance <> SecretTypeDockerConfigJson ->
   getDockerEntryFromDockerSecret instance
   = (None,
      Some (errorString
              ("secret " +:+ Secret.Namespace instance +:+ " in ns "
               +:+ Secret.Name instance
               +:+ " type should be kubernetes.io/dockerconfigjson"))))
  /\ (Secret.Type_ instance = SecretTypeDockerConfigJson ->
      (Secret.Data instance !! DockerConfigJsonKey = None ->
       getDockerEntryFromDockerSecret instance
       = (None, Some (errorString "could not get data .dockerconfigjson")))
      /\ (forall bytes cfg e,
             Secret.Data instance !! DockerConfigJsonKey = Some bytes ->
             json_Unmarshal_DockerConfigJson bytes DockerConfigJson.zero
             = (cfg, Some e) ->
             getDockerEntryFromDockerSecret instance = (None, Some e))
      /\ (forall bytes cfg,
             Secret.Data instance !! DockerConfigJsonKey = Some bytes ->
             json_Unmarshal_DockerConfigJson bytes DockerConfigJson.zero
             = (cfg, None) ->
             DockerConfigJson.Auths cfg = ∅ ->
             getDockerEntryFromDockerSecret instance
             = (None,
                Some (errorString "docker config auth len should not be 0")))).
Proof.
  unfold getDockerEntryFromDockerSecret. split.
  - intros H1 H2.
    rewrite (eqb_false_of_neq _ _ H1), (eqb_false_of_neq _ _ H2).
    cbn [negb]. unfold fmt_Errorf. simpl fmt_Sprintf.
    now rewrite append_empty_r.
  - intros ->.
    change (String.eqb SecretTypeDockerConfigJson "") with false.
    change (String.eqb SecretTypeDockerConfigJson SecretTypeDockerConfigJson)
      with true.
    cbv iota. cbn [negb]. split; [| split].
    + now intros ->.
    + intros bytes cfg e -> ->. reflexivity.
    + intros bytes cfg -> -> ->. reflexivity.
Qed.

(** X13: the entry that is found.  A secret without type gives the empty
    credentials, whatever its data.  A docker configuration gives one of
    its registries, with the address of the registry (the key) put in
    place of the [serverAddress] of the entry; with one registry only, it
    is that one however the map is ranged over. *)
Theorem docker_entry_found (instance : Secret.t) :
  (Secret.Type_ instance = "" ->
   getDockerEntryFromDockerSecret instance
   = (Some (DockerConfigEntry.mk "" "" "" ""), None))
  /\ (forall bytes cfg,
         Secret.Type_ instance = SecretTypeDockerConfigJson ->
         Secret.Data instance !! DockerConfigJsonKey = Some bytes ->
         json_Unmarshal_DockerConfigJson bytes DockerConfigJson.zero
         = (cfg, None) ->
         DockerConfigJson.Auths cfg <> ∅ ->
         exists address entry,
           DockerConfigJson.Auths cfg !! address = Some entry
           /\ getDockerEntryFromDockerSecret instance
              = (Some (DockerConfigEntry.mk
                         (DockerConfigEntry.Username entry)
                         (DockerConfigEntry.Password entry)
                         (DockerConfigEntry.Email entry) address), None)
           /\ (forall address' entry',
                  DockerConfigJson.Auths cfg = {[address' := entry']} ->
                  address = address' /\ entry = entry')).
Proof.
  unfold getDockerEntryFromDockerSecret. split; [now intros -> |].
  intros bytes cfg -> -> -> Hne.
  change (String.eqb SecretTypeDockerConfigJson "") with false.
  change (String.eqb SecretTypeDockerConfigJson SecretTypeDockerConfigJson)
    with true.
  cbv iota. cbn [negb].
  assert (Hsize : size (DockerConfigJson.Auths cfg) <> 0%nat)
    by (intros H0; apply map_size_empty_iff in H0; contradiction).
  destruct (Nat.eqb_spec (size (DockerConfigJson.Auths cfg)) 0); [lia |].
  destruct (range_first_some _ Hsize) as (k & v & -> & Hkv).
  exists k, v. split; [exact Hkv | split; [reflexivity |]].
  intros k' v' Hs. rewrite Hs in Hkv.
  apply lookup_singleton_Some in Hkv. destruct Hkv as [-> ->]. now split.
Qed.

End Secrets.

(** ** The image inspection *)

Lemma GetBlobUrl_closed_form (r : Registry.t) (image : Image.t) :
  GetBlobUrl r image
  = Registry.URL r +:+ "/v2/" +:+ Image.Path image +:+ "/blobs/"
    +:+ Image.Digest image.
Proof.
  unfold GetBlobUrl. rewrite url_closed_form. simpl fmt_Sprintf.
  now rewrite append_empty_r.
Qed.

Section Inspecting.

Context `{L : Libs} `{S : SecretLib} `{N : Network} `{I : !Inspection}.

Variables (x : ImageNameAndSecret.t) (st : NetState).

(** X14: a secret that gives no entry makes [RegistryImageBlob] panic
    before anything is sent: the error of
    [getDockerEntryFromDockerSecret] is overwritten and the nil entry is
    dereferenced.  So does, for one, a secret of another type than
    [kubernetes.io/dockerconfigjson]. *)
Theorem inspection_panics_without_entry :
  (fst (getDockerEntryFromDockerSecret (ImageNameAndSecret.Secret x)) = None ->
   RegistryImageBlob x st = (Panics nil_dereference, st))
  /\ (Secret.Type_ (ImageNameAndSecret.Secret x) <> "" ->
      Secret.Type_ (ImageNameAndSecret.Secret x) <> SecretTypeDockerConfigJson ->
      RegistryImageBlob x st = (Panics nil_dereference, st)).
Proof.
  assert (Hnone : fst (getDockerEntryFromDockerSecret
                         (ImageNameAndSecret.Secret x)) = None ->
                  RegistryImageBlob x st = (Panics nil_dereference, st)).
  { intros H. unfold RegistryImageBlob.
    destruct (getDockerEntryFromDockerSecret (ImageNameAndSecret.Secret x))
      as [entry e]. simpl in H. subst entry.
    now destruct (ParseImage (ImageNameAndSecret.ImageName x)). }
  split; [exact Hnone |].
  intros H1 H2. apply Hnone. unfold getDockerEntryFromDockerSecret.
  now rewrite (eqb_false_of_neq _ _ H1), (eqb_false_of_neq _ _ H2).
Qed.

(** X15: [RegistryImageBlob] never returns an error.  Whenever it
    returns, the error is nil and the result says [failed], without
    image, or [succeeded], with the decoded image. *)
Theorem inspection_never_returns_error
  (info : option ImageBlobInfo.t) (err : option error) (st' : NetState) :
  RegistryImageBlob x st = (Returns (info, err), st') ->
  err = None
  /\ exists i,
      info = Some i
      /\ (ImageBlobInfo.Status i = statusFailed /\ ImageBlobInfo.Image i = None
          \/ ImageBlobInfo.Status i = statusSuccess
             /\ exists blob, ImageBlobInfo.Image i = Some blob).
Proof.
  unfold RegistryImageBlob, bind, lift, ret.
  repeat match goal with
         | |- context [match ?t with _ => _ end] => destruct t
         | |- context [let '(_, _) := ?t in _] => destruct t
         end;
    intros [= <- <- <-]; (split; [reflexivity |]); eexists;
    (split; [reflexivity |]); cbn; eauto.
Qed.

Variables (r : Registry.t) (image : Image.t) (token : string) (st1 : NetState).

Hypothesis Hreach : reaches_manifest x st r image token st1.

(** What is left of the run once it has reached the manifest. *)
Lemma inspection_from_manifest :
  RegistryImageBlob x st
  = bind (Digest r image token)
      (fun d =>
         match snd d with
         | Some _ => ret (Some (ImageBlobInfo.mk statusFailed None), None)
         | None =>
             bind (Blob r (Image.mk (Image.Domain image) (Image.Path image)
                             (Image.Tag image) (fst d)) token)
               (fun b =>
                  match snd b with
                  | Some _ =>
                      ret (Some (ImageBlobInfo.mk statusFailed None), None)
                  | None =>
                      match json_Unmarshal_ImageBlob (fst b) ImageBlob_zero with
                      | (_, Some _) =>
                          ret (Some (ImageBlobInfo.mk statusFailed None), None)
                      | (imageBlob, None) =>
                          ret (Some (ImageBlobInfo.mk statusSuccess
                                       (Some imageBlob)), None)
                      end
                  end)
         end) st1.
Proof.
  destruct Hreach as (entry & terr & Hentry & Himage & Hclient & Htoken).
  unfold RegistryImageBlob.
  destruct (getDockerEntryFromDockerSecret (ImageNameAndSecret.Secret x))
    as [entry' e1]. simpl in Hentry. subst entry'.
  destruct (ParseImage (ImageNameAndSecret.ImageName x)) as [image' e2].
  simpl in Himage. subst image'.
  rewrite Hclient. unfold bind at 1. rewrite Htoken. cbn [fst].
  reflexivity.
Qed.

(** X16: an error of [Digest] ends the inspection.  Once the manifest is
    reached, whatever the negotiation of the token returned as error, an
    error from [Digest] (a transport failure, a status that is not
    accepted) gives the result [failed] with the nil error, and [Blob] is
    not called: the network is left as [Digest] left it. *)
Theorem inspection_stops_on_manifest_error
  (d : string) (e : error) (st2 : NetState) :
  Digest r image token st1 = (Returns (d, Some e), st2) ->
  RegistryImageBlob x st
  = (Returns (Some (ImageBlobInfo.mk statusFailed None), None), st2).
Proof.
  intros HD. rewrite inspection_from_manifest. unfold bind. now rewrite HD.
Qed.

(** X17: when the inspection succeeds.  Once the manifest is reached,
    the result is [succeeded] with the image [blob] exactly when [Digest]
    returns a digest without error, [Blob] returns bytes without error
    for the image with that digest and the same token, and the bytes
    decode to [blob]. *)
Theorem inspection_succeeds_iff (blob : ImageBlob) :
  fst (RegistryImageBlob x st)
  = Returns (Some (ImageBlobInfo.mk statusSuccess (Some blob)), None)
  <-> exists d st2 bytes st3,
      Digest r image token st1 = (Returns (d, None), st2)
      /\ Blob r (Image.mk (Image.Domain image) (Image.Path image)
                   (Image.Tag image) d) token st2
         = (Returns (bytes, None), st3)
      /\ json_Unmarshal_ImageBlob bytes ImageBlob_zero = (blob, None).
Proof.
  rewrite inspection_from_manifest. unfold bind, ret. split.
  - destruct (Digest r image token st1) as [[[d [e |]] | m] st2] eqn:HD;
      cbn [fst snd]; try discriminate.
    destruct (Blob r _ token st2) as [[[bytes [e |]] | m] st3] eqn:HB;
      cbn [fst snd]; try discriminate.
    destruct (json_Unmarshal_ImageBlob bytes ImageBlob_zero) as [blob' [e |]]
      eqn:Hj; cbn [fst]; try discriminate.
    intros [= <-]. exists d, st2, bytes, st3. auto.
  - intros (d & st2 & bytes & st3 & HD & HB & Hj).
    rewrite HD. cbn [fst snd]. rewrite HB. cbn [fst snd]. now rewrite Hj.
Qed.

(** X18: a manifest that is not found does not end the inspection.  When
    the manifest request is answered with a 404 whose body gives no
    digest, [Digest] returns the empty digest without error, and the
    inspection goes on to request the blob of the empty digest: the URL
    of the second request ends in [/blobs/]. *)
Theorem missing_manifest_still_fetches_blob
  (resp : Response) (w : World) (b : string * option error) :
  (String.length (Image.Digest image) <= 1)%nat ->
  url_Parse (GetDigestUrl r image) = None ->
  Do (Registry.Client r) (world st1)
     (fetch_request (GetDigestUrl r image) token) = (inl resp, w) ->
  StatusCode resp = StatusNotFound ->
  GetRespBody resp = Returns b ->
  Config.Digest
    (ImageDigest.Config
       (fst (json_Unmarshal_ImageDigest (fst b) ImageDigest.zero))) = "" ->
  url_Parse (Registry.URL r +:+ "/v2/" +:+ Image.Path image +:+ "/blobs/")
  = None ->
  sent (snd (RegistryImageBlob x st))
  = (sent st1
     ++ [fetch_request (GetDigestUrl r image) token;
         fetch_request
           (Registry.URL r +:+ "/v2/" +:+ Image.Path image +:+ "/blobs/")
           token])%list.
Proof.
  intros Hlen Hp HDo Hs Hb Hd Hpb.
  assert (HD : Digest r image token st1
               = (Returns ("", None),
                  mkNet N w (sent st1
                             ++ [fetch_request (GetDigestUrl r image) token]))).
  { rewrite (Digest_on_response r image token st1 resp w Hlen Hp HDo).
    rewrite Hs, Hb, Hd. reflexivity. }
  rewrite inspection_from_manifest. unfold bind at 1. rewrite HD.
  cbn [fst snd].
  set (image' := Image.mk (Image.Domain image) (Image.Path image)
                   (Image.Tag image) "").
  set (st2 := mkNet N w _).
  assert (Hurl : GetBlobUrl r image'
                 = Registry.URL r +:+ "/v2/" +:+ Image.Path image +:+ "/blobs/").
  { rewrite GetBlobUrl_closed_form. subst image'. cbn [Image.Path Image.Digest].
    now rewrite append_empty_r. }
  destruct (Blob_sent r image' token st2) as (new & Hsent & _ & Hone).
  rewrite Hurl in Hone. rewrite (Hone Hpb) in Hsent.
  assert (Hst2 : (sent st2 ++ [fetch_request
                    (Registry.URL r +:+ "/v2/" +:+ Image.Path image
                     +:+ "/blobs/") token])%list
                 = (sent st1
                    ++ [fetch_request (GetDigestUrl r image) token;
                        fetch_request
                          (Registry.URL r +:+ "/v2/" +:+ Image.Path image
                           +:+ "/blobs/") token])%list).
  { subst st2. cbn [sent]. now rewrite <- app_assoc. }
  rewrite Hst2 in Hsent. rewrite <- Hsent.
  unfold bind, ret.
  destruct (Blob r image' token st2) as [[[bytes [e |]] | m] st3];
    cbn [fst snd]; try reflexivity.
  now destruct (json_Unmarshal_ImageBlob bytes ImageBlob_zero) as [blob [e |]].
Qed.

End Inspecting.

(** ** Instances of the further properties *)

Section FurtherInstances.

Import Reference ReferenceInspect.

(** A user name without password. *)
Lemma credentials_kept_together_witness :
  exists r,
    CreateRegistryClient "" "user" "" "example.com" = (Some r, None)
    /\ Registry.Username r = "" /\ Registry.Password r = "".
Proof.
  destruct (credentials_kept_together "" "user" "" "example.com")
    as (r & Hr & _ & Hdrop).
  exists r. split; [exact Hr |]. apply Hdrop. right. reflexivity.
Defined.

(** An auth URL beside a domain of its own, and beside [docker.io]. *)
Lemma authURL_only_for_default_domain_witness :
  CreateRegistryClient "quay.io" "" "" "example.com"
  = CreateRegistryClient "" "" "" "example.com"
  /\ CreateRegistryClient "quay.io" "" "" "docker.io"
     = CreateRegistryClient "" "" "" "quay.io".
Proof.
  split.
  - apply (proj1 (authURL_only_for_default_domain "quay.io" "" ""
                    "example.com")); discriminate.
  - apply (proj2 (authURL_only_for_default_domain "quay.io" "" ""
                    "docker.io")); [right; reflexivity | discriminate].
Defined.

(** A plain [http://] domain with SSL enabled. *)
Lemma explicit_scheme_kept_witness :
  exists r,
    newFromTransport (AuthConfig.mk "" "" "https://registry-1.docker.io")
      (Opt.mk "http://example.com/" 0 ∅ true) = (Some r, None)
    /\ Registry.URL r = "http://example.com".
Proof.
  apply (explicit_scheme_kept
           (AuthConfig.mk "" "" "https://registry-1.docker.io")
           (Opt.mk "http://example.com/" 0 ∅ true));
    [discriminate | discriminate | reflexivity].
Defined.

(** A connection that fails. *)
Lemma transport_failure_returned_witness :
  fst (Digest dockerhub (alpine "") "" (start [inr (netError "timeout")]))
  = Returns ("", Some (netError "timeout"))
  /\ fst (Blob dockerhub (alpine "sha256:abc") ""
            (start [inr (netError "timeout")]))
     = Returns ("", Some (netError "timeout")).
Proof.
  destruct (transport_failure_returned dockerhub (alpine "") ""
              (start [inr (netError "timeout")]) (netError "timeout") [])
    as [HD _].
  destruct (transport_failure_returned dockerhub (alpine "sha256:abc") ""
              (start [inr (netError "timeout")]) (netError "timeout") [])
    as [_ HB].
  split.
  - rewrite HD; [reflexivity | simpl; lia | reflexivity | reflexivity].
  - rewrite HB; [reflexivity | reflexivity | reflexivity].
Defined.

(** A tag with a line feed: the URL does not parse. *)
Lemma at_most_one_request_witness :
  Digest dockerhub
    (Image.mk "docker.io" "library/alpine" (String (ascii_of_nat 10) "") "")
    "" (start [inl (response 200 manifest_body)])
  = (Returns ("", Some (urlError "parse"
                          ("https://registry-1.docker.io/v2/library/alpine/manifests/"
                           +:+ String (ascii_of_nat 10) ""))),
     start [inl (response 200 manifest_body)]).
Proof.
  destruct (at_most_one_request dockerhub
              (Image.mk "docker.io" "library/alpine"
                 (String (ascii_of_nat 10) "") "")
              "" (start [inl (response 200 manifest_body)]))
    as (_ & _ & HD & _).
  apply HD; [simpl; lia | vm_compute; reflexivity].
Defined.

(** A body that breaks off. *)
Lemma body_read_failure_hidden_witness :
  fst (Blob dockerhub (alpine "sha256:abc") ""
         (start [inl (mkResponse 200 ∅
                        (mkBody "{" (Some (netError "unexpected EOF"))))]))
  = Returns ("", None).
Proof.
  refine (proj1
    (body_read_failure_hidden dockerhub (alpine "sha256:abc") ""
       (start [inl (mkResponse 200 ∅
                      (mkBody "{" (Some (netError "unexpected EOF"))))])
       (mkResponse 200 ∅ (mkBody "{" (Some (netError "unexpected EOF"))))
       [] (mkBody "{" (Some (netError "unexpected EOF")))
       (netError "unexpected EOF") (or_introl eq_refl) _ eq_refl)
    eq_refl eq_refl).
  left. split; [vm_compute; discriminate | reflexivity].
Defined.

(** An empty body under the gzip header. *)
Lemma rejected_gzip_panics_witness :
  fst (Digest dockerhub (alpine "") "" (start [inl (gzip_response 404 "")]))
  = Panics "invalid memory address or nil pointer dereference".
Proof.
  destruct (rejected_gzip_panics dockerhub (alpine "") ""
              (start [inl (gzip_response 404 "")])
              (gzip_response 404 "") [] io_EOF)
    as [HD _]; [right; reflexivity | vm_compute; reflexivity
                | vm_compute; reflexivity |].
  rewrite HD; [reflexivity | simpl; lia | reflexivity | reflexivity].
Defined.

Lemma GetRespBody_error_without_bytes_witness :
  GetRespBody (mkResponse 200 ∅ (mkBody "{" (Some (netError "unexpected EOF"))))
  = Returns ("", Some (netError "unexpected EOF"))
  /\ "" = "".
Proof.
  assert (H : GetRespBody (mkResponse 200 ∅
                             (mkBody "{" (Some (netError "unexpected EOF"))))
              = Returns ("", Some (netError "unexpected EOF")))
    by (vm_compute; reflexivity).
  split; [exact H |].
  exact (proj1 (GetRespBody_error_without_bytes _ _ _ H)).
Defined.

(** Two images of one repository and tag. *)
Lemma urls_tell_tags_apart_witness :
  Image.Tag (Image.mk "example.com" "library/alpine" "latest" "sha256:abc")
  = Image.Tag (alpine "").
Proof.
  apply (proj1 (urls_tell_tags_apart dockerhub (alpine "")
                  (Image.mk "example.com" "library/alpine" "latest"
                     "sha256:abc") eq_refl)).
  reflexivity.
Defined.

(** A TLS secret in the place of a pull secret. *)
Lemma docker_entry_failures_witness :
  getDockerEntryFromDockerSecret opaque_secret
  = (None,
     Some (errorString
             "secret project in ns tls type should be kubernetes.io/dockerconfigjson"))
  /\ getDockerEntryFromDockerSecret
       (Secret.mk "project" "pull" SecretTypeDockerConfigJson ∅)
     = (None, Some (errorString "could not get data .dockerconfigjson")).
Proof.
  split.
  - apply (proj1 (docker_entry_failures opaque_secret)); discriminate.
  - apply (proj2 (docker_entry_failures
                    (Secret.mk "project" "pull" SecretTypeDockerConfigJson ∅)));
      reflexivity.
Defined.

(** The pull secret of one registry. *)
Lemma docker_entry_found_witness :
  getDockerEntryFromDockerSecret no_secret
  = (Some (DockerConfigEntry.mk "" "" "" ""), None)
  /\ exists address entry,
      getDockerEntryFromDockerSecret pull_secret
      = (Some (DockerConfigEntry.mk (DockerConfigEntry.Username entry)
                 (DockerConfigEntry.Password entry)
                 (DockerConfigEntry.Email entry) address), None).
Proof.
  split.
  - apply (proj1 (docker_entry_found no_secret)). reflexivity.
  - destruct (proj2 (docker_entry_found pull_secret) docker_config
                ({| DockerConfigJson.Auths :=
                      {[ "example.com" :=
                           DockerConfigEntry.mk "user" "secret" "" "" ]} |})
                eq_refl)
      as (address & entry & _ & Hfound & _).
    + reflexivity.
    + vm_compute. reflexivity.
    + cbn. intros H. apply (f_equal (fun m => m !! "example.com")) in H.
      vm_compute in H. discriminate.
    + exists address, entry. exact Hfound.
Defined.

(** A TLS secret makes the inspection panic. *)
Lemma inspection_panics_without_entry_witness :
  RegistryImageBlob
    (ImageNameAndSecret.mk "example.com/app:1" opaque_secret) (start [])
  = (Panics nil_dereference, start []).
Proof.
  apply (proj2 (inspection_panics_without_entry
                  (ImageNameAndSecret.mk "example.com/app:1" opaque_secret)
                  (start [])));
    discriminate.
Defined.

(** An open registry whose manifest request fails with a 500. *)
Lemma inspection_never_returns_error_witness :
  match fst (RegistryImageBlob
               (ImageNameAndSecret.mk "example.com/app:1" no_secret)
               (start [inl (response 200 ""); inl (response 500 "")])) with
  | Returns (info, err) => err = None
  | Panics _ => False
  end.
Proof.
  destruct (RegistryImageBlob
              (ImageNameAndSecret.mk "example.com/app:1" no_secret)
              (start [inl (response 200 ""); inl (response 500 "")]))
    as [[[info err] | m] st'] eqn:E; cbn [fst].
  - exact (proj1 (inspection_never_returns_error _ _ _ _ _ E)).
  - assert (H : match fst (RegistryImageBlob
                             (ImageNameAndSecret.mk "example.com/app:1"
                                no_secret)
                             (start [inl (response 200 "");
                                     inl (response 500 "")])) with
                 | Returns _ => True
                 | Panics _ => False
                 end) by (vm_compute; exact I).
    rewrite E in H. exact H.
Defined.

(** The client and the image of [example.com/app:1] without secret. *)
Lemma reaches_manifest_sample (script : list (Response + error)) :
  reaches_manifest
    (ImageNameAndSecret.mk "example.com/app:1" no_secret)
    (start (inl (response 200 "") :: script))
    (Registry.mk "http://example.com" "example.com" "" ""
       (mkClient DefaultTimeout) (Opt.mk "example.com" 0 ∅ false))
    (Image.mk "example.com" "app" "1" "") ""
    (mkNet Reference.script script
       [mkRequest "GET" "http://example.com/v2/app/manifests/1" ∅]).
Proof.
  exists (DockerConfigEntry.mk "" "" "" ""), None.
  repeat split; vm_compute; reflexivity.
Qed.

Lemma inspection_stops_on_manifest_error_witness :
  fst (RegistryImageBlob
         (ImageNameAndSecret.mk "example.com/app:1" no_secret)
         (start [inl (response 200 ""); inl (response 500 "")]))
  = Returns (Some (ImageBlobInfo.mk statusFailed None), None).
Proof.
  rewrite (inspection_stops_on_manifest_error
             (ImageNameAndSecret.mk "example.com/app:1" no_secret)
             (start [inl (response 200 ""); inl (response 500 "")])
             _ _ _ _ (reaches_manifest_sample [inl (response 500 "")])
             "" (errorString "got status code: 500")
             (mkNet Reference.script []
                [mkRequest "GET" "http://example.com/v2/app/manifests/1" ∅;
                 fetch_request "http://example.com/v2/app/manifests/1" ""]));
    [reflexivity | vm_compute; reflexivity].
Defined.

(** The manifest and the blob are served. *)
Lemma inspection_succeeds_iff_witness :
  fst (RegistryImageBlob
         (ImageNameAndSecret.mk "example.com/app:1" no_secret)
         (start [inl (response 200 ""); inl (response 200 manifest_body);
                 inl (response 200 blob_body)]))
  = Returns (Some (ImageBlobInfo.mk statusSuccess
                     (Some (mkBlob2 "amd64" "linux"))), None).
Proof.
  apply (proj2 (inspection_succeeds_iff
                  (ImageNameAndSecret.mk "example.com/app:1" no_secret)
                  (start [inl (response 200 "");
                          inl (response 200 manifest_body);
                          inl (response 200 blob_body)])
                  _ _ _ _
                  (reaches_manifest_sample
                     [inl (response 200 manifest_body);
                      inl (response 200 blob_body)])
                  (mkBlob2 "amd64" "linux"))).
  exists "sha256:abc",
    (mkNet Reference.script [inl (response 200 blob_body)]
       [mkRequest "GET" "http://example.com/v2/app/manifests/1" ∅;
        fetch_request "http://example.com/v2/app/manifests/1" ""]),
    blob_body,
    (mkNet Reference.script []
       [mkRequest "GET" "http://example.com/v2/app/manifests/1" ∅;
        fetch_request "http://example.com/v2/app/manifests/1" "";
        fetch_request "http://example.com/v2/app/blobs/sha256:abc" ""]).
  repeat split; vm_compute; reflexivity.
Defined.

(** The manifest is not found: the blob of the empty digest is asked
    for. *)
Lemma missing_manifest_still_fetches_blob_witness :
  map Go.URL
    (sent (snd (RegistryImageBlob
                  (ImageNameAndSecret.mk "example.com/app:1" no_secret)
                  (start [inl (response 200 ""); inl (response 404 "");
                          inl (response 404 "")]))))
  = ["http://example.com/v2/app/manifests/1";
     "http://example.com/v2/app/manifests/1";
     "http://example.com/v2/app/blobs/"].
Proof.
  rewrite (missing_manifest_still_fetches_blob
             (ImageNameAndSecret.mk "example.com/app:1" no_secret)
             (start [inl (response 200 ""); inl (response 404 "");
                     inl (response 404 "")])
             _ _ _ _
             (reaches_manifest_sample
                [inl (response 404 ""); inl (response 404 "")])
             (response 404 "") [inl (response 404 "")] ("", None));
    [reflexivity | simpl; lia | reflexivity | reflexivity | reflexivity
     | reflexivity | vm_compute; reflexivity | reflexivity].
Defined.

End FurtherInstances.

(** ** The script for the mail server *)

Lemma template_is_filled :
  setMailServerScript_template
  = filled_script "EMAILFROMNAME" "EMAILFROMADDR" "EMAILFROMPASS"
      "EMAILSMTPHOST" "EMAILSMTPPORT" "USESSL".
Proof. vm_compute. reflexivity. Qed.

Lemma Replace_1_here (old new rest : string) :
  strings_Replace_1 (old +:+ rest) old new = new +:+ rest.
Proof.
  destruct old as [|o old].
  - destruct rest; reflexivity.
  - rewrite append_cons.
    change (strings_Replace_1 (String o (old +:+ rest)) (String o old) new)
      with (match strip_prefix (String o old) (String o (old +:+ rest)) with
            | Some r => new +:+ r
            | None => String o (strings_Replace_1 (old +:+ rest) (String o old) new)
            end).
    rewrite <- append_cons, strip_prefix_app. reflexivity.
Qed.

Lemma Replace_1_match (s old new r : string) :
  strip_prefix old s = Some r -> strings_Replace_1 s old new = new +:+ r.
Proof. intros H. destruct s; cbn [strings_Replace_1]; now rewrite H. Qed.

Lemma Replace_1_cons (c : ascii) (s old new : string) :
  strip_prefix old (String c s) = None ->
  strings_Replace_1 (String c s) old new = String c (strings_Replace_1 s old new).
Proof. intros H. cbn [strings_Replace_1]. now rewrite H. Qed.

(** A text without the first character of [old] is passed over. *)
Lemma Replace_1_skip_text (o : ascii) (old' a b new : string) :
  free_of o a = true ->
  strings_Replace_1 (a +:+ b) (String o old') new
  = a +:+ strings_Replace_1 b (String o old') new.
Proof.
  induction a as [|c a IH]; intros H; [reflexivity |].
  cbn [free_of] in H. apply andb_prop in H as [Hc Ha].
  rewrite !append_cons, Replace_1_cons, (IH Ha); [reflexivity |].
  cbn [strip_prefix]. destruct (Ascii.eqb o c); [discriminate | reflexivity].
Qed.

Lemma strip_prefix_app_None (old x : string) (q : ascii) (b : string) :
  strip_prefix old x = None -> free_of q old = true ->
  strip_prefix old (x +:+ String q b) = None.
Proof.
  revert x; induction old as [|o old IH]; intros x Hx Hq; [discriminate |].
  cbn [free_of] in Hq. apply andb_prop in Hq as [Hoq Hold].
  destruct x as [|c x].
  - change ("" +:+ String q b) with (String q b). cbn [strip_prefix].
    rewrite Ascii.eqb_sym. destruct (Ascii.eqb q o); [discriminate | reflexivity].
  - rewrite append_cons. cbn [strip_prefix] in Hx |- *.
    destruct (Ascii.eqb o c); [| reflexivity]. now apply IH.
Qed.

(** A value in which [old] does not occur, followed by a character that
    is not in [old], is passed over. *)
Lemma Replace_1_skip_value (v b old new : string) :
  strings_Contains v old = false -> starts_outside b old = true ->
  strings_Replace_1 (v +:+ b) old new = v +:+ strings_Replace_1 b old new.
Proof.
  destruct b as [|q b]; [discriminate |]. cbn [starts_outside]. intros Hv Hq.
  induction v as [|c v IH]; [reflexivity |].
  cbn [strings_Contains] in Hv.
  destruct (strip_prefix old (String c v)) eqn:E; [discriminate |].
  rewrite !append_cons, Replace_1_cons, (IH Hv); [reflexivity |].
  rewrite <- append_cons. now apply strip_prefix_app_None.
Qed.

Lemma strip_prefix_more (old a b r : string) :
  strip_prefix old a = Some r -> strip_prefix old (a +:+ b) = Some (r +:+ b).
Proof.
  intros H. apply strip_prefix_Some in H as ->.
  rewrite append_assoc. apply strip_prefix_app.
Qed.

Lemma strip_prefix_length (old s r : string) :
  strip_prefix old s = Some r -> (String.length old <= String.length s)%nat.
Proof.
  intros H. apply strip_prefix_Some in H as ->. rewrite length_append. lia.
Qed.

Lemma Contains_length (s old : string) :
  strings_Contains s old = true -> (String.length old <= String.length s)%nat.
Proof.
  induction s as [|c s IH]; cbn [strings_Contains].
  - destruct (strip_prefix old "") eqn:E; [| discriminate].
    intros _. now apply strip_prefix_length in E.
  - destruct (strip_prefix old (String c s)) eqn:E.
    + intros _. now apply strip_prefix_length in E.
    + intros H. apply IH in H. cbn [String.length]. lia.
Qed.

Lemma strip_prefix_short (old a b : string) :
  (String.length old <= String.length a)%nat ->
  strip_prefix old a = None -> strip_prefix old (a +:+ b) = None.
Proof.
  revert a; induction old as [|o old IH]; intros a Hl Ha; [discriminate |].
  destruct a as [|c a]; [cbn in Hl; lia |].
  rewrite append_cons. cbn [strip_prefix] in Ha |- *.
  destruct (Ascii.eqb o c); [| reflexivity].
  apply IH; [cbn in Hl; lia | exact Ha].
Qed.

(** An instance of [old] inside the first part is the one replaced. *)
Lemma Replace_1_inside (a b old new : string) :
  strings_Contains a old = true ->
  strings_Replace_1 (a +:+ b) old new = strings_Replace_1 a old new +:+ b.
Proof.
  induction a as [|c a IH]; intros H.
  - cbn [strings_Contains] in H.
    destruct (strip_prefix old "") eqn:E; [| discriminate].
    destruct old; [| discriminate].
    change ("" +:+ b) with b.
    destruct b; cbn [strings_Replace_1 strip_prefix];
      now rewrite !append_empty_r.
  - cbn [strings_Contains] in H.
    destruct (strip_prefix old (String c a)) as [r|] eqn:E.
    + rewrite (Replace_1_match _ _ _ _ (strip_prefix_more _ _ b _ E)).
      rewrite (Replace_1_match _ _ _ _ E). now rewrite append_assoc.
    + pose proof (Contains_length _ _ H) as Hl.
      rewrite append_cons, Replace_1_cons, (IH H).
      * now rewrite (Replace_1_cons _ _ _ new E), append_cons.
      * rewrite <- append_cons. apply strip_prefix_short; [cbn; lia | exact E].
Qed.

Lemma Replace_1_same (s old : string) : strings_Replace_1 s old old = s.
Proof.
  induction s as [|c s IH]; cbn [strings_Replace_1].
  - destruct (strip_prefix old "") eqn:E; [| reflexivity].
    now apply strip_prefix_Some in E.
  - destruct (strip_prefix old (String c s)) eqn:E.
    + now apply strip_prefix_Some in E.
    + now rewrite IH.
Qed.

Lemma free_of_uint (c : ascii) (d : Decimal.uint) :
  (nat_of_ascii c <? 48)%nat || (57 <? nat_of_ascii c)%nat = true ->
  free_of c (NilEmpty.string_of_uint d) = true.
Proof.
  intros Hc. induction d; cbn [NilEmpty.string_of_uint free_of];
    rewrite ?IHd, ?andb_true_r; try reflexivity;
    apply negb_true_iff, Ascii.eqb_neq; intros ->; discriminate.
Qed.

(** The decimal text of a number has digits and the sign only. *)
Lemma free_of_Itoa (c : ascii) (n : Z) :
  (nat_of_ascii c <? 45)%nat || (57 <? nat_of_ascii c)%nat = true ->
  free_of c (strconv_Itoa n) = true.
Proof.
  intros Hc.
  assert (Hd : (nat_of_ascii c <? 48)%nat || (57 <? nat_of_ascii c)%nat = true).
  { apply orb_true_iff in Hc as [H | H]; apply orb_true_iff; [left | now right].
    apply Nat.ltb_lt in H. apply Nat.ltb_lt. lia. }
  assert (Hu : forall d, free_of c (NilZero.string_of_uint d) = true).
  { intros d. unfold NilZero.string_of_uint.
    destruct d; try apply (free_of_uint c _ Hd).
    cbn [free_of]. rewrite andb_true_r.
    apply negb_true_iff, Ascii.eqb_neq; intros ->; discriminate. }
  unfold strconv_Itoa, NilZero.string_of_int.
  destruct (Z.to_int n) as [d | d]; [apply Hu |].
  cbn [free_of]. rewrite Hu, andb_true_r.
  apply negb_true_iff, Ascii.eqb_neq; intros ->; discriminate.
Qed.

Section MailScript.

Context `{ErrorText} `{DevopsClient}.

Variable server : EmailServerConfig.t.

Ltac pass_text :=
  rewrite Replace_1_skip_text by (vm_compute; reflexivity).
Ltac pass_value H :=
  rewrite Replace_1_skip_value by (first [exact H | reflexivity]).

Ltac inner_step tac :=
  match goal with
  | |- context [strings_Replace_1 (?a +:+ ?b) ?old ?new] =>
      let E := fresh in
      eassert (E : strings_Replace_1 (a +:+ b) old new = _);
      [ tac | rewrite E; clear E ]
  end.

Lemma contains_any_cons (v old : string) (olds : list string) :
  contains_any v (old :: olds) = false ->
  strings_Contains v old = false /\ contains_any v olds = false.
Proof. unfold contains_any. cbn [existsb]. apply orb_false_elim. Qed.

(** X19: every value lands in its own place of the script when no value
    holds the name of a place that is filled after it: the name not one
    of the five later ones, the address not one of the four later ones,
    the password not one of the three later ones, the host not one of
    the two later ones.  The port and the flag are written in decimal
    and as [true] or [false]. *)
Theorem script_values_in_their_places :
  contains_any (EmailServerConfig.Email server)
    ["EMAILFROMADDR"; "EMAILFROMPASS"; "EMAILSMTPHOST"; "EMAILSMTPPORT";
     "USESSL"] = false ->
  contains_any (EmailServerConfig.FromEmailAddr server)
    ["EMAILFROMPASS"; "EMAILSMTPHOST"; "EMAILSMTPPORT"; "USESSL"] = false ->
  contains_any (EmailServerConfig.Password server)
    ["EMAILSMTPHOST"; "EMAILSMTPPORT"; "USESSL"] = false ->
  contains_any (EmailServerConfig.EmailHost server)
    ["EMAILSMTPPORT"; "USESSL"] = false ->
  setMailServerScript server
  = filled_script (EmailServerConfig.Email server)
      (EmailServerConfig.FromEmailAddr server)
      (EmailServerConfig.Password server)
      (EmailServerConfig.EmailHost server)
      (strconv_Itoa (EmailServerConfig.Port server))
      (strconv_FormatBool (EmailServerConfig.SslEnable server)).
Proof.
  intros Hn Ha Hp Hh.
  apply contains_any_cons in Hn as [Hn1 Hn]. apply contains_any_cons in Hn as [Hn2 Hn].
  apply contains_any_cons in Hn as [Hn3 Hn]. apply contains_any_cons in Hn as [Hn4 Hn].
  apply contains_any_cons in Hn as [Hn5 _].
  apply contains_any_cons in Ha as [Ha2 Ha]. apply contains_any_cons in Ha as [Ha3 Ha].
  apply contains_any_cons in Ha as [Ha4 Ha]. apply contains_any_cons in Ha as [Ha5 _].
  apply contains_any_cons in Hp as [Hp3 Hp]. apply contains_any_cons in Hp as [Hp4 Hp].
  apply contains_any_cons in Hp as [Hp5 _].
  apply contains_any_cons in Hh as [Hh4 Hh]. apply contains_any_cons in Hh as [Hh5 _].
  unfold setMailServerScript. rewrite template_is_filled. unfold filled_script.
  inner_step ltac:(pass_text; rewrite Replace_1_here; reflexivity).
  inner_step ltac:(pass_text; pass_value Hn1; pass_text;
                   rewrite Replace_1_here; reflexivity).
  inner_step ltac:(pass_text; pass_value Hn2; pass_text; pass_value Ha2;
                   pass_text; rewrite Replace_1_here; reflexivity).
  inner_step ltac:(pass_text; pass_value Hn3; pass_text; pass_value Ha3;
                   pass_text; pass_value Hp3; pass_text;
                   rewrite Replace_1_here; reflexivity).
  inner_step ltac:(pass_text; pass_value Hn4; pass_text; pass_value Ha4;
                   pass_text; pass_value Hp4; pass_text; pass_value Hh4;
                   pass_text; rewrite Replace_1_here; reflexivity).
  pass_text. pass_value Hn5. pass_text. pass_value Ha5. pass_text.
  pass_value Hp5. pass_text. pass_value Hh5. pass_text.
  rewrite (Replace_1_skip_text "U" "SESSL" (strconv_Itoa _))
    by (apply free_of_Itoa; reflexivity).
  pass_text. rewrite Replace_1_here. reflexivity.
Qed.

(** X20: the places are filled one after the other, each by the first
    instance of its name.  When the name of the sender holds the text
    [EMAILFROMADDR], the address is written into the name, and the place
    of the address keeps the text [EMAILFROMADDR]: the script, and with
    it the result of [SetMailServer], is the one of a server with
    exactly these two values. *)
Theorem place_name_inside_a_value :
  strings_Contains (EmailServerConfig.Email server) "EMAILFROMADDR" = true ->
  let server' :=
    EmailServerConfig.mk
      (strings_Replace_1 (EmailServerConfig.Email server) "EMAILFROMADDR"
         (EmailServerConfig.FromEmailAddr server))
      "EMAILFROMADDR"
      (EmailServerConfig.Password server)
      (EmailServerConfig.EmailHost server)
      (EmailServerConfig.Port server)
      (EmailServerConfig.SslEnable server)
      (EmailServerConfig.Submit server) in
  setMailServerScript server = setMailServerScript server'
  /\ SetMailServer (Some server) = SetMailServer (Some server').
Proof.
  intros Hin server'.
  assert (Hs : setMailServerScript server = setMailServerScript server').
  { unfold server', setMailServerScript.
    cbn [EmailServerConfig.Email EmailServerConfig.FromEmailAddr
         EmailServerConfig.Password EmailServerConfig.EmailHost
         EmailServerConfig.Port EmailServerConfig.SslEnable].
    rewrite Replace_1_same, template_is_filled. unfold filled_script.
    do 2 inner_step ltac:(pass_text; rewrite Replace_1_here; reflexivity).
    inner_step ltac:(pass_text; rewrite (Replace_1_inside _ _ _ _ Hin);
                     reflexivity).
    reflexivity. }
  split; [exact Hs |]. unfold SetMailServer. now rewrite Hs.
Qed.

End MailScript.

(** ** The Jenkins client *)

Lemma HasSuffix_splits (s suffix : string) :
  strings_HasSuffix s suffix = true -> exists p, s = p +:+ suffix.
Proof.
  induction s as [|c s IH]; cbn [strings_HasSuffix].
  - destruct (String.eqb_spec "" suffix) as [<- | _]; [| discriminate].
    now exists "".
  - destruct (String.eqb_spec (String c s) suffix) as [<- | _].
    + now exists "".
    + intros Hs. destruct (IH Hs) as [p ->]. now exists (String c p).
Qed.

Lemma HasSuffix_append (p suffix : string) :
  strings_HasSuffix (p +:+ suffix) suffix = true.
Proof.
  induction p as [|c p IH].
  - change ("" +:+ suffix) with suffix.
    destruct suffix; cbn [strings_HasSuffix]; now rewrite String.eqb_refl.
  - rewrite append_cons. cbn [strings_HasSuffix]. rewrite IH.
    now destruct (String.eqb _ _).
Qed.

Lemma Sprintf_job (folder : string) :
  fmt_Sprintf "/job/%s" [ArgS folder] = "/job/" +:+ folder.
Proof. simpl. now rewrite append_empty_r. Qed.

Lemma Sprintf_doDelete (domain id : string) :
  fmt_Sprintf "/credentials/store/folder/domain/%s/credential/%s/doDelete"
    [ArgS domain; ArgS id]
  = "/credentials/store/folder/domain/" +:+ domain +:+ "/credential/" +:+ id
    +:+ "/doDelete".
Proof. simpl. reflexivity. Qed.

(** The loop over the folders, from any start. *)
Lemma prePath_loop (folders : list string) (prePath : string) :
  fold_left (fun prePath folder =>
               prePath +:+ fmt_Sprintf "/job/%s" [ArgS folder])
    folders prePath
  = prePath +:+ match folders with
                | [] => ""
                | _ => "/job/" +:+ strings_Join folders "/job/"
                end.
Proof.
  revert prePath; induction folders as [|f rest IH]; intros prePath.
  - cbn [fold_left]. now rewrite append_empty_r.
  - cbn [fold_left]. rewrite IH, Sprintf_job, append_assoc.
    destruct rest as [|g rest]; [now rewrite append_empty_r |].
    change (strings_Join (f :: g :: rest) "/job/")
      with (f +:+ "/job/" +:+ strings_Join (g :: rest) "/job/").
    now rewrite !append_assoc.
Qed.

Lemma Join_snoc (elems : list string) (a b sep : string) :
  strings_Join (elems ++ [a; b]) sep
  = strings_Join (elems ++ [a]) sep +:+ sep +:+ b.
Proof.
  induction elems as [|e rest IH]; [reflexivity |].
  change ((e :: rest) ++ [a; b])%list with (e :: (rest ++ [a; b]))%list.
  change ((e :: rest) ++ [a])%list with (e :: (rest ++ [a]))%list.
  cbn [strings_Join]. rewrite IH.
  destruct rest as [|g rest]; cbn [app]; now rewrite !append_assoc.
Qed.

Lemma Join_joined (elems : list string) (a b sep : string) :
  strings_Join (elems ++ [a +:+ sep +:+ b]) sep
  = strings_Join (elems ++ [a; b]) sep.
Proof.
  induction elems as [|e rest IH]; [reflexivity |].
  change ((e :: rest) ++ [a; b])%list with (e :: (rest ++ [a; b]))%list.
  change ((e :: rest) ++ [a +:+ sep +:+ b])%list
    with (e :: (rest ++ [a +:+ sep +:+ b]))%list.
  cbn [strings_Join]. rewrite IH. now destruct rest.
Qed.

Section CreateJenkinsFacts.

Context `{Declarations}.

Variables (client : option Client) (base : string) (maxConnection : Z)
  (auth : list any).

(** X21: [CreateJenkins] takes one closing slash off the address, as
    [strings.TrimSuffix] does, and no more: the address is the server
    name, or the server name and a slash.  The requester gets the same
    name, always verifies certificates, and gets the default client in
    place of a nil one. *)
Theorem CreateJenkins_server (j : Jenkins.t) :
  CreateJenkins client base maxConnection auth = Returns j ->
  Jenkins.Server j = strings_TrimSuffix base "/"
  /\ (base = Jenkins.Server j \/ base = Jenkins.Server j +:+ "/")
  /\ Requester.Base (Jenkins.Requester j) = Jenkins.Server j
  /\ Requester.SslVerify (Jenkins.Requester j) = true
  /\ Requester.Client (Jenkins.Requester j)
     = Some (default http_DefaultClient client)
  /\ Jenkins.Raw j = None.
Proof.
  unfold CreateJenkins, strings_TrimSuffix.
  assert (Hb : let s := if strings_HasSuffix base "/"
                        then substring 0 (String.length base - 1) base
                        else base in
               base = s \/ base = s +:+ "/").
  { destruct (strings_HasSuffix base "/") eqn:E; [right | now left].
    destruct (HasSuffix_splits _ _ E) as [p ->].
    rewrite length_append. cbn [String.length].
    replace (String.length p + 1 - 1)%nat with (String.length p) by lia.
    now rewrite substring_0_length. }
  cbv zeta in Hb.
  destruct (maxConnection <? 0)%Z; [discriminate |].
  destruct client as [c|]; cbn [Requester.Client];
    destruct auth as [|[u| |] [|[p| |] [|]]]; intros [= <-];
    cbn; repeat split; exact Hb.
Qed.

(** X22: the credentials are kept when exactly two values are given
    and both are strings.  With one value, or with three, the client is
    built without credentials; with two values of which one is not a
    string the call panics.  A negative number of connections panics
    in every case. *)
Theorem CreateJenkins_credentials :
  ((maxConnection < 0)%Z ->
   CreateJenkins client base maxConnection auth = Panics makechan_size)
  /\ ((0 <= maxConnection)%Z ->
      match CreateJenkins client base maxConnection auth with
      | Returns j =>
          match Requester.BasicAuth (Jenkins.Requester j) with
          | Some b =>
              auth = [AnyString (BasicAuth.Username b);
                      AnyString (BasicAuth.Password b)]
          | None => length auth <> 2%nat
          end
      | Panics msg =>
          msg = interface_conversion /\ length auth = 2%nat
          /\ forall u p, auth <> [AnyString u; AnyString p]
      end).
Proof.
  unfold CreateJenkins. split; intros Hn.
  - apply Z.ltb_lt in Hn. now rewrite Hn.
  - apply Z.ltb_ge in Hn. rewrite Hn.
    destruct client as [c|]; cbn [Requester.Client];
      destruct auth as [|[u| |] [|[p| |] [|]]]; cbn;
      try discriminate; try reflexivity;
      repeat split; try discriminate; intros ? ?; discriminate.
Qed.

End CreateJenkinsFacts.

Section ClientFacts.

Context `{Server} `{ErrorText}.

Variable j : Jenkins.t.

Lemma request_calls (c : call) (st : RemoteState) :
  calls (snd (request c st)) = (calls st ++ [c])%list.
Proof. unfold request. now destruct (serve c (conn st)). Qed.

(** With folders: one post, to the closed form of the path. *)
Lemma DeleteCredentialInFolder_closed_form (domain id : string)
  (folders : list string) (st : RemoteState) :
  folders <> [] ->
  DeleteCredentialInFolder j domain id folders st
  = let c :=
      CallPost (Jenkins.Requester j)
        ("/job/" +:+ strings_Join folders "/job/"
         +:+ "/credentials/store/folder/domain/"
         +:+ (if String.eqb domain "" then "_" else domain)
         +:+ "/credential/" +:+ id +:+ "/doDelete") None in
    (match fst (serve c (conn st)) with
     | inl response =>
         if negb (StatusCode response =? StatusOK)%Z
         then (None, Some (errorString (strconv_Itoa (StatusCode response))))
         else (Some id, None)
     | inr err => (None, Some err)
     end,
     mkRemote (snd (serve c (conn st))) (calls st ++ [c])%list).
Proof.
  intros Hf. unfold DeleteCredentialInFolder.
  destruct folders as [|f rest] eqn:E; [contradiction |]. rewrite <- E.
  replace (length folders =? 0)%nat with false by now subst folders.
  rewrite prePath_loop, Sprintf_doDelete.
  replace (match folders with
           | [] => ""
           | _ :: _ => "/job/" +:+ strings_Join folders "/job/"
           end) with ("/job/" +:+ strings_Join folders "/job/")
    by now subst folders.
  change ("" +:+ ?x) with x. rewrite !append_assoc. cbv zeta.
  unfold request. destruct (serve _ (conn st)) as [[response | e] w];
    cbn [fst snd]; [now destruct (negb _) | reflexivity].
Qed.

(** X23: the credentials of a folder are addressed below the path of
    the folder: when [GetFolder] finds the folder [id] under
    [parents], deleting a credential in the chain of folders
    [parents ++ [id]] posts once, to the path of that folder followed by
    the path of the credential, with [_] for an empty domain. *)
Theorem credential_below_folder (id : string) (parents : list string)
  (folder : Folder.t) (st st' : RemoteState) (domain cred : string)
  (st2 : RemoteState) :
  GetFolder j id parents st = ((Some folder, None), st') ->
  calls (snd (DeleteCredentialInFolder j domain cred (parents ++ [id]) st2))
  = (calls st2
     ++ [CallPost (Jenkins.Requester j)
           (Folder.Base folder +:+ "/credentials/store/folder/domain/"
            +:+ (if String.eqb domain "" then "_" else domain)
            +:+ "/credential/" +:+ cred +:+ "/doDelete")
           None])%list.
Proof.
  unfold GetFolder. intros Hf.
  destruct (request (CallFolderPoll _) st) as [[raw [status [err|]]] st1];
    [discriminate |].
  destruct (status =? 200)%Z; [| discriminate].
  injection Hf as <- _. cbn [Folder.Base].
  rewrite (DeleteCredentialInFolder_closed_form domain cred (parents ++ [id]) st2)
    by now destruct parents.
  cbn [snd calls]. now rewrite !append_assoc.
Qed.

(** X24: a job inside a folder lies below the folder, and names are
    written into the path as they are: the path of the job [id] under
    [parents ++ [p]] is the path of the folder [p] under [parents]
    followed by [/job/] and [id], and a job that is named
    [p/job/id] is polled, and answered, as the job [id] in the folder
    [p]. *)
Theorem job_below_folder (id p : string) (parents : list string) :
  (forall folder job st st' st2 st2',
      GetFolder j p parents st = ((Some folder, None), st') ->
      GetJob j id (parents ++ [p]) st2 = ((Some job, None), st2') ->
      Job.Base job = Folder.Base folder +:+ "/job/" +:+ id)
  /\ forall st,
      GetJob j (p +:+ "/job/" +:+ id) parents st
      = GetJob j id (parents ++ [p]) st.
Proof.
  split.
  - intros folder job st st' st2 st2'. unfold GetFolder, GetJob.
    destruct (request (CallFolderPoll _) st) as [[raw [status [err|]]] st1];
      [discriminate |].
    destruct (status =? 200)%Z; [| discriminate]. intros [= <- _].
    destruct (request (CallJobPoll _) st2) as [[raw2 [status2 [err2|]]] st3];
      [discriminate |].
    destruct (status2 =? 200)%Z; [| discriminate]. intros [= <- _].
    cbn [Job.Base Folder.Base].
    rewrite <- app_assoc. cbn [app]. rewrite Join_snoc.
    now rewrite !append_assoc.
  - intros st. unfold GetJob. rewrite <- app_assoc. cbn [app].
    now rewrite Join_joined.
Qed.

(** X25: without folders nothing is posted and the call fails; an
    empty domain is the domain [_]; with folders there is one post, to
    the folders joined by [/job/] and the path of the credential, and
    the credential is returned exactly when the answer has status 200:
    an error of the post is handed on, another status is returned as an
    error with the status in decimal. *)
Theorem DeleteCredentialInFolder_outcomes (domain id : string)
  (folders : list string) (st : RemoteState) :
  DeleteCredentialInFolder j domain id [] st
  = ((None, Some (errorString "folder name shoud not be nil")), st)
  /\ DeleteCredentialInFolder j "" id folders st
     = DeleteCredentialInFolder j "_" id folders st
  /\ (folders <> [] ->
      exists path,
        path = "/job/" +:+ strings_Join folders "/job/"
               +:+ "/credentials/store/folder/domain/"
               +:+ (if String.eqb domain "" then "_" else domain)
               +:+ "/credential/" +:+ id +:+ "/doDelete"
        /\ calls (snd (DeleteCredentialInFolder j domain id folders st))
           = (calls st ++ [CallPost (Jenkins.Requester j) path None])%list
        /\ fst (DeleteCredentialInFolder j domain id folders st)
           = match fst (serve (CallPost (Jenkins.Requester j) path None)
                          (conn st)) with
             | inl response =>
                 if (StatusCode response =? 200)%Z then (Some id, None)
                 else (None,
                       Some (errorString (strconv_Itoa (StatusCode response))))
             | inr err => (None, Some err)
             end).
Proof.
  split; [reflexivity |]. split; [reflexivity |].
  intros Hf. eexists. split; [reflexivity |].
  rewrite (DeleteCredentialInFolder_closed_form domain id folders st Hf).
  cbn [fst snd calls]. split; [reflexivity |].
  destruct (fst (serve _ (conn st))) as [response | e]; [| reflexivity].
  unfold StatusOK. now destruct (StatusCode response =? 200)%Z.
Qed.

(** X26: the options of [CreateJob] and [BuildJob].  [CreateJob]
    without option fails without a call; with a first option that is
    not a string it panics without a call; further options are not
    looked at, and the job is created at [/job/] and the name.
    [BuildJob] never fails on its options: a first option that is not
    a map is dropped, and the job is built without parameters. *)
Theorem job_options (config name : string) (o : any) (rest : list any)
  (st : RemoteState) :
  CreateJob j config [] st
  = (Returns (None,
              Some (errorString "Error Creating Job, job name is missing")),
     st)
  /\ ((forall s, o <> AnyString s) ->
      CreateJob j config (o :: rest) st = (Panics interface_conversion, st))
  /\ CreateJob j config (AnyString name :: rest) st
     = CreateJob j config [AnyString name] st
  /\ calls (snd (CreateJob j config (AnyString name :: rest) st))
     = (calls st
        ++ [CallJobCreate (Job.mk j JobResponse_zero ("/job/" +:+ name))
              config {[ "name" := name ]}])%list
  /\ ((forall m, o <> AnyMap m) ->
      BuildJob j name (o :: rest) st = BuildJob j name [] st)
  /\ forall options,
      exists params,
        calls (snd (BuildJob j name options st))
        = (calls st
           ++ [CallJobInvokeSimple (Job.mk j JobResponse_zero ("/job/" +:+ name))
                 params])%list.
Proof.
  split; [reflexivity |]. split.
  { intros Ho. destruct o as [s | m |]; [now destruct (Ho s) | reflexivity ..]. }
  split; [reflexivity |]. split.
  { unfold CreateJob. rewrite lookup_insert_eq. cbn [default].
    rewrite insert_empty.
    match goal with
    | |- context [request ?c st] =>
        pose proof (request_calls c st) as Hc;
          destruct (request c st) as [[job [err|]] st1]
    end; exact Hc. }
  split.
  { intros Ho. destruct o as [s | m |]; [reflexivity | now destruct (Ho m) |
                                         reflexivity]. }
  intros options. unfold BuildJob. eexists.
  exact (request_calls (CallJobInvokeSimple _ _) st).
Qed.

(** X27: [Init] never reports a failed connection of its own: the test
    for a nil body comes after the body has been allocated, so the error
    it returns is the error of the one request, and it returns the
    client exactly when the request returns a response.  The receiver
    has a body afterwards in every case, the one the request has
    written, and on success its version is the header [X-Jenkins]. *)
Theorem Init_outcomes (st : RemoteState) :
  let c := CallGetJSON (Jenkins.Requester j) "/" in
  let r : ExecutorResponse * (Response + error) := fst (serve c (conn st)) in
  let '((j', (result, err)), st') := Jenkins_Init j st in
  calls st' = (calls st ++ [c])%list
  /\ Jenkins.Raw j' = Some (fst r)
  /\ Jenkins.Server j' = Jenkins.Server j
  /\ Jenkins.Requester j' = Jenkins.Requester j
  /\ match snd r with
     | inl rsp =>
         result = Some j' /\ err = None
         /\ Jenkins.Version j' = Header_Get (Header rsp) "X-Jenkins"
     | inr e =>
         result = None /\ err = Some e
         /\ Jenkins.Version j' = Jenkins.Version j
     end.
Proof.
  cbv zeta. unfold Jenkins_Init. cbn [Jenkins.Requester].
  unfold request. destruct (serve _ (conn st)) as [[raw [rsp | e]] w];
    cbn; repeat split; eauto.
Qed.

(** X28: [GetGlobalRole] returns neither a role nor an error exactly
    when the server answers with status 200 and the text [{}]: a caller
    has to test the role for nil even when the error is nil. *)
Theorem no_role_no_error (roleName : string) (st : RemoteState) :
  let c := CallGet (Jenkins.Requester j) "/role-strategy/strategy/getRole"
             (<["roleName" := roleName]> (<["type" := GLOBAL_ROLE]> ∅)) in
  let r : string * (Response + error) := fst (serve c (conn st)) in
  fst (GetGlobalRole j roleName st) = (None, None)
  <-> exists response,
        snd r = inl response /\ StatusCode response = 200%Z /\ fst r = "{}".
Proof.
  cbv zeta. unfold GetGlobalRole, request.
  destruct (serve _ (conn st)) as [[text [response | e]] w]; cbn [fst snd].
  - unfold StatusOK. destruct (Z.eqb_spec (StatusCode response) 200) as [Hs | Hs];
      cbn [negb].
    + destruct (String.eqb_spec text "{}") as [-> | Ht].
      * split; [eauto | reflexivity].
      * destruct (json_Unmarshal_GlobalRoleResponse _ _) as [role [err|]];
          cbn [fst]; split; try discriminate;
          intros (r & _ & _ & Hr); contradiction.
    + cbn [fst]. split; [discriminate |].
      intros (r & [= <-] & Hr & _). contradiction.
  - split; [discriminate |]. intros (r & Hr & _). discriminate.
Qed.

End ClientFacts.

(** ** The handler of the mail server and the options of the server *)

Section Handler.

Context `{ErrorText} `{Restful}.

(** X29: a request that cannot be read does not end the handler.  The
    error is written to the response with status 400, and
    [SetMailServer] is called all the same: without client set a second
    error, with status 503, is written to the same response; with a
    client set and nothing read the nil server is dereferenced and the
    handler panics; with a server that was read in part its script is
    run and the outcome is written after the error. *)
Theorem unreadable_request_goes_on (req : RestRequest)
  (server : option EmailServerConfig.t) (e : error) :
  ReadEntity req = (server, Some e) ->
  let bad := ParseSvcErr (restful_NewError StatusBadRequest (Error e)) in
  (forall e',
      ClientSets_Devops = Some e' ->
      SetupMailServer req
      = (Returns tt,
         [bad;
          parseErr (restful_NewError StatusServiceUnavailable (Error e'))]))
  /\ (ClientSets_Devops = None -> server = None ->
      SetupMailServer req = (Panics nil_dereference, [bad]))
  /\ (ClientSets_Devops = None ->
      forall s, server = Some s ->
      SetupMailServer req
      = (Returns tt,
         [bad;
          match ExecutesScript (setMailServerScript s)
                  (EmailServerConfig.Submit s) with
          | inr err =>
              parseErr
                (restful_NewError (GetJenkinsStatusCode err) (Error err))
          | inl message =>
              WriteAsJson
                (Some (ExecutesResult.mk (isSuccess message) message))
          end])).
Proof.
  intros Hread bad. unfold SetupMailServer, SetMailServer. rewrite Hread.
  repeat split.
  - intros e' ->. reflexivity.
  - intros -> ->. reflexivity.
  - intros -> s ->. now destruct (ExecutesScript _ _).
Qed.

End Handler.

Lemma AddFlag_fresh (fs : FlagSet) (flag : Flag) :
  (forall f, In f (formal fs) -> flag_Name f <> flag_Name flag) ->
  FlagSet_AddFlag fs flag
  = Returns (mkFlagSet (flagset_name fs) (formal fs ++ [flag])).
Proof.
  intros Hfresh. unfold FlagSet_AddFlag.
  destruct (existsb _ (formal fs)) eqn:E; [| reflexivity].
  apply existsb_exists in E as (f & Hin & Heq).
  apply String.eqb_eq in Heq. now destruct (Hfresh f Hin).
Qed.

Lemma AddFlag_defined (fs : FlagSet) (flag : Flag) :
  (exists f, In f (formal fs) /\ flag_Name f = flag_Name flag) ->
  FlagSet_AddFlag fs flag
  = Panics (flagset_name fs +:+ " flag redefined: " +:+ flag_Name flag).
Proof.
  intros (f & Hin & Heq). unfold FlagSet_AddFlag.
  replace (existsb _ (formal fs)) with true.
  - cbn [fmt_Sprintf Ascii.eqb Bool.eqb fmt_verb]. cbn.
    now rewrite append_empty_r.
  - symmetry. apply existsb_exists. exists f. split; [exact Hin |].
    now apply String.eqb_eq.
Qed.

(** X30: [AddFlags] overwrites the options it is called on with the
    defaults of the flags, and these are the values of
    [NewServerRunOptions]: on a flag set without the five names the
    options are [NewServerRunOptions] afterwards, whatever they held.
    On the flag set that results, a second call panics at the first
    flag, after the address has been overwritten again. *)
Theorem AddFlags_sets_the_defaults (s : ServerRunOptions.t) (fs : FlagSet) :
  (forall f, In f (formal fs) ->
             ~ In (flag_Name f)
                 ["bind-address"; "insecure-port"; "secure-port";
                  "tls-cert-file"; "tls-private-key"]) ->
  let fs' :=
    mkFlagSet (flagset_name fs)
      (formal fs
       ++ [mkFlag "bind-address" "0.0.0.0" "server bind address";
           mkFlag "insecure-port" "9090" "insecure port number";
           mkFlag "secure-port" "0" "secure port number";
           mkFlag "tls-cert-file" "" "tls cert file";
           mkFlag "tls-private-key" "" "tls private key"]) in
  AddFlags s fs = (NewServerRunOptions, Returns fs')
  /\ forall s',
      AddFlags s' fs'
      = (ServerRunOptions.mk "0.0.0.0" (ServerRunOptions.InsecurePort s')
           (ServerRunOptions.SecurePort s') (ServerRunOptions.TlsCertFile s')
           (ServerRunOptions.TlsPrivateKey s'),
         Panics (flagset_name fs +:+ " flag redefined: bind-address")).
Proof.
  intros Hfresh fs'. split.
  - unfold AddFlags, FlagSet_StringVar, FlagSet_IntVar.
    assert (Hnew : forall (l : list Flag) (name : string) f,
               In name ["bind-address"; "insecure-port"; "secure-port";
                        "tls-cert-file"; "tls-private-key"] ->
               (forall g, In g l -> flag_Name g <> name) ->
               In f (formal fs ++ l) -> flag_Name f <> name).
    { intros l name f Hname Hl Hin Heq.
      apply in_app_or in Hin as [Hin | Hin].
      - apply (Hfresh f Hin). now rewrite Heq.
      - now apply (Hl f Hin). }
    rewrite AddFlag_fresh.
    2: { intros f Hin. apply (Hnew [] _ f); cbn; rewrite ?app_nil_r; tauto. }
    cbn [formal flagset_name]. rewrite AddFlag_fresh.
    2: { cbn [formal flag_Name]. intros f Hin.
         apply (Hnew [mkFlag "bind-address" "0.0.0.0" "server bind address"]
                  _ f); cbn; [tauto | | exact Hin].
         intros g [<- | []]. discriminate. }
    cbn [formal flagset_name]. rewrite <- app_assoc. cbn [app].
    rewrite AddFlag_fresh.
    2: { cbn [formal flag_Name]. intros f Hin.
         eapply (Hnew _ _ f); [| | exact Hin]; cbn; [tauto |].
         intros g [<- | [<- | []]]; discriminate. }
    cbn [formal flagset_name]. rewrite <- app_assoc. cbn [app].
    rewrite AddFlag_fresh.
    2: { cbn [formal flag_Name]. intros f Hin.
         eapply (Hnew _ _ f); [| | exact Hin]; cbn; [tauto |].
         intros g [<- | [<- | [<- | []]]]; discriminate. }
    cbn [formal flagset_name]. rewrite <- app_assoc. cbn [app].
    rewrite AddFlag_fresh.
    2: { cbn [formal flag_Name]. intros f Hin.
         eapply (Hnew _ _ f); [| | exact Hin]; cbn; [tauto |].
         intros g [<- | [<- | [<- | [<- | []]]]]; discriminate. }
    cbn [formal flagset_name]. rewrite <- app_assoc. reflexivity.
  - intros s'. unfold AddFlags, FlagSet_StringVar.
    rewrite AddFlag_defined; [reflexivity |].
    exists (mkFlag "bind-address" "0.0.0.0" "server bind address").
    split; [| reflexivity]. unfold fs'. cbn [formal].
    apply in_or_app. right. now left.
Qed.

(** ** Instances for the mail server and the Jenkins client *)

Section JenkinsInstances.

Import ReferenceJenkins.

(** A server whose values hold no name of a place. *)
Lemma script_values_in_their_places_witness :
  setMailServerScript mail_server
  = filled_script "admin" "admin@example.com" "secret" "smtp.example.com"
      "465" "true".
Proof.
  exact (script_values_in_their_places mail_server
           eq_refl eq_refl eq_refl eq_refl).
Defined.

(** A sender who is named [EMAILFROMADDR]: the address is in the place
    of the name, and the place of the address reads [EMAILFROMADDR]. *)
Lemma place_name_inside_a_value_witness :
  setMailServerScript shifted_mail_server
  = filled_script "admin@example.com" "EMAILFROMADDR" "secret"
      "smtp.example.com" "465" "true".
Proof.
  destruct (place_name_inside_a_value shifted_mail_server eq_refl) as [Hs _].
  rewrite Hs. vm_compute. reflexivity.
Defined.

(** An address with a closing slash. *)
Lemma CreateJenkins_server_witness :
  Jenkins.Server jenkins = "http://jenkins.example.com"
  /\ ("http://jenkins.example.com/" = Jenkins.Server jenkins
      \/ "http://jenkins.example.com/" = Jenkins.Server jenkins +:+ "/").
Proof.
  destruct (CreateJenkins_server None "http://jenkins.example.com/" 20 []
              jenkins eq_refl) as (Hs & Hb & _).
  split; [exact Hs | exact Hb].
Defined.

(** A negative number of connections, and a user name without
    password. *)
Lemma CreateJenkins_credentials_witness :
  CreateJenkins None "http://jenkins.example.com" (-1) [] = Panics makechan_size
  /\ match CreateJenkins None "http://jenkins.example.com" 20
             [AnyString "admin"] with
     | Returns j =>
         match Requester.BasicAuth (Jenkins.Requester j) with
         | Some b =>
             [AnyString "admin"]
             = [AnyString (BasicAuth.Username b);
                AnyString (BasicAuth.Password b)]
         | None => length [AnyString "admin"] <> 2%nat
         end
     | Panics msg =>
         msg = interface_conversion /\ length [AnyString "admin"] = 2%nat
         /\ forall u p, [AnyString "admin"] <> [AnyString u; AnyString p]
     end.
Proof.
  split.
  - refine (proj1 (CreateJenkins_credentials None "http://jenkins.example.com"
                     (-1) []) _). lia.
  - refine (proj2 (CreateJenkins_credentials None "http://jenkins.example.com"
                     20 [AnyString "admin"]) _). lia.
Defined.

(** The folder [team] under [org], and a credential of it. *)
Lemma credential_below_folder_witness :
  calls (snd (DeleteCredentialInFolder jenkins "" "deploy-key"
                (["org"] ++ ["team"]) (served [])))
  = [CallPost (Jenkins.Requester jenkins)
       ("/job/org/job/team/credentials/store/folder/domain/_/credential/deploy-key/doDelete")
       None].
Proof.
  exact (credential_below_folder jenkins "team" ["org"]
           (Folder.mk jenkins "{}" "/job/org/job/team")
           (served [(200%Z, "{}")])
           (mkRemote []
              [CallFolderPoll
                 (Folder.mk jenkins FolderResponse_zero "/job/org/job/team")])
           "" "deploy-key" (served []) eq_refl).
Defined.

(** The job [build] in the folder [team] under [org]. *)
Lemma job_below_folder_witness :
  Job.Base (Job.mk jenkins "{}" "/job/org/job/team/job/build")
  = Folder.Base (Folder.mk jenkins "{}" "/job/org/job/team") +:+ "/job/"
    +:+ "build".
Proof.
  exact (proj1 (job_below_folder jenkins "build" "team" ["org"])
           (Folder.mk jenkins "{}" "/job/org/job/team")
           (Job.mk jenkins "{}" "/job/org/job/team/job/build")
           (served [(200%Z, "{}")])
           (mkRemote []
              [CallFolderPoll
                 (Folder.mk jenkins FolderResponse_zero "/job/org/job/team")])
           (served [(200%Z, "{}")])
           (mkRemote []
              [CallJobPoll
                 (Job.mk jenkins JobResponse_zero
                    "/job/org/job/team/job/build")])
           eq_refl eq_refl).
Defined.

(** A credential that the server does not find. *)
Lemma DeleteCredentialInFolder_outcomes_witness :
  fst (DeleteCredentialInFolder jenkins "" "deploy-key" ["org"]
         (served [(404%Z, "")]))
  = (None, Some (errorString "404")).
Proof.
  destruct (DeleteCredentialInFolder_outcomes jenkins "" "deploy-key" ["org"]
              (served [(404%Z, "")])) as (_ & _ & Hposted).
  destruct Hposted as (path & Hpath & _ & Hresult); [discriminate |].
  rewrite Hresult, Hpath. reflexivity.
Defined.

(** A job name that is not a string, and parameters that are not a
    map. *)
Lemma job_options_witness :
  CreateJob jenkins "<project/>" [AnyOther] (served [])
  = (Panics interface_conversion, served [])
  /\ BuildJob jenkins "build" [AnyString "branch=main"] (served [(7%Z, "")])
     = BuildJob jenkins "build" [] (served [(7%Z, "")]).
Proof.
  destruct (job_options jenkins "<project/>" "build" AnyOther []
              (served [])) as (_ & Hcreate & _).
  destruct (job_options jenkins "<project/>" "build"
              (AnyString "branch=main") [] (served [(7%Z, "")]))
    as (_ & _ & _ & _ & Hbuild & _).
  split; [apply Hcreate | apply Hbuild]; discriminate.
Defined.

End JenkinsInstances.

Section HandlerInstances.

Import ReferenceJenkins.

(** A body that is not JSON, while Jenkins is running. *)
Lemma unreadable_request_goes_on_witness :
  SetupMailServer unreadable
  = (Panics nil_dereference,
     [ParseSvcErr
        (restful_NewError StatusBadRequest "unexpected end of JSON input")]).
Proof.
  destruct (unreadable_request_goes_on unreadable
              None (jsonSyntaxError "unexpected end of JSON input") eq_refl)
    as (_ & Hnil & _).
  exact (Hnil eq_refl eq_refl).
Defined.

(** On the empty flag set. *)
Lemma AddFlags_sets_the_defaults_witness :
  AddFlags (ServerRunOptions.mk "127.0.0.1" 8080 8443 "tls.crt" "tls.key")
    (mkFlagSet "ks-apiserver" [])
  = (NewServerRunOptions,
     Returns
       (mkFlagSet "ks-apiserver"
          [mkFlag "bind-address" "0.0.0.0" "server bind address";
           mkFlag "insecure-port" "9090" "insecure port number";
           mkFlag "secure-port" "0" "secure port number";
           mkFlag "tls-cert-file" "" "tls cert file";
           mkFlag "tls-private-key" "" "tls private key"])).
Proof.
  refine (proj1 (AddFlags_sets_the_defaults
                   (ServerRunOptions.mk "127.0.0.1" 8080 8443 "tls.crt"
                      "tls.key")
                   (mkFlagSet "ks-apiserver" []) _)).
  intros f [].
Defined.

End HandlerInstances.
